(** * Client-side synchronisation layer of the wuya study-notes application

  A shallow embedding of the service modules (socialService, noteService,
  friendService, notificationService, authService) and of the state
  updates of the views that drive them (SquareView, FriendsView,
  HomeView, NotificationView, CategorySelector), followed by the
  properties of the synchronisation layer: cache freshness, optimistic
  updates and their rollback, the merge of realtime events, and error
  propagation.

  Conventions of the embedding.
  - A JavaScript number holding a count or a timestamp is a [Z].
  - An [async] function is cut at its [await]s: what the remote side
    answered is an argument ([Reply]), what the caller observes is an
    [Outcome] (the promise resolves or rejects).
  - Module-level caches and React state are explicit state, threaded
    through the functions; a functional [setPosts (current => ...)] is
    a function on the list, a [setPosts (posts.map ...)] written over
    the render's snapshot is a function of that snapshot. *)

From stdpp Require Import base strings list gmap pretty sorting.
From Stdlib Require Import ZArith Lia Ascii.

(** ** JavaScript and gateway basics *)

Module Js.

(** What a gateway call hands back to the code that awaited it:
    [{ data, error: null }], [{ data: null, error }], or an exception
    raised by the call itself. *)
Inductive Reply (A : Type) : Type :=
| Data (a : A)
| Error (e : string)
| Thrown (e : string).
Arguments Data {A} a.
Arguments Error {A} e.
Arguments Thrown {A} e.

(** The settlement of the promise returned by an [async] function. *)
Inductive Outcome (A : Type) : Type :=
| Resolved (a : A)
| Rejected (e : string).
Arguments Resolved {A} a.
Arguments Rejected {A} e.

Definition is_rejected {A} (o : Outcome A) : bool :=
  match o with Rejected _ => true | Resolved _ => false end.

(** [s || d] on strings: the empty string is falsy. *)
Definition or_default (s d : string) : string :=
  if String.eqb s "" then d else s.

(** [xs || []] on a nullable array. *)
Definition or_empty {A} (xs : option (list A)) : list A :=
  match xs with Some l => l | None => [] end.

(** [xs[0]?.count || 0] on an array of [{count}] objects. *)
Definition first_count (xs : list Z) : Z :=
  match xs with c :: _ => c | [] => 0%Z end.

(** [cond ? xs?.some(x => x === v) : false], with [undefined] read as
    the falsy value it is. *)
Definition some_eq (xs : option (list string)) (v : string) : bool :=
  match xs with Some l => existsb (String.eqb v) l | None => false end.

(** [Math.max(0, n)]. *)
Definition max0 (n : Z) : Z := Z.max 0 n.

(** White space of one byte, as removed by [String.prototype.trim]:
    space, tab, line feed, vertical tab, form feed, carriage return. *)
Definition is_space (c : ascii) : bool :=
  match c with
  | " "%char | "009"%char | "010"%char | "011"%char | "012"%char
  | "013"%char => true
  | _ => false
  end.

(** The last byte of a white-space character U+2000..U+200A, U+2028,
    U+2029 or U+202F, whose first bytes are E2 80. *)
Definition is_space_e2_80 (c : ascii) : bool :=
  let n := nat_of_ascii c in
  (Nat.leb 128 n && Nat.leb n 138) || Nat.eqb n 168 || Nat.eqb n 169
  || Nat.eqb n 175.

(** The string consists of white space only. Strings are sequences of
    UTF-8 bytes: besides the one-byte characters, U+00A0, U+1680,
    U+2000..U+200A, U+2028, U+2029, U+202F, U+205F, U+3000 and U+FEFF
    are white space. *)
Fixpoint all_space (s : string) : bool :=
  match s with
  | EmptyString => true
  | String c s' =>
      if is_space c then all_space s'
      else
        match nat_of_ascii c, s' with
        | 194%nat, String c2 r =>
            Nat.eqb (nat_of_ascii c2) 160 && all_space r
        | 225%nat, String c2 (String c3 r) =>
            Nat.eqb (nat_of_ascii c2) 154 && Nat.eqb (nat_of_ascii c3) 128
            && all_space r
        | 226%nat, String c2 (String c3 r) =>
            ((Nat.eqb (nat_of_ascii c2) 128 && is_space_e2_80 c3)
             || (Nat.eqb (nat_of_ascii c2) 129
                 && Nat.eqb (nat_of_ascii c3) 159))
            && all_space r
        | 227%nat, String c2 (String c3 r) =>
            Nat.eqb (nat_of_ascii c2) 128 && Nat.eqb (nat_of_ascii c3) 128
            && all_space r
        | 239%nat, String c2 (String c3 r) =>
            Nat.eqb (nat_of_ascii c2) 187 && Nat.eqb (nat_of_ascii c3) 191
            && all_space r
        | _, _ => false
        end
  end.

(** [!query.trim()]: the trimmed string is empty. *)
Definition blank (s : string) : bool := all_space s.

(** Leading white space removed. *)
Fixpoint trim_start (s : string) : string :=
  match s with
  | EmptyString => EmptyString
  | String c s' =>
      if is_space c then trim_start s'
      else
        match nat_of_ascii c, s' with
        | 194%nat, String c2 r =>
            if Nat.eqb (nat_of_ascii c2) 160 then trim_start r else s
        | 225%nat, String c2 (String c3 r) =>
            if Nat.eqb (nat_of_ascii c2) 154
               && Nat.eqb (nat_of_ascii c3) 128
            then trim_start r else s
        | 226%nat, String c2 (String c3 r) =>
            if (Nat.eqb (nat_of_ascii c2) 128 && is_space_e2_80 c3)
               || (Nat.eqb (nat_of_ascii c2) 129
                   && Nat.eqb (nat_of_ascii c3) 159)
            then trim_start r else s
        | 227%nat, String c2 (String c3 r) =>
            if Nat.eqb (nat_of_ascii c2) 128
               && Nat.eqb (nat_of_ascii c3) 128
            then trim_start r else s
        | 239%nat, String c2 (String c3 r) =>
            if Nat.eqb (nat_of_ascii c2) 187
               && Nat.eqb (nat_of_ascii c3) 191
            then trim_start r else s
        | _, _ => s
        end
  end.

(** Trailing white space removed: the string is cut where only white
    space follows. *)
Fixpoint trim_end (s : string) : string :=
  match s with
  | EmptyString => EmptyString
  | String c s' => if all_space s then EmptyString else String c (trim_end s')
  end.

(** [s.trim()] *)
Definition trim (s : string) : string := trim_end (trim_start s).

(** [Promise.all]: all the values in order, or a rejection. *)
Fixpoint promise_all {A} (settled : list (Outcome A)) : Outcome (list A) :=
  match settled with
  | [] => Resolved []
  | Rejected e :: _ => Rejected e
  | Resolved a :: rest =>
      match promise_all rest with
      | Resolved l => Resolved (a :: l)
      | Rejected e => Rejected e
      end
  end.

End Js.
Import Js.

(** ** The entities of [types.ts] *)

(** [time] of a post or comment: the literal label of an optimistic
  entry, or [new Date(created_at).toLocaleString()], kept symbolic
  since its text depends on the locale. *)
Inductive TimeLabel : Type :=
| JustNow
| LocaleString (created_at : string).

Module Post.
Record Author := mkAuthor { name : string; avatar : string }.
Record t := mk {
  id : string;
  userId : string;
  author : Author;
  content : string;
  images : list string;
  likes : Z;
  comments : Z;
  isLiked : bool;
  isBookmarked : bool;
  time : TimeLabel;
  tags : list string
}.

(** [{ ...p, isLiked: l, likes: n }] *)
Definition with_like (p : t) (l : bool) (n : Z) : t :=
  mk (id p) (userId p) (author p) (content p) (images p) n (comments p)
     l (isBookmarked p) (time p) (tags p).

(** [{ ...p, likes: n }] *)
Definition with_likes (p : t) (n : Z) : t :=
  mk (id p) (userId p) (author p) (content p) (images p) n (comments p)
     (isLiked p) (isBookmarked p) (time p) (tags p).

(** [{ ...p, comments: n }] *)
Definition with_comments (p : t) (n : Z) : t :=
  mk (id p) (userId p) (author p) (content p) (images p) (likes p) n
     (isLiked p) (isBookmarked p) (time p) (tags p).

(** [{ ...p, isBookmarked: b }] *)
Definition with_bookmark (p : t) (b : bool) : t :=
  mk (id p) (userId p) (author p) (content p) (images p) (likes p)
     (comments p) (isLiked p) b (time p) (tags p).

(** [{ ...p, content, images, tags }] *)
Definition with_edit (p : t) (c : string) (imgs tgs : list string) : t :=
  mk (id p) (userId p) (author p) c imgs (likes p) (comments p)
     (isLiked p) (isBookmarked p) (time p) tgs.
End Post.

Module Comment.
Record t := mk {
  id : string;
  author : string;
  avatar : string;
  content : string;
  time : TimeLabel
}.
End Comment.

Module Note.
Record t := mk {
  id : string;
  title : string;
  content : string;
  category : string;
  date : string;
  lastEdited : Z
}.
End Note.

(** A cached collection with its fetch time:
  [{ data: T[], timestamp: number }]. *)
Record Cached (A : Type) : Type := mkCached {
data : list A;
timestamp : Z
}.
Arguments mkCached {A} data timestamp.
Arguments data {A} c.
Arguments timestamp {A} c.

(** ** The remote data gateway, as far as the services depend on it *)

Module Gateway.

(** The state of the connection when a query is sent: the query is
    answered, it comes back as an [error] object, or the client call
    itself raises. *)
Inductive Link : Type :=
| Up
| Down (e : string)
| Broken (e : string).

Definition answer {A} (l : Link) (r : Reply A) : Reply A :=
  match l with
  | Up => r
  | Down e => Error e
  | Broken e => Thrown e
  end.

(** [.single()]: exactly one row, otherwise an error object. *)
Definition single {A} (rows : list A) : Reply A :=
  match rows with
  | [r] => Data r
  | _ => Error "PGRST116"
  end.

(** [.eq(column, value)] on a text column. *)
Definition eq {A} (column : A -> string) (value : string)
    (rows : list A) : list A :=
  List.filter (fun r => String.eqb (column r) value) rows.

End Gateway.

(** The embedded [profiles:user_id (name, avatar)] of a joined row. *)
Record ProfileRef := mkProfileRef { pr_name : string; pr_avatar : string }.

(** A joined relation comes back as one object or as an array of them:
  [Array.isArray(c.profiles) ? c.profiles[0] : c.profiles]. *)
Inductive ProfilesCol : Type :=
| OneProfile (p : option ProfileRef)
| ManyProfiles (ps : list ProfileRef).

Definition first_profile (c : ProfilesCol) : option ProfileRef :=
match c with
| OneProfile p => p
| ManyProfiles ps => head ps
end.

(** [profile?.name || 'Unknown'] and [profile?.avatar || '']. *)
Definition name_of (p : option ProfileRef) : string :=
match p with
| Some r => or_default (pr_name r) "Unknown"
| None => "Unknown"
end.

Definition avatar_of (p : option ProfileRef) : string :=
match p with
| Some r => or_default (pr_avatar r) ""
| None => ""
end.

(** [cond ? xs?.some(x => x.user_id === cond) : false] for a user id
  that may be missing or empty. *)
Definition mine (currentUserId : option string)
  (xs : option (list string)) : bool :=
match currentUserId with
| Some u => if String.eqb u "" then false else some_eq xs u
| None => false
end.

(** ** services/socialService.ts *)

Module socialService.

(** A row of the feed query of [getPosts]:
    [*, profiles, comments(count), likes(count), my_like, my_bookmark]. *)
Module PostRow.
Record t := mk {
  id : string;
  user_id : string;
  profiles : option ProfileRef;
  content : string;
  images : option (list string);
  likes : list Z;
  comments : list Z;
  my_like : option (list string);
  my_bookmark : option (list string);
  created_at : string;
  tags : option (list string)
}.
End PostRow.

(** A row of the by-id and by-user queries:
    [*, profiles, comments(count), likes(user_id), bookmarks(user_id)].
    The [likes] and [bookmarks] relations carry user ids, no [count],
    and there is no [my_like] or [my_bookmark] column. *)
Module JoinedRow.
Record t := mk {
  id : string;
  user_id : string;
  profiles : option ProfileRef;
  content : string;
  images : option (list string);
  likes : list string;
  comments : list Z;
  bookmarks : list string;
  created_at : string;
  tags : option (list string)
}.
End JoinedRow.

(** The plain row returned by [insert(...).select().single()]. *)
Module PostRecord.
Record t := mk {
  id : string;
  user_id : string;
  content : string;
  images : list string;
  tags : list string;
  created_at : string
}.
End PostRecord.

Module CommentRow.
Record t := mk {
  id : string;
  content : string;
  created_at : string;
  profiles : ProfilesCol
}.
End CommentRow.

(** The two module-level caches. *)
Record State := mkState {
  postsCache : option (Cached Post.t);
  commentsCache : gmap string (Cached Comment.t)
}.

Definition set_postsCache (st : State) (c : option (Cached Post.t)) :=
  mkState c (commentsCache st).

Definition CACHE_TTL : Z := 5 * 60 * 1000.

Definition toPost (currentUserId : option string) (p : PostRow.t)
    : Post.t :=
  Post.mk (PostRow.id p) (PostRow.user_id p)
    (Post.mkAuthor (name_of (PostRow.profiles p))
                   (avatar_of (PostRow.profiles p)))
    (PostRow.content p)
    (or_empty (PostRow.images p))
    (first_count (PostRow.likes p))
    (first_count (PostRow.comments p))
    (mine currentUserId (PostRow.my_like p))
    (mine currentUserId (PostRow.my_bookmark p))
    (LocaleString (PostRow.created_at p))
    (or_empty (PostRow.tags p)).

(** The mapping of [getPostById] and [getUserPosts]. It reads
    [likes[0]?.count], which a [likes(user_id)] row does not have, and
    [my_like] / [my_bookmark], which the query does not select: the
    like count is 0 and both flags are falsy. *)
Definition toPostJoined (p : JoinedRow.t) : Post.t :=
  Post.mk (JoinedRow.id p) (JoinedRow.user_id p)
    (Post.mkAuthor (name_of (JoinedRow.profiles p))
                   (avatar_of (JoinedRow.profiles p)))
    (JoinedRow.content p)
    (or_empty (JoinedRow.images p))
    0%Z
    (first_count (JoinedRow.comments p))
    false
    false
    (LocaleString (JoinedRow.created_at p))
    (or_empty (JoinedRow.tags p)).

(** [page === 0 && !forceRefresh && postsCache &&
     (Date.now() - postsCache.timestamp < CACHE_TTL)] *)
Definition fresh_posts (page : Z) (forceRefresh : bool) (now : Z)
    (st : State) : option (list Post.t) :=
  if (page =? 0)%Z && negb forceRefresh then
    match postsCache st with
    | Some c =>
        if (now - timestamp c <? CACHE_TTL)%Z then Some (data c) else None
    | None => None
    end
  else None.

(** [getPosts]: [now] is the clock at the cache check, [now'] the clock
    when the reply has been mapped. *)
Definition getPosts (page pageSize : Z) (forceRefresh : bool)
    (now : Z) (reply : Reply (list PostRow.t))
    (currentUserId : option string) (now' : Z) (st : State)
    : State * Outcome (list Post.t) :=
  match fresh_posts page forceRefresh now st with
  | Some cached => (st, Resolved cached)
  | None =>
      match reply with
      | Thrown e => (st, Rejected e)
      | Error _ => (st, Resolved [])
      | Data rows =>
          let posts := map (toPost currentUserId) rows in
          let st' :=
            if (page =? 0)%Z
            then set_postsCache st (Some (mkCached posts now'))
            else st in
          (st', Resolved posts)
      end
  end.

Definition getCacheInfo (st : State) : option (Cached Post.t) :=
  postsCache st.

(** [getPostById]: the query [.eq('id', postId).single()] runs on the
    rows the gateway holds. *)
Definition getPostById (link : Gateway.Link) (table : list JoinedRow.t)
    (postId : string) : Outcome (option Post.t) :=
  match Gateway.answer link
          (Gateway.single (Gateway.eq JoinedRow.id postId table)) with
  | Thrown e => Rejected e
  | Error _ => Resolved None
  | Data row => Resolved (Some (toPostJoined row))
  end.

Definition toComment (c : CommentRow.t) : Comment.t :=
  let profile := first_profile (CommentRow.profiles c) in
  Comment.mk (CommentRow.id c) (name_of profile) (avatar_of profile)
    (CommentRow.content c) (LocaleString (CommentRow.created_at c)).

(** [!forceRefresh], then the cached entry of the post if it is
    younger than [CACHE_TTL]. *)
Definition fresh_comments (postId : string) (forceRefresh : bool)
    (now : Z) (st : State) : option (list Comment.t) :=
  if forceRefresh then None
  else
    match commentsCache st !! postId with
    | Some c =>
        if (now - timestamp c <? CACHE_TTL)%Z then Some (data c) else None
    | None => None
    end.

Definition getComments (postId : string) (forceRefresh : bool)
    (now : Z) (reply : Reply (list CommentRow.t)) (now' : Z) (st : State)
    : State * Outcome (list Comment.t) :=
  match fresh_comments postId forceRefresh now st with
  | Some cached => (st, Resolved cached)
  | None =>
      match reply with
      | Thrown e => (st, Rejected e)
      | Error _ => (st, Resolved [])
      | Data rows =>
          let comments := map toComment rows in
          (mkState (postsCache st)
             (<[postId := mkCached comments now']> (commentsCache st)),
           Resolved comments)
      end
  end.

(** [postsCache.data.map(p => p.id === postId ?
      { ...p, comments: p.comments + 1 } : p)] *)
Definition bump_comments (postId : string) (p : Post.t) : Post.t :=
  if String.eqb (Post.id p) postId
  then Post.with_comments p (Post.comments p + 1)
  else p.

Definition createComment (userId postId content : string)
    (reply : Reply CommentRow.t) (now : Z) (st : State)
    : State * Outcome Comment.t :=
  match reply with
  | Thrown e => (st, Rejected e)
  | Error e => (st, Rejected e)
  | Data row =>
      let newComment := toComment row in
      let pc :=
        match postsCache st with
        | Some c =>
            Some (mkCached (map (bump_comments postId) (data c))
                           (timestamp c))
        | None => None
        end in
      let cc :=
        match commentsCache st !! postId with
        | Some cached =>
            <[postId := mkCached (data cached ++ [newComment]) now]>
              (commentsCache st)
        | None => commentsCache st
        end in
      (mkState pc cc, Resolved newComment)
  end.

Definition createPost (userId content : string)
    (images tags : list string) (reply : Reply PostRecord.t) (st : State)
    : State * Outcome PostRecord.t :=
  match reply with
  | Thrown e => (st, Rejected e)
  | Error e => (st, Rejected e)
  | Data row => (set_postsCache st None, Resolved row)
  end.

Definition deletePost (postId : string) (reply : Reply unit) (st : State)
    : State * Outcome unit :=
  match reply with
  | Thrown e => (st, Rejected e)
  | Error e => (st, Rejected e)
  | Data _ =>
      let pc :=
        match postsCache st with
        | Some c =>
            Some (mkCached
                    (List.filter
                       (fun p => negb (String.eqb (Post.id p) postId))
                       (data c))
                    (timestamp c))
        | None => None
        end in
      (set_postsCache st pc, Resolved tt)
  end.

Definition updatePost (postId : string) (reply : Reply PostRecord.t)
    (st : State) : State * Outcome PostRecord.t :=
  match reply with
  | Thrown e => (st, Rejected e)
  | Error e => (st, Rejected e)
  | Data row => (set_postsCache st None, Resolved row)
  end.

(** The optimistic cache update of [toggleLike]. *)
Definition flip_like (postId : string) (p : Post.t) : Post.t :=
  if String.eqb (Post.id p) postId then
    let newLiked := negb (Post.isLiked p) in
    Post.with_like p newLiked
      (if newLiked then Post.likes p + 1 else max0 (Post.likes p - 1))
  else p.

(** [toggleLike]: the cache is updated before the first await;
    [existing] answers the look-up of the like row (an error object
    leaves [existing] null), [write] answers the delete or the insert,
    whose [error] is not inspected. *)
Definition toggleLike (postId userId : string)
    (existing : Reply unit) (write : Reply unit) (st : State)
    : State * Outcome bool :=
  let st1 :=
    match postsCache st with
    | Some c =>
        set_postsCache st
          (Some (mkCached (map (flip_like postId) (data c)) (timestamp c)))
    | None => st
    end in
  match existing with
  | Thrown e => (st1, Rejected e)
  | Data _ =>
      match write with
      | Thrown e => (st1, Rejected e)
      | _ => (st1, Resolved false)
      end
  | Error _ =>
      match write with
      | Thrown e => (st1, Rejected e)
      | _ => (st1, Resolved true)
      end
  end.

Definition flip_bookmark (postId : string) (p : Post.t) : Post.t :=
  if String.eqb (Post.id p) postId
  then Post.with_bookmark p (negb (Post.isBookmarked p))
  else p.

Definition toggleBookmark (postId userId : string)
    (existing : Reply unit) (write : Reply unit) (st : State)
    : State * Outcome bool :=
  let st1 :=
    match postsCache st with
    | Some c =>
        set_postsCache st
          (Some (mkCached (map (flip_bookmark postId) (data c))
                          (timestamp c)))
    | None => st
    end in
  match existing with
  | Thrown e => (st1, Rejected e)
  | Data _ =>
      match write with
      | Thrown e => (st1, Rejected e)
      | _ => (st1, Resolved false)
      end
  | Error _ =>
      match write with
      | Thrown e => (st1, Rejected e)
      | _ => (st1, Resolved true)
      end
  end.




(** [getPostInteractions]: three queries whose [error] is not
    inspected; [rows?.map(...) || []] turns a failed one into an empty
    list. *)
Module Person.
Record t := mk { id : string; name : string; avatar : string }.
End Person.

Module PersonRow.
Record t := mk { user_id : string; profiles : option ProfileRef }.
End PersonRow.

Module Remark.
Record t := mk {
  id : string;
  content : string;
  time : TimeLabel;
  author : Post.Author
}.
End Remark.

Module RemarkRow.
Record t := mk {
  id : string;
  content : string;
  created_at : string;
  profiles : option ProfileRef
}.
End RemarkRow.






End socialService.

(** ** components/SquareView.tsx: the feed and its handlers *)

Module SquareView.

(** [current.some(p => p.id === i)] *)
Definition has_id (i : string) (l : list Post.t) : bool :=
  existsb (fun p => String.eqb (Post.id p) i) l.

(** [current.filter(p => p.id !== i)] *)
Definition without (i : string) (l : list Post.t) : list Post.t :=
  List.filter (fun p => negb (String.eqb (Post.id p) i)) l.

(** [current.map(p => p.id === i ? q : p)] *)
Definition replace (i : string) (q : Post.t) (l : list Post.t)
    : list Post.t :=
  map (fun p => if String.eqb (Post.id p) i then q else p) l.

Inductive EventType : Type := INSERT | UPDATE | DELETE.

(** *** Realtime channel of the [posts] table *)

(** The state update of the INSERT branch, once [getPostById] has
    settled with [fetched]; nothing is updated when the post was not
    found or the fetch raised. *)
Definition on_post_insert (newPostId : string)
    (fetched : Outcome (option Post.t)) (current : list Post.t)
    : list Post.t :=
  match fetched with
  | Resolved (Some fullPost) =>
      if has_id newPostId current then current else fullPost :: current
  | _ => current
  end.

Definition on_post_update (updatedPostId : string)
    (fetched : Outcome (option Post.t)) (current : list Post.t)
    : list Post.t :=
  match fetched with
  | Resolved (Some fullPost) => replace updatedPostId fullPost current
  | _ => current
  end.

(** [payload.old.id] may be missing or empty. *)
Definition on_post_delete (deletedId : option string)
    (current : list Post.t) : list Post.t :=
  match deletedId with
  | Some i => if String.eqb i "" then current else without i current
  | None => current
  end.

(** *** Realtime channels of the [likes] and [comments] tables *)

Record RowEvent := mkRowEvent {
  eventType : EventType;
  new_post_id : option string;
  old_post_id : option string
}.

(** [newPayload?.post_id || oldPayload?.post_id], [None] when the
    result is falsy. *)
Definition target (ev : RowEvent) : option string :=
  let truthy o :=
    match o with
    | Some s => if String.eqb s "" then None else Some s
    | None => None
    end in
  match truthy (new_post_id ev) with
  | Some s => Some s
  | None => truthy (old_post_id ev)
  end.

Definition delta (e : EventType) : Z :=
  match e with
  | INSERT => 1
  | DELETE => -1
  | UPDATE => 0
  end%Z.

Definition likesChannel (ev : RowEvent) (current : list Post.t)
    : list Post.t :=
  match target ev with
  | None => current
  | Some postId =>
      map (fun p =>
             if String.eqb (Post.id p) postId
             then Post.with_likes p
                    (max0 (Post.likes p + delta (eventType ev)))
             else p) current
  end.

Definition commentsChannel (ev : RowEvent) (current : list Post.t)
    : list Post.t :=
  match target ev with
  | None => current
  | Some postId =>
      map (fun p =>
             if String.eqb (Post.id p) postId
             then Post.with_comments p
                    (max0 (Post.comments p + delta (eventType ev)))
             else p) current
  end.

(** *** Loading the feed *)

Record View := mkView {
  posts : list Post.t;
  page : Z;
  hasMore : bool;
  isLoading : bool
}.

(** A call of [socialService.getPosts] issued by the view, awaited in
    place or left to run in the background. *)
Inductive Fetch : Type :=
| Awaited (page pageSize : Z) (forceRefresh : bool)
| Background (page pageSize : Z) (forceRefresh : bool).

(** The synchronous part of [loadPosts] at clock [now]: the new view
    and the fetches it issues. *)
Definition loadPosts (now : Z) (svc : socialService.State) (v : View)
    : View * list Fetch :=
  match socialService.getCacheInfo svc with
  | Some cached =>
      (mkView (data cached) (page v) (hasMore v) (isLoading v),
       if (now - timestamp cached >? 30000)%Z
       then [Background 0 10 true]
       else [])
  | None =>
      (mkView (posts v) (page v) (hasMore v) true,
       [Awaited 0 10 false])
  end.

(** The continuation of the background refresh:
    [setPosts(data); setPage(0); setHasMore(data.length === 10)]. *)
Definition refreshed (fetched : list Post.t) (v : View) : View :=
  mkView fetched 0 (Nat.eqb (length fetched) 10) (isLoading v).

(** The continuation of the awaited first load; a rejection lands in
    the [catch], which only clears the spinner. *)
Definition loaded (fetched : Outcome (list Post.t)) (v : View) : View :=
  match fetched with
  | Resolved l => mkView l 0 (Nat.eqb (length l) 10) false
  | Rejected _ => mkView (posts v) (page v) (hasMore v) false
  end.

(** *** The like button *)

(** [const isNowLiked = !post.isLiked;
     const newCount = isNowLiked ? post.likes + 1 : post.likes - 1;
     setPosts(posts.map(p => p.id === post.id ?
       { ...p, isLiked: isNowLiked, likes: newCount } : p))]
    over the [posts] and the [post] of the render. *)
Definition like_optimistic (posts : list Post.t) (post : Post.t)
    : list Post.t :=
  let isNowLiked := negb (Post.isLiked post) in
  let newCount :=
    (if isNowLiked then Post.likes post + 1 else Post.likes post - 1)%Z in
  map (fun p =>
         if String.eqb (Post.id p) (Post.id post)
         then Post.with_like p isNowLiked newCount
         else p) posts.

(** The [catch]:
    [setPosts(posts.map(p => p.id === post.id ?
       { ...p, isLiked: !isNowLiked, likes: post.likes } : p))]. *)
Definition like_revert (posts : list Post.t) (post : Post.t)
    : list Post.t :=
  let isNowLiked := negb (Post.isLiked post) in
  map (fun p =>
         if String.eqb (Post.id p) (Post.id post)
         then Post.with_like p (negb isNowLiked) (Post.likes post)
         else p) posts.

(** What the click leaves behind: the feed, the service caches and the
    [likesReceived] statistic of the acting user. *)
Record Shown := mkShown {
  feed : list Post.t;
  service : socialService.State;
  likesReceived : Z
}.

(** The whole click handler, run without another update in between.
    [authUser] is the id of the signed-in user, if any. *)
Definition likeClick (posts : list Post.t) (post : Post.t)
    (authUser : option string) (existing write : Reply unit)
    (svc : socialService.State) (received : Z) : Shown :=
  let isNowLiked := negb (Post.isLiked post) in
  let shown := like_optimistic posts post in
  match authUser with
  | None => mkShown shown svc received
  | Some uid =>
      match socialService.toggleLike (Post.id post) uid existing write svc
      with
      | (svc', Resolved _) =>
          mkShown shown svc'
            (if String.eqb (Post.userId post) uid
             then (if isNowLiked then received + 1
                   else max0 (received - 1))%Z
             else received)
      | (svc', Rejected _) =>
          mkShown (like_revert posts post) svc' received
      end
  end.

(** [onCommentAdded]:
    [setPosts(posts.map(p => p.id === PostId ?
       { ...p, comments: p.comments + 1 } : p))]. *)
Definition onCommentAdded (posts : list Post.t) (PostId : string)
    : list Post.t :=
  map (fun p =>
         if String.eqb (Post.id p) PostId
         then Post.with_comments p (Post.comments p + 1)
         else p) posts.

(** *** Publishing *)

Record Composer := mkComposer {
  newPostContent : string;
  newPostImages : list string;
  selectedPublishTags : list string;
  isUploadingImages : bool
}.

(** The guards of [publishPost]: nothing is published while images
    upload, for an empty draft, or without a session. *)
Definition may_publish (c : Composer) (authUser : option string) : bool :=
  negb (isUploadingImages c)
  && negb (blank (newPostContent c)
           && Nat.eqb (length (newPostImages c)) 0)
  && match authUser with Some _ => true | None => false end.

(** ['temp-' + Date.now()] *)
Definition tempId (now : Z) : string := "temp-" +:+ pretty now.

(** [savedTags.length > 0 ? savedTags : ['成长']] *)
Definition tags_or_default (savedTags : list string) : list string :=
  match savedTags with
  | [] => ["成长"]
  | _ => savedTags
  end.

Definition optimisticPost (now : Z) (authUserId : string)
    (user : Post.Author) (c : Composer) : Post.t :=
  Post.mk (tempId now) authUserId
    (Post.mkAuthor (Post.name user) (Post.avatar user))
    (newPostContent c) (newPostImages c) 0 0 false false JustNow
    (tags_or_default (selectedPublishTags c)).

(** [setPosts(prev => [optimisticPost, ...prev])] *)
Definition prepend (optimistic : Post.t) (prev : list Post.t)
    : list Post.t :=
  optimistic :: prev.

(** The update after a confirmed publish whose post was re-fetched:
    drop the temporary entry when the realtime listener has already
    added the real one, otherwise swap the real one in. *)
Definition reconcile (tmp : string) (fullPost : Post.t)
    (prev : list Post.t) : list Post.t :=
  if has_id (Post.id fullPost) prev
  then without tmp prev
  else replace tmp fullPost prev.

(** [setPosts(prev => prev.filter(p => p.id !== tempId))] *)
Definition rollback (tmp : string) (prev : list Post.t) : list Post.t :=
  without tmp prev.

(** What follows the awaits of [publishPost]. [created] settles
    [createPost]; [fetched] settles [getPostById(dbRecord.id)]. The
    flag asks for [loadPosts()], the fallback when the post could not
    be re-fetched. *)
Definition settle_publish (tmp : string)
    (created : Outcome socialService.PostRecord.t)
    (fetched : Outcome (option Post.t)) (prev : list Post.t)
    : list Post.t * bool :=
  match created with
  | Rejected _ => (rollback tmp prev, false)
  | Resolved _ =>
      match fetched with
      | Rejected _ => (rollback tmp prev, false)
      | Resolved (Some fullPost) => (reconcile tmp fullPost prev, false)
      | Resolved None => (prev, true)
      end
  end.

(** The delete confirmation: the entry leaves the feed only after
    [deletePost] resolved. *)
Definition confirm_delete (i : string) (deleted : Outcome unit)
    (current : list Post.t) : list Post.t :=
  match deleted with
  | Resolved _ => without i current
  | Rejected _ => current
  end.

(** The number of entries of the feed that carry the id [i]. *)
Definition count_id (i : string) (l : list Post.t) : nat :=
  length (List.filter (fun p => String.eqb (Post.id p) i) l).

(** The INSERT events of one post id delivered one after the other,
    each with the settlement of its own [getPostById]. *)
Definition replay_inserts (newPostId : string)
    (fetches : list (Outcome (option Post.t))) (current : list Post.t)
    : list Post.t :=
  fold_left (fun cur fetched => on_post_insert newPostId fetched cur)
    fetches current.

(** The settlements of [getPostById(i)] for a series of INSERT events
    of the post [i], each sent over its own link against the rows the
    gateway holds at that moment. *)
Definition fetches_of (i : string)
    (calls : list (Gateway.Link * list socialService.JoinedRow.t))
    : list (Outcome (option Post.t)) :=
  map (fun c => socialService.getPostById (fst c) (snd c) i) calls.

(** *** Loading more, bookmarks, tags and images *)

(** The request of [handleLoadMore]: nothing while a page is loading or
    when no more pages are expected, otherwise the next page of 10. *)
Definition load_more_request (isLoadingMore : bool) (v : View)
    : option (Z * Z) :=
  if isLoadingMore || negb (hasMore v) then None
  else Some ((page v + 1)%Z, 10%Z).

(** [handleLoadMore], with the settlement of its [getPosts]; the flag is
    [isLoadingMore] afterwards. *)
Definition handleLoadMore (isLoadingMore : bool)
    (fetched : Outcome (list Post.t)) (v : View) : View * bool :=
  if isLoadingMore || negb (hasMore v) then (v, isLoadingMore)
  else
    match fetched with
    | Resolved newData =>
        (mkView (posts v ++ newData) (page v + 1)
           (if Nat.ltb (length newData) 10 then false else hasMore v)
           (isLoading v),
         false)
    | Rejected _ => (v, false)
    end.

(** [const ns = !post.isBookmarked;
     setPosts(posts.map(p => p.id === post.id ?
       { ...p, isBookmarked: ns } : p))] *)
Definition bookmark_optimistic (posts : list Post.t) (post : Post.t)
    : list Post.t :=
  let ns := negb (Post.isBookmarked post) in
  map (fun p =>
         if String.eqb (Post.id p) (Post.id post)
         then Post.with_bookmark p ns
         else p) posts.

(** The [catch] of the bookmark button. *)
Definition bookmark_revert (posts : list Post.t) (post : Post.t)
    : list Post.t :=
  let ns := negb (Post.isBookmarked post) in
  map (fun p =>
         if String.eqb (Post.id p) (Post.id post)
         then Post.with_bookmark p (negb ns)
         else p) posts.

Record Marked := mkMarked {
  marked_feed : list Post.t;
  marked_service : socialService.State;
  bookmarksCount : Z
}.

(** The click handler of the bookmark button, run without another
    update in between. *)
Definition bookmarkClick (posts : list Post.t) (post : Post.t)
    (authUser : option string) (existing write : Reply unit)
    (svc : socialService.State) (count : Z) : Marked :=
  let shown := bookmark_optimistic posts post in
  match authUser with
  | None => mkMarked shown svc count
  | Some uid =>
      match socialService.toggleBookmark (Post.id post) uid existing write
              svc with
      | (svc', Resolved isBookmarked) =>
          mkMarked shown svc'
            (if isBookmarked then count + 1 else max0 (count - 1))%Z
      | (svc', Rejected _) =>
          mkMarked (bookmark_revert posts post) svc' count
      end
  end.

(** [toggleTag]: a selected tag is removed, any other is appended. *)
Definition toggleTag (tag : string) (selectedPublishTags : list string)
    : list string :=
  if existsb (String.eqb tag) selectedPublishTags
  then List.filter (fun t => negb (String.eqb t tag)) selectedPublishTags
  else selectedPublishTags ++ [tag].

(** [toggleFriendSelect] on the set of friends picked for sharing. *)
Definition toggleFriendSelect (id : string) (selected : gset string)
    : gset string :=
  if bool_decide (id ∈ selected)
  then selected ∖ {[ id ]}
  else selected ∪ {[ id ]}.

(** [handleImageSelect], with no other change of the images meanwhile:
    nothing for an empty selection, for more than 3 images in total, or
    without a session; otherwise every file is uploaded ([upload] gives
    the settlement of [storageService.uploadPostImage]) and the urls are
    appended when all uploads went through. *)
Definition handleImageSelect {F : Type} (upload : F -> string -> Outcome string)
    (files : list F) (authUser : option string)
    (newPostImages : list string) : list string :=
  match files with
  | [] => newPostImages
  | _ =>
      if Nat.ltb 3 (length newPostImages + length files) then newPostImages
      else
        match authUser with
        | None => newPostImages
        | Some uid =>
            match promise_all (map (fun file => upload file uid) files) with
            | Resolved urls => newPostImages ++ urls
            | Rejected _ => newPostImages
            end
        end
  end.

(** [removeImage] *)
Definition removeImage (url : string) (newPostImages : list string)
    : list string :=
  List.filter (fun i => negb (String.eqb i url)) newPostImages.

End SquareView.

(** ** The [Date] built-in, as far as the note services use it *)

Module JsDate.
Local Open Scope Z_scope.

Definition msPerDay : Z := 86400000.

Definition is_leap (y : Z) : bool :=
  (y mod 4 =? 0) && (negb (y mod 100 =? 0) || (y mod 400 =? 0)).

Definition days_in_month (y m : Z) : Z :=
  if m =? 2 then (if is_leap y then 29 else 28)
  else if (m =? 4) || (m =? 6) || (m =? 9) || (m =? 11) then 30
  else 31.

(** Day number within a 400-year era of the day [d] of month [m] in
    the March-based year [yoe] of the era. *)
Definition doe_of (yoe m d : Z) : Z :=
  let mp := if m >? 2 then m - 3 else m + 9 in
  let doy := (153 * mp + 2) / 5 + d - 1 in
  yoe * 365 + yoe / 4 - yoe / 100 + doy.

(** [MakeDay(year, month, date)]: days since the epoch of a day of the
    proleptic Gregorian calendar; a date past the end of its month
    runs over into the next. *)
Definition days_from_civil (y m d : Z) : Z :=
  let y' := if m <=? 2 then y - 1 else y in
  let era := y' / 400 in
  let yoe := y' - era * 400 in
  era * 146097 + doe_of yoe m d - 719468.

(** The inverse within an era: March-based year of era, month, day. *)
Definition civil_of_doe (doe : Z) : Z * Z * Z :=
  let yoe := (doe - doe / 1460 + doe / 36524 - doe / 146096) / 365 in
  let doy := doe - (365 * yoe + yoe / 4 - yoe / 100) in
  let mp := (5 * doy + 2) / 153 in
  let d := doy - (153 * mp + 2) / 5 + 1 in
  let m := if mp <? 10 then mp + 3 else mp - 9 in
  (yoe, m, d).

(** [YearFromTime], [MonthFromTime] + 1 and [DateFromTime] of a day
    number. *)
Definition civil_from_days (z : Z) : Z * Z * Z :=
  let z' := z + 719468 in
  let era := z' / 146097 in
  let doe := z' - era * 146097 in
  let '(yoe, m, d) := civil_of_doe doe in
  let y := yoe + era * 400 in
  ((if m <=? 2 then y + 1 else y), m, d).

(** *** Digits *)

Definition digit (n : Z) : ascii := ascii_of_nat (48 + Z.to_nat n).

Definition digit_val (c : ascii) : option Z :=
  let n := Z.of_nat (nat_of_ascii c) in
  if (48 <=? n) && (n <=? 57) then Some (n - 48) else None.

Definition pad2 (n : Z) : string :=
  String (digit (n / 10 mod 10)) (String (digit (n mod 10)) "").

Definition pad3 (n : Z) : string :=
  String (digit (n / 100 mod 10)) (pad2 n).

Definition pad4 (n : Z) : string :=
  String (digit (n / 1000 mod 10)) (pad3 n).

Definition pad6 (n : Z) : string :=
  String (digit (n / 100000 mod 10))
    (String (digit (n / 10000 mod 10)) (pad4 n)).

(** The year of an ISO string: four digits, or a sign and six digits
    outside 0000..9999. *)
Definition iso_year (y : Z) : string :=
  if (0 <=? y) && (y <=? 9999) then pad4 y
  else if y <? 0 then String "-" (pad6 (- y))
  else String "+" (pad6 y).

(** [YYYY-MM-DD] *)
Definition iso_date (y m d : Z) : string :=
  iso_year y +:+ "-" +:+ pad2 m +:+ "-" +:+ pad2 d.

(** [Date.prototype.toISOString] of a time value. *)
Definition toISOString (t : Z) : string :=
  let day := t / msPerDay in
  let ms := t - day * msPerDay in
  let '(y, m, d) := civil_from_days day in
  iso_date y m d +:+ "T"
    +:+ pad2 (ms / 3600000) +:+ ":"
    +:+ pad2 (ms / 60000 mod 60) +:+ ":"
    +:+ pad2 (ms / 1000 mod 60) +:+ "."
    +:+ pad3 (ms mod 1000) +:+ "Z".

(** [s.split(sep)[0]]: the text before the first separator. *)
Fixpoint split_head (sep : ascii) (s : string) : string :=
  match s with
  | EmptyString => EmptyString
  | String c s' =>
      if Ascii.eqb c sep then EmptyString
      else String c (split_head sep s')
  end.

Definition num2 (a b : ascii) : option Z :=
  match digit_val a, digit_val b with
  | Some x, Some y => Some (10 * x + y)
  | _, _ => None
  end.

Definition num3 (a b c : ascii) : option Z :=
  match digit_val a, num2 b c with
  | Some x, Some y => Some (100 * x + y)
  | _, _ => None
  end.

Definition num4 (a b c d : ascii) : option Z :=
  match num2 a b, num2 c d with
  | Some x, Some y => Some (100 * x + y)
  | _, _ => None
  end.

(** The calendar fields of [YYYY-MM-DD]: month 01..12, day 01..31. *)
Definition parse_ymd (y1 y2 y3 y4 m1 m2 d1 d2 : ascii) : option Z :=
  match num4 y1 y2 y3 y4, num2 m1 m2, num2 d1 d2 with
  | Some y, Some m, Some d =>
      if (1 <=? m) && (m <=? 12) && (1 <=? d) && (d <=? 31)
      then Some (days_from_civil y m d)
      else None
  | _, _, _ => None
  end.

(** The clock fields of [HH:mm:ss.sss], in milliseconds. *)
Definition parse_hms (h1 h2 n1 n2 s1 s2 f1 f2 f3 : ascii) : option Z :=
  match num2 h1 h2, num2 n1 n2, num2 s1 s2, num3 f1 f2 f3 with
  | Some h, Some n, Some s, Some f =>
      if (h <=? 23) && (n <=? 59) && (s <=? 59)
      then Some (h * 3600000 + n * 60000 + s * 1000 + f)
      else None
  | _, _, _, _ => None
  end.

(** [Date.parse] on the two ISO forms the services produce: the
    date-only form, read as midnight UTC, and the full UTC form of
    [toISOString]. Any other text is an invalid date here. *)
Definition parse (s : string) : option Z :=
  match s with
  | String y1 (String y2 (String y3 (String y4 (String "-"
      (String m1 (String m2 (String "-" (String d1 (String d2 rest)))))))))
    =>
      match parse_ymd y1 y2 y3 y4 m1 m2 d1 d2 with
      | None => None
      | Some day =>
          match rest with
          | EmptyString => Some (day * msPerDay)
          | String "T" (String h1 (String h2 (String ":"
              (String n1 (String n2 (String ":" (String s1 (String s2
              (String "." (String f1 (String f2 (String f3
              (String "Z" EmptyString))))))))))))) =>
              match parse_hms h1 h2 n1 n2 s1 s2 f1 f2 f3 with
              | Some ms => Some (day * msPerDay + ms)
              | None => None
              end
          | _ => None
          end
      end
  | _ => None
  end.

End JsDate.

(** ** services/noteService.ts *)

Module noteService.

(** A row of the [notes] table. [created_at] and [last_edited] are
    timestamps: the row holds the instant (milliseconds since the
    epoch) that [new Date(column)] denotes on the client. *)
Module NoteRow.
Record t := mk {
  id : string;
  user_id : string;
  title : string;
  content : string;
  category : string;
  created_at : Z;
  last_edited : option Z
}.
End NoteRow.

(** The object handed to [insert]; [created_at] travels as ISO text. *)
Module NoteInsert.
Record t := mk {
  user_id : string;
  title : string;
  content : string;
  category : string;
  created_at : string
}.
End NoteInsert.

(** [Omit<Note, 'id' | 'lastEdited'>] *)
Module Draft.
Record t := mk {
  title : string;
  content : string;
  category : string;
  date : string
}.
End Draft.

(** [from('notes').insert(row).select().single()]: the store reads
    the timestamp text, assigns the id [newId] and its default
    [last_edited], appends the row and returns it. *)
Definition insert (link : Gateway.Link) (newId : string)
    (last_edited : option Z) (ins : NoteInsert.t)
    (table : list NoteRow.t) : list NoteRow.t * Reply NoteRow.t :=
  match link with
  | Gateway.Up =>
      match JsDate.parse (NoteInsert.created_at ins) with
      | Some t =>
          let row :=
            NoteRow.mk newId (NoteInsert.user_id ins)
              (NoteInsert.title ins) (NoteInsert.content ins)
              (NoteInsert.category ins) t last_edited in
          (table ++ [row], Data row)
      | None => (table, Error "22007")
      end
  | Gateway.Down e => (table, Error e)
  | Gateway.Broken e => (table, Thrown e)
  end.

(** The order of [.order('created_at', { ascending: false })]. *)
Definition newer_first (a b : NoteRow.t) : Prop :=
  (NoteRow.created_at b <= NoteRow.created_at a)%Z.

#[global] Instance newer_first_dec (a b : NoteRow.t)
    : Decision (newer_first a b) :=
  Z_le_dec (NoteRow.created_at b) (NoteRow.created_at a).

(** [.eq('user_id', userId).order('created_at', { ascending: false })] *)
Definition select_by_user (userId : string) (table : list NoteRow.t)
    : list NoteRow.t :=
  merge_sort newer_first (Gateway.eq NoteRow.user_id userId table).

(** [new Date(created_at).toISOString().split('T')[0]] *)
Definition date_of (created_at : Z) : string :=
  JsDate.split_head "T" (JsDate.toISOString created_at).

Definition getNotes (link : Gateway.Link) (table : list NoteRow.t)
    (userId : string) : Outcome (list Note.t) :=
  match Gateway.answer link (Data (select_by_user userId table)) with
  | Thrown e => Rejected e
  | Error _ => Resolved []
  | Data rows =>
      Resolved
        (map (fun n =>
                Note.mk (NoteRow.id n) (NoteRow.title n)
                  (NoteRow.content n) (NoteRow.category n)
                  (date_of (NoteRow.created_at n))
                  (match NoteRow.last_edited n with
                   | Some t => t
                   | None => NoteRow.created_at n
                   end)) rows)
  end.

(** [note.date ? new Date(note.date).toISOString()
               : new Date().toISOString()];
    [toISOString] raises a RangeError on an invalid date. *)
Definition created_at_text (date : string) (now : Z) : Outcome string :=
  if String.eqb date "" then Resolved (JsDate.toISOString now)
  else
    match JsDate.parse date with
    | Some t => Resolved (JsDate.toISOString t)
    | None => Rejected "RangeError: Invalid time value"
    end.

Definition createNote (link : Gateway.Link) (newId : string)
    (last_edited : option Z) (now : Z) (userId : string)
    (note : Draft.t) (table : list NoteRow.t)
    : list NoteRow.t * Outcome Note.t :=
  match created_at_text (Draft.date note) now with
  | Rejected e => (table, Rejected e)
  | Resolved text =>
      match insert link newId last_edited
              (NoteInsert.mk userId (Draft.title note)
                 (Draft.content note) (Draft.category note) text)
              table with
      | (table', Thrown e) => (table', Rejected e)
      | (table', Error e) => (table', Rejected e)
      | (table', Data row) =>
          (table',
           Resolved
             (Note.mk (NoteRow.id row) (NoteRow.title row)
                (NoteRow.content row) (NoteRow.category row)
                (date_of (NoteRow.created_at row))
                (match NoteRow.last_edited row with
                 | Some t => t
                 | None => 0%Z
                 end)))
      end
  end.

Definition updateNote (noteId : string) (reply : Reply NoteRow.t)
    : Outcome NoteRow.t :=
  match reply with
  | Thrown e => Rejected e
  | Error e => Rejected e
  | Data row => Resolved row
  end.


End noteService.

(** ** HomeView: the calendar of notes *)

Module HomeView.

(** The local calendar fields of a [Date]: [getFullYear()],
    [getMonth()] (0-based) and [getDate()]. *)
Record LocalDate := mkLocalDate {
  getFullYear : Z;
  getMonth : Z;
  getDate : Z
}.

(** [s.padStart(2, '0')] *)
Definition padStart2 (s : string) : string :=
  match String.length s with
  | O => "00"
  | S O => "0" +:+ s
  | _ => s
  end.

Definition getLocalDateString (date : LocalDate) : string :=
  let year := pretty (getFullYear date) in
  let month := padStart2 (pretty (getMonth date + 1)%Z) in
  let day := padStart2 (pretty (getDate date)) in
  year +:+ "-" +:+ month +:+ "-" +:+ day.

(** [notes.some(n => n.date === dStr)] for the cell of a calendar
    day, the look-up behind the heat map. *)
Definition hasNoteOnDay (notes : list Note.t) (cell : LocalDate) : bool :=
  existsb (fun n => String.eqb (Note.date n) (getLocalDateString cell))
    notes.

(** [notes.filter(note => note.date === selectedDateStr)] *)
Definition filteredNotes (notes : list Note.t) (selected : LocalDate)
    : list Note.t :=
  List.filter
    (fun n => String.eqb (Note.date n) (getLocalDateString selected))
    notes.

(** *** Saving a note *)

(** What [handleSaveNote] waits for after its first update of the list. *)
Inductive Save :=
  | NoSave
  | UpdateOf (originalNotes : list Note.t)
  | CreateOf (tempId : string).

(** [handleSaveNote] up to the call of the service: nothing without a
    note under edit, with a blank title or without a session; a note
    whose id is in the list is replaced there, any other is put in
    front of the list. *)
Definition save_begin (editingNote : option Note.t)
    (authUser : option string) (notes : list Note.t)
    : list Note.t * Save :=
  match editingNote with
  | None => (notes, NoSave)
  | Some e =>
      if blank (Note.title e) then (notes, NoSave)
      else
        match authUser with
        | None => (notes, NoSave)
        | Some _ =>
            if existsb (fun n => String.eqb (Note.id n) (Note.id e)) notes
            then
              (map (fun n =>
                      if String.eqb (Note.id n) (Note.id e) then e else n)
                 notes,
               UpdateOf notes)
            else (e :: notes, CreateOf (Note.id e))
        end
  end.

(** After [updateNote]: a failure puts back the list saved before the
    update ([setNotes(originalNotes)]). *)
Definition save_settle_update {A : Type} (originalNotes : list Note.t)
    (updated : Outcome A) (current : list Note.t) : list Note.t :=
  match updated with
  | Resolved _ => current
  | Rejected _ => originalNotes
  end.

(** After [createNote]: the temporary note is replaced by the stored
    one, or removed on a failure; both updates work on the list of
    that moment. *)
Definition save_settle_create (tempId : string) (created : Outcome Note.t)
    (current : list Note.t) : list Note.t :=
  match created with
  | Resolved newNoteData =>
      map (fun n => if String.eqb (Note.id n) tempId then newNoteData else n)
        current
  | Rejected _ =>
      List.filter (fun n => negb (String.eqb (Note.id n) tempId)) current
  end.

End HomeView.

(** ** services/friendService.ts *)

Module friendService.

Inductive Status : Type := pending | accepted | rejected.

(** [lastActive]: the locale rendering of [last_active], or the literal
    ['Recently']. *)
Inductive ActiveLabel : Type :=
| Recently
| LocaleDate (last_active : string).

Module Friend.
Record t := mk {
  id : string;
  name : string;
  avatar : string;
  bio : string;
  checkInDays : Z;
  hasCheckedInToday : bool;
  learningTags : list string;
  lastActive : ActiveLabel;
  isReminded : bool
}.

(** [{ ...f, isReminded: true }] *)
Definition reminded (f : t) : t :=
  mk (id f) (name f) (avatar f) (bio f) (checkInDays f)
     (hasCheckedInToday f) (learningTags f) (lastActive f) true.
End Friend.

(** What [searchUsers] returns: a friend entry with the public uid and
    the state of the relationship to the searching user. *)
Module SearchResult.
Record t := mk {
  id : string;
  uid : string;
  name : string;
  avatar : string;
  bio : string;
  checkInDays : Z;
  hasCheckedInToday : bool;
  learningTags : list string;
  lastActive : ActiveLabel;
  isReminded : bool;
  friendshipStatus : option Status;
  isInitiator : bool
}.

(** [{ ...r, friendshipStatus: 'pending', isInitiator: true }] *)
Definition requested (r : t) : t :=
  mk (id r) (uid r) (name r) (avatar r) (bio r) (checkInDays r)
     (hasCheckedInToday r) (learningTags r) (lastActive r) (isReminded r)
     (Some pending) true.
End SearchResult.

(** A row of the [friendships] table: [user_id] sent the request,
    [friend_id] received it. *)
Module FriendshipRow.
Record t := mk {
  id : string;
  user_id : string;
  friend_id : string;
  status : Status
}.

Definition with_status (r : t) (s : Status) : t :=
  mk (id r) (user_id r) (friend_id r) s.
End FriendshipRow.

Module ProfileRow.
Record t := mk {
  id : string;
  uid : string;
  name : string;
  avatar : string;
  bio : string;
  selected_categories : option (list string);
  last_active : option string;
  study_days : Z
}.
End ProfileRow.

(** [user_id, friend_id] of an accepted friendship. *)
Module Connection.
Record t := mk { user_id : string; friend_id : string }.
End Connection.

(** [user_id, created_at] of a note of this month. *)
Module NoteStamp.
Record t := mk { user_id : string; created_at : string }.
End NoteStamp.

(** [friendsCache]: one entry per user id. *)
Record State := mkState {
  friendsCache : gmap string (Cached Friend.t)
}.

Definition CACHE_TTL : Z := 5 * 60 * 1000.

Definition getCacheInfo (userId : string) (st : State)
    : option (Cached Friend.t) :=
  friendsCache st !! userId.

Definition invalidateCache (userId : string) (st : State) : State :=
  mkState (delete userId (friendsCache st)).

Definition fresh_friends (userId : string) (forceRefresh : bool) (now : Z)
    (st : State) : option (list Friend.t) :=
  if forceRefresh then None
  else
    match friendsCache st !! userId with
    | Some c =>
        if (now - timestamp c <? CACHE_TTL)%Z then Some (data c) else None
    | None => None
    end.

(** [p.last_active ? new Date(p.last_active).toLocaleDateString()
                   : 'Recently'] *)
Definition active_label (last_active : option string) : ActiveLabel :=
  match last_active with
  | Some s => if String.eqb s "" then Recently else LocaleDate s
  | None => Recently
  end.

(** [data] of a reply whose [error] is not inspected: null on error. *)
Definition data_or_empty {A} (r : Reply (list A)) : list A :=
  match r with
  | Data l => l
  | _ => []
  end.

Section StudyDays.

(** The key [`${d.getFullYear()}-${d.getMonth() + 1}-${d.getDate()}`]
    of [d = new Date(created_at)] in the time zone of the client. *)
Variable localDay : string -> string.

(** [userStudyDays[uid]]: the distinct local days on which the user
    wrote a note. *)
Definition study_days (friendNotes : list NoteStamp.t) (uid : string)
    : gset string :=
  list_to_set
    (map (fun n => localDay (NoteStamp.created_at n))
       (List.filter (fun n => String.eqb (NoteStamp.user_id n) uid)
          friendNotes)).

Definition toFriend (remindedUserIds : list string)
    (friendNotes : list NoteStamp.t) (todayStr : string)
    (p : ProfileRow.t) : Friend.t :=
  let daysSet := study_days friendNotes (ProfileRow.id p) in
  Friend.mk (ProfileRow.id p)
    (or_default (ProfileRow.name p) "Unknown")
    (or_default (ProfileRow.avatar p) "")
    (or_default (ProfileRow.bio p) "")
    (Z.of_nat (size daysSet))
    (bool_decide (todayStr ∈ daysSet))
    (or_empty (ProfileRow.selected_categories p))
    (active_label (ProfileRow.last_active p))
    (existsb (String.eqb (ProfileRow.id p)) remindedUserIds).

(** [getFriends]: four queries in a row (accepted friendships, their
    profiles, the reminders of the last day, the notes of the month);
    [todayStr] is the key of the current local day. *)
Definition getFriends (userId : string) (forceRefresh : bool) (now : Z)
    (connections : Reply (list Connection.t))
    (profiles : Reply (list ProfileRow.t))
    (reminders : Reply (list string))
    (friendNotes : Reply (list NoteStamp.t))
    (todayStr : string) (now' : Z) (st : State)
    : State * Outcome (list Friend.t) :=
  match fresh_friends userId forceRefresh now st with
  | Some cached => (st, Resolved cached)
  | None =>
      match connections with
      | Thrown e => (st, Rejected e)
      | Error _ => (st, Resolved [])
      | Data [] => (st, Resolved [])
      | Data (_ :: _) =>
          match profiles with
          | Thrown e => (st, Rejected e)
          | Error _ => (st, Resolved [])
          | Data ps =>
              match reminders, friendNotes with
              | Thrown e, _ => (st, Rejected e)
              | _, Thrown e => (st, Rejected e)
              | _, _ =>
                  let friends :=
                    map (toFriend (data_or_empty reminders)
                           (data_or_empty friendNotes) todayStr) ps in
                  (mkState
                     (<[userId := mkCached friends now']> (friendsCache st)),
                   Resolved friends)
              end
          end
      end
  end.

End StudyDays.

Definition sendFriendRequest (fromId toId : string) (reply : Reply unit)
    : Outcome unit :=
  match reply with
  | Thrown e => Rejected e
  | Error e => Rejected e
  | Data d => Resolved d
  end.

(** [friendships?.find(f => f.user_id === p.id || f.friend_id === p.id)] *)
Definition relation_with (friendships : list FriendshipRow.t)
    (pid : string) : option FriendshipRow.t :=
  find (fun f => String.eqb (FriendshipRow.user_id f) pid
                 || String.eqb (FriendshipRow.friend_id f) pid)
    friendships.

Definition toSearchResult (currentUserId : string)
    (friendships : list FriendshipRow.t) (p : ProfileRow.t)
    : SearchResult.t :=
  let rel := relation_with friendships (ProfileRow.id p) in
  SearchResult.mk (ProfileRow.id p) (ProfileRow.uid p)
    (or_default (ProfileRow.name p) "Unknown")
    (or_default (ProfileRow.avatar p) "")
    (or_default (ProfileRow.bio p) "")
    0 false
    (or_empty (ProfileRow.selected_categories p))
    (active_label (ProfileRow.last_active p))
    false
    (FriendshipRow.status <$> rel)
    (match rel with
     | Some f => String.eqb (FriendshipRow.user_id f) currentUserId
     | None => false
     end).

Definition searchUsers (query currentUserId : string)
    (reply : Reply (list ProfileRow.t))
    (friendships : Reply (list FriendshipRow.t))
    : Outcome (list SearchResult.t) :=
  if blank query then Resolved []
  else
    match reply with
    | Thrown e => Rejected e
    | Error _ => Resolved []
    | Data ps =>
        match friendships with
        | Thrown e => Rejected e
        | _ =>
            Resolved
              (map (toSearchResult currentUserId
                      (data_or_empty friendships)) ps)
        end
    end.

(** The rows selected by
    [.eq('id', friendshipId).eq('friend_id', userId)]. *)
Definition addressed (userId friendshipId : string) (r : FriendshipRow.t)
    : bool :=
  String.eqb (FriendshipRow.id r) friendshipId
  && String.eqb (FriendshipRow.friend_id r) userId.

(** [respondToFriendRequest]: the filtered update runs on the rows the
    gateway holds; [.select().single()] wants exactly one updated row,
    and a request for a single object that matches none or several
    fails as a whole, leaving the table as it was. *)
Definition respondToFriendRequest (link : Gateway.Link)
    (table : list FriendshipRow.t) (userId friendshipId : string)
    (status : Status)
    : list FriendshipRow.t * Outcome FriendshipRow.t :=
  match link with
  | Gateway.Up =>
      match List.filter (addressed userId friendshipId) table with
      | [r] =>
          (map (fun r => if addressed userId friendshipId r
                         then FriendshipRow.with_status r status
                         else r) table,
           Resolved (FriendshipRow.with_status r status))
      | _ => (table, Rejected "PGRST116")
      end
  | Gateway.Down e => (table, Rejected e)
  | Gateway.Broken e => (table, Rejected e)
  end.

Definition removeFriendship (userId friendId : string) (reply : Reply unit)
    (st : State) : State * Outcome unit :=
  match reply with
  | Thrown e => (st, Rejected e)
  | Error e => (st, Rejected e)
  | Data _ =>
      (invalidateCache friendId (invalidateCache userId st), Resolved tt)
  end.

End friendService.

(** ** components/FriendsView.tsx *)

Module FriendsView.

Record View := mkView {
  friends : list friendService.Friend.t;
  isLoading : bool
}.

(** A call of [friendService.getFriends(userId, forceRefresh)]. *)
Inductive Fetch : Type :=
| Awaited (userId : string) (forceRefresh : bool)
| Background (userId : string) (forceRefresh : bool).

(** The synchronous part of [loadFriends] at clock [now]. *)
Definition loadFriends (now : Z) (userId : string)
    (svc : friendService.State) (v : View) : View * list Fetch :=
  match friendService.getCacheInfo userId svc with
  | Some cached =>
      (mkView (data cached) (isLoading v),
       if (now - timestamp cached >? 30 * 1000)%Z
       then [Background userId true]
       else [])
  | None => (mkView (friends v) true, [Awaited userId true])
  end.

(** [.then(freshList => setFriends(freshList))] *)
Definition refreshed (freshList : list friendService.Friend.t) (v : View)
    : View :=
  mkView freshList (isLoading v).

(** *** Search as you type *)

Record Search := mkSearch {
  addFriendId : string;
  searchResults : list friendService.SearchResult.t;
  isSearching : bool;
  searchSeq : Z;
  searchTimeout : option string
}.

(** [handleSearch(query)]: the pending debounce timer is cleared; a
    blank query empties the results and starts nothing, any other query
    arms a new timer (held in [searchTimeout] with its query). *)
Definition handleSearch (query : string) (s : Search) : Search :=
  if blank query
  then mkSearch query [] false (searchSeq s) None
  else mkSearch query (searchResults s) (isSearching s) (searchSeq s)
         (Some query).

(** The debounce timer fires: [const currentSeq = ++searchSeqRef.current;
    setIsSearching(true)], and the query leaves with [currentSeq]. *)
Definition timer_fires (s : Search) : Search * option (Z * string) :=
  match searchTimeout s with
  | Some query =>
      let currentSeq := (searchSeq s + 1)%Z in
      (mkSearch (addFriendId s) (searchResults s) true currentSeq None,
       Some (currentSeq, query))
  | None => (s, None)
  end.

(** The request issued with [currentSeq] settles: without a session
    nothing is searched; results are shown only if [currentSeq] is still
    the latest; the [finally] clears the spinner under the same test. *)
Definition search_settles (currentSeq : Z) (authUser : option string)
    (results : Outcome (list friendService.SearchResult.t)) (s : Search)
    : Search :=
  let latest := (currentSeq =? searchSeq s)%Z in
  let shown :=
    match authUser, results with
    | Some _, Resolved rs => if latest then rs else searchResults s
    | _, _ => searchResults s
    end in
  mkSearch (addFriendId s) shown
    (if latest then false else isSearching s)
    (searchSeq s) (searchTimeout s).

(** Responses of earlier requests arriving one after the other. *)
Definition stale_arrivals
    (late : list (Z * Outcome (list friendService.SearchResult.t)))
    (authUser : option string) (s : Search) : Search :=
  fold_left (fun cur r => search_settles (fst r) authUser (snd r) cur)
    late s.

End FriendsView.

(** ** services/notificationService.ts *)

Module notificationService.

Inductive NotificationType : Type :=
| LIKE | COMMENT | FRIEND_REQUEST | BOOKMARK | SHARE | STUDY_REMINDER
| FRIEND_ACCEPT.

Definition is_friend_request (t : NotificationType) : bool :=
  match t with FRIEND_REQUEST => true | _ => false end.

Module Sender.
Record t := mk { id : option string; name : string; avatar : string }.
End Sender.

Module AppNotification.
Record t := mk {
  id : string;
  type : NotificationType;
  sender : Sender.t;
  content : option string;
  targetContent : option string;
  relatedId : option string;
  time : TimeLabel;
  createdAt : string;
  isRead : bool;
  status : option friendService.Status
}.

(** [{ ...n, isRead: true }] *)
Definition read (n : t) : t :=
  mk (id n) (type n) (sender n) (content n) (targetContent n)
     (relatedId n) (time n) (createdAt n) true (status n).

(** [{ ...n, status: action, isRead: true }] *)
Definition answered (n : t) (action : friendService.Status) : t :=
  mk (id n) (type n) (sender n) (content n) (targetContent n)
     (relatedId n) (time n) (createdAt n) true (Some action).
End AppNotification.

(** The embedded [sender:sender_id (id, name, avatar)]. *)
Module SenderRef.
Record t := mk { id : string; name : string; avatar : string }.
End SenderRef.

Module NotificationRow.
Record t := mk {
  id : string;
  type : NotificationType;
  sender : option SenderRef.t;
  content : option string;
  target_content : option string;
  related_id : option string;
  friendship_id : option string;
  post_id : option string;
  created_at : string;
  is_read : bool;
  friendship : option friendService.Status
}.
End NotificationRow.

(** [a || b] on nullable strings. *)
Definition or_else (a b : option string) : option string :=
  match a with
  | Some s => if String.eqb s "" then b else Some s
  | None => b
  end.

Definition toNotification (n : NotificationRow.t) : AppNotification.t :=
  AppNotification.mk (NotificationRow.id n) (NotificationRow.type n)
    (Sender.mk (SenderRef.id <$> NotificationRow.sender n)
       (match NotificationRow.sender n with
        | Some s => or_default (SenderRef.name s) "未知用户"
        | None => "未知用户"
        end)
       (match NotificationRow.sender n with
        | Some s => or_default (SenderRef.avatar s) ""
        | None => ""
        end))
    (NotificationRow.content n)
    (NotificationRow.target_content n)
    (or_else (NotificationRow.related_id n)
       (or_else (NotificationRow.friendship_id n)
          (NotificationRow.post_id n)))
    (LocaleString (NotificationRow.created_at n))
    (NotificationRow.created_at n)
    (NotificationRow.is_read n)
    (if is_friend_request (NotificationRow.type n)
     then NotificationRow.friendship n
     else None).


(** The shape shared by the writes that return nothing:
    [const { error } = await ...; if (error) throw error;]. *)
Definition throw_on_error (reply : Reply unit) : Outcome unit :=
  match reply with
  | Thrown e => Rejected e
  | Error e => Rejected e
  | Data _ => Resolved tt
  end.



Definition deleteNotification (notificationId : string)
    (reply : Reply unit) : Outcome unit :=
  throw_on_error reply.


(** [{ success: boolean; message?: string }] *)
Record Reminder := mkReminder {
  success : bool;
  message : option string
}.

(** [sendStudyReminder]: [recent] answers the look-up of a reminder of
    the last 24 hours, [reply] the insert. *)
Definition sendStudyReminder (senderId receiverId : string)
    (recent : Reply (list string)) (reply : Reply unit)
    : Outcome Reminder :=
  match recent with
  | Thrown e => Rejected e
  | Error e => Rejected e
  | Data (_ :: _) =>
      Resolved (mkReminder false (Some "今天已经提醒过 Ta 啦"))
  | Data [] =>
      match reply with
      | Thrown e => Rejected e
      | Error e => Rejected e
      | Data _ => Resolved (mkReminder true None)
      end
  end.

End notificationService.

(** ** services/authService.ts *)

Module authService.

Module Stats.
Record t := mk {
  studyDays : Z;
  notesCount : Z;
  followers : Z;
  following : Z;
  likesReceived : Z;
  friendsCount : Z;
  bookmarksCount : Z
}.
End Stats.

Module UserProfile.
Record t := mk {
  id : string;
  uid : string;
  name : string;
  bio : string;
  avatar : string;
  stats : Stats.t;
  selectedCategories : list string
}.
End UserProfile.

(** [Partial<UserProfile>], as far as [updateProfile] reads it. *)
Module ProfileUpdate.
Record t := mk {
  name : option string;
  bio : option string;
  avatar : option string;
  selectedCategories : option (list string)
}.
End ProfileUpdate.





End authService.

(** ** components/NotificationView.tsx *)

Module NotificationView.

Import notificationService.

(** [handleAction(noti, action)]: [responded] settles
    [respondToFriendRequest], [marked] the [markAsRead] that follows for
    an unread notification; the list changes only when both went
    through. *)
Definition handleAction (noti : AppNotification.t)
    (action : friendService.Status)
    (responded : Outcome friendService.FriendshipRow.t)
    (marked : Outcome unit) (prev : list AppNotification.t)
    : list AppNotification.t :=
  let applicable :=
    is_friend_request (AppNotification.type noti)
    && match AppNotification.relatedId noti with
       | Some i => negb (String.eqb i "")
       | None => false
       end in
  if applicable then
    match responded with
    | Rejected _ => prev
    | Resolved _ =>
        match AppNotification.isRead noti, marked with
        | false, Rejected _ => prev
        | _, _ =>
            map (fun n =>
                   if String.eqb (AppNotification.id n)
                        (AppNotification.id noti)
                   then AppNotification.answered n action
                   else n) prev
        end
    end
  else prev.

(** [deleteNotification] of the view. *)
Definition deleteNotification (id : string) (deleted : Outcome unit)
    (prev : list notificationService.AppNotification.t)
    : list notificationService.AppNotification.t :=
  match deleted with
  | Resolved _ =>
      List.filter
        (fun n => negb (String.eqb
                          (notificationService.AppNotification.id n) id))
        prev
  | Rejected _ => prev
  end.

(** [markAllRead] of the view. *)
Definition markAllRead (marked : Outcome unit)
    (prev : list notificationService.AppNotification.t)
    : list notificationService.AppNotification.t :=
  match marked with
  | Resolved _ => map notificationService.AppNotification.read prev
  | Rejected _ => prev
  end.

End NotificationView.

(** ** The layout around the views ([MainLayout]) *)

Module MainLayout.

(** [notifications.some(n => !n.isRead)] *)
Definition hasUnread (notifications : list notificationService.AppNotification.t)
    : bool :=
  existsb (fun n => negb (notificationService.AppNotification.isRead n))
    notifications.

(** [handleOpenNotifications]: with something unread, everything is
    marked as read at the service and then in the list; a failure is
    logged and the list stays. *)
Definition handleOpenNotifications (marked : Outcome unit)
    (notifications : list notificationService.AppNotification.t)
    : list notificationService.AppNotification.t :=
  if hasUnread notifications then
    match marked with
    | Resolved _ => map notificationService.AppNotification.read notifications
    | Rejected _ => notifications
    end
  else notifications.

End MainLayout.

(** ** Actions of the friends page that use the notification service *)

Module FriendsActions.

(** [handleAddSubmit]: after the request went out, the hit is shown as
    pending and sent by the user. *)
Definition handleAddSubmit (targetId : string) (authUser : option string)
    (sent : Outcome unit) (prev : list friendService.SearchResult.t)
    : list friendService.SearchResult.t :=
  match authUser, sent with
  | Some _, Resolved _ =>
      map (fun r =>
             if String.eqb (friendService.SearchResult.id r) targetId
             then friendService.SearchResult.requested r
             else r) prev
  | _, _ => prev
  end.

(** [deleteFriend]: the friendship is removed at the service, then the
    friend leaves the list of the render. *)
Definition deleteFriend (userId : string)
    (friendToDelete : option friendService.Friend.t) (reply : Reply unit)
    (friends : list friendService.Friend.t) (svc : friendService.State)
    : list friendService.Friend.t * friendService.State :=
  match friendToDelete with
  | None => (friends, svc)
  | Some f =>
      match friendService.removeFriendship userId
              (friendService.Friend.id f) reply svc with
      | (svc', Resolved _) =>
          (List.filter
             (fun g => negb (String.eqb (friendService.Friend.id g)
                               (friendService.Friend.id f))) friends,
           svc')
      | (svc', Rejected _) => (friends, svc')
      end
  end.

(** [handleRemind]: nothing for a friend already reminded; when the
    service resolves, with [success] or with the message that a reminder
    went out recently, the cache of the user is invalidated and the
    friend is marked as reminded; a rejection changes nothing. *)
Definition handleRemind (userId : string) (friend : friendService.Friend.t)
    (recent : Reply (list string)) (reply : Reply unit)
    (friends : list friendService.Friend.t) (svc : friendService.State)
    : list friendService.Friend.t * friendService.State :=
  if friendService.Friend.isReminded friend then (friends, svc)
  else
    match notificationService.sendStudyReminder userId
            (friendService.Friend.id friend) recent reply with
    | Resolved _ =>
        (map (fun f =>
                if String.eqb (friendService.Friend.id f)
                     (friendService.Friend.id friend)
                then friendService.Friend.reminded f
                else f) friends,
         friendService.invalidateCache userId svc)
    | Rejected _ => (friends, svc)
    end.

End FriendsActions.

(** ** Finite checks of digits and date fields *)

Module DateChecks.
Local Open Scope Z_scope.

(** [String(n).padStart(2, '0')] of a month or day number is its two
    digits. *)
Definition field_check (n : Z) : bool :=
  String.eqb (HomeView.padStart2 (pretty n)) (JsDate.pad2 n).

(** A decimal digit is read back as itself and is not the letter T. *)
Definition digit_check (k : Z) : bool :=
  match JsDate.digit_val (JsDate.digit k) with
  | Some v => v =? k
  | None => false
  end && negb (Ascii.eqb (JsDate.digit k) "T").

(** No character of the string is the separator. *)
Fixpoint lacks (sep : ascii) (s : string) : bool :=
  match s with
  | EmptyString => true
  | String c s' => negb (Ascii.eqb c sep) && lacks sep s'
  end.

End DateChecks.

(** ** Invariants and sample data *)

(** The counts of a post are non-negative. *)
Definition counts_ok (p : Post.t) : Prop :=
  (0 <= Post.likes p)%Z /\ (0 <= Post.comments p)%Z.

Module Sample.

(** A post of the feed with the given id, like count and like flag. *)
Definition post (i : string) (likes : Z) (isLiked : bool) : Post.t :=
  Post.mk i "author-1" (Post.mkAuthor "Lin" "") "hello" [] likes 0 isLiked
    false (LocaleString "2024-05-01T08:00:00+00:00") ["成长"].

(** The service after the feed [posts] was fetched at clock [T]. *)
Definition loaded (posts : list Post.t) (T : Z) : socialService.State :=
  socialService.mkState (Some (mkCached posts T)) ∅.

(** The joined row of the post [i] as the gateway holds it. *)
Definition row (i : string) : socialService.JoinedRow.t :=
  socialService.JoinedRow.mk i "author-1"
    (Some (mkProfileRef "Lin" "")) "hello" None [] [] []
    "2024-05-01T08:00:00+00:00" (Some ["成长"]).

(** A search hit and a friend entry with the given id. *)
Definition hit (i : string) : friendService.SearchResult.t :=
  friendService.SearchResult.mk i "10000001" "Lin" "" "" 0 false []
    friendService.Recently false None false.

Definition friend (i : string) : friendService.Friend.t :=
  friendService.Friend.mk i "Lin" "" "" 3 true [] friendService.Recently
    false.

(** The service before anything was fetched. *)
Definition unloaded : socialService.State :=
  socialService.mkState None ∅.

End Sample.

(** ** Choosing categories ([CategorySelector]) *)

Module CategorySelector.

Record Category := mkCategory {
  id : string;
  name : string;
  isCustom : bool
}.

Record State := mkState {
  categories : list Category;
  selected : gset string;
  customTag : string;
  showLimitWarning : bool
}.

(** [toggleCategory]: a selected name is dropped; another one is added
    unless 3 are selected, in which case only the warning shows. *)
Definition toggleCategory (name : string) (st : State) : State :=
  if bool_decide (name ∈ selected st)
  then mkState (categories st) (selected st ∖ {[ name ]}) (customTag st)
         (showLimitWarning st)
  else if Nat.leb 3 (size (selected st))
  then mkState (categories st) (selected st) (customTag st) true
  else mkState (categories st) (selected st ∪ {[ name ]}) (customTag st)
         (showLimitWarning st).

(** [addCustomTag], at the clock reading [now]. *)
Definition addCustomTag (now : Z) (st : State) : State :=
  let trimmed := trim (customTag st) in
  if String.eqb trimmed EmptyString then st
  else if Nat.leb 3 (size (selected st))
  then mkState (categories st) (selected st) (customTag st) true
  else if negb (existsb (fun c => String.eqb (CategorySelector.name c) trimmed)
                  (categories st))
  then
    mkState
      (categories st ++ [mkCategory ("custom-" +:+ pretty now) trimmed true])
      (selected st ∪ {[ trimmed ]}) EmptyString (showLimitWarning st)
  else
    let st' := toggleCategory trimmed st in
    mkState (categories st') (selected st') EmptyString
      (showLimitWarning st').

End CategorySelector.

(** * Properties *)

(** ** Identifiers and the feed *)

Section FeedLemmas.

Import SquareView.

Lemma has_id_count (i : string) (l : list Post.t) :
  has_id i l = false <-> count_id i l = 0%nat.
Proof.
  unfold has_id, count_id.
  induction l as [|p l IH]; simpl; [tauto|].
  destruct (String.eqb (Post.id p) i); simpl.
  - split; intros H; discriminate H.
  - exact IH.
Qed.

Lemma without_absent (i : string) (l : list Post.t) :
  has_id i l = false -> without i l = l.
Proof.
  unfold has_id, without.
  induction l as [|p l IH]; simpl; [reflexivity|].
  destruct (String.eqb (Post.id p) i); simpl; [discriminate|].
  intros H. f_equal. apply IH, H.
Qed.

Lemma replace_absent (i : string) (q : Post.t) (l : list Post.t) :
  has_id i l = false -> replace i q l = l.
Proof.
  unfold has_id, replace.
  induction l as [|p l IH]; simpl; [reflexivity|].
  destruct (String.eqb (Post.id p) i); simpl; [discriminate|].
  intros H. f_equal. apply IH, H.
Qed.

Lemma count_id_without_other (i j : string) (l : list Post.t) :
  i <> j -> count_id i (without j l) = count_id i l.
Proof.
  intros Hne. unfold count_id, without.
  induction l as [|p l IH]; simpl; [reflexivity|].
  destruct (String.eqb (Post.id p) j) eqn:Ej; simpl.
  - apply String.eqb_eq in Ej.
    destruct (String.eqb (Post.id p) i) eqn:Ei; [|exact IH].
    apply String.eqb_eq in Ei. congruence.
  - destruct (String.eqb (Post.id p) i); simpl; [f_equal|]; exact IH.
Qed.

Lemma count_id_without_same (i : string) (l : list Post.t) :
  count_id i (without i l) = 0%nat.
Proof.
  unfold count_id, without.
  induction l as [|p l IH]; simpl; [reflexivity|].
  destruct (String.eqb (Post.id p) i) eqn:E; simpl; [exact IH|].
  rewrite E. exact IH.
Qed.

(** [getPostById] answers with the post that was asked for. *)
Lemma getPostById_id (link : Gateway.Link)
    (table : list socialService.JoinedRow.t) (postId : string)
    (p : Post.t) :
  socialService.getPostById link table postId = Resolved (Some p) ->
  Post.id p = postId.
Proof.
  unfold socialService.getPostById, Gateway.answer, Gateway.single.
  destruct link; try discriminate.
  destruct (Gateway.eq socialService.JoinedRow.id postId table)
    as [|r [|r' rest]] eqn:E; try discriminate.
  intros H. injection H as <-. simpl.
  assert (Hin : In r (Gateway.eq socialService.JoinedRow.id postId table))
    by (rewrite E; left; reflexivity).
  unfold Gateway.eq in Hin. apply filter_In in Hin as [_ Hid].
  apply String.eqb_eq in Hid. exact Hid.
Qed.

End FeedLemmas.

(** ** Optimistic adjustments of the posts cache *)

(** C9. The optimistic adjustments that the service folds into the posts
    cache (the flip of toggle-like, the comment-count increment of
    create-comment, the removal of delete-post) are skipped when the
    posts cache is a miss: the cache is still a miss afterwards, the
    rest of the service state is untouched by toggle-like and
    delete-post, and the outcome of the call is the one it has with any
    other cache content. *)
Theorem optimistic_adjustments_skip_cache_miss (st : socialService.State) :
  socialService.postsCache st = None ->
  (forall postId userId existing write,
      fst (socialService.toggleLike postId userId existing write st) = st)
  /\ (forall userId postId content reply now,
      socialService.postsCache
        (fst (socialService.createComment userId postId content reply now
                st)) = None)
  /\ (forall postId reply,
      fst (socialService.deletePost postId reply st) = st)
  /\ (forall st' postId userId existing write,
      snd (socialService.toggleLike postId userId existing write st)
      = snd (socialService.toggleLike postId userId existing write st'))
  /\ (forall st' userId postId content reply now,
      snd (socialService.createComment userId postId content reply now st)
      = snd (socialService.createComment userId postId content reply now
               st'))
  /\ (forall st' postId reply,
      snd (socialService.deletePost postId reply st)
      = snd (socialService.deletePost postId reply st')).
Proof.
  intros Hmiss. destruct st as [pc cc]. simpl in Hmiss. subst pc.
  repeat split.
  - intros. unfold socialService.toggleLike. simpl.
    destruct existing, write; reflexivity.
  - intros. unfold socialService.createComment. simpl.
    destruct reply; reflexivity.
  - intros. unfold socialService.deletePost. simpl.
    destruct reply; reflexivity.
  - intros. unfold socialService.toggleLike.
    destruct existing, write; reflexivity.
  - intros. unfold socialService.createComment.
    destruct reply; reflexivity.
  - intros. unfold socialService.deletePost.
    destruct reply; reflexivity.
Qed.

(** The service before any fetch: a like and a delete leave it as it
    is. *)
Lemma optimistic_adjustments_skip_cache_miss_witness :
  fst (socialService.toggleLike "p1" "u1" (Error "PGRST116") (Data tt)
         Sample.unloaded) = Sample.unloaded
  /\ fst (socialService.deletePost "p1" (Data tt) Sample.unloaded)
     = Sample.unloaded.
Proof.
  pose proof (optimistic_adjustments_skip_cache_miss Sample.unloaded
                eq_refl) as (Hlike & _ & Hdelete & _).
  split; [apply Hlike | apply Hdelete].
Defined.

(** ** The like button *)

(** The [catch] of the like button puts the feed of the render back
    when the clicked post is the only entry with its id. *)
Lemma like_revert_restores (posts : list Post.t) (post : Post.t) :
  (forall p, In p posts -> Post.id p = Post.id post -> p = post) ->
  SquareView.like_revert posts post = posts.
Proof.
  intros Huniq. unfold SquareView.like_revert.
  induction posts as [|p l IH]; simpl; [reflexivity|].
  f_equal.
  - destruct (String.eqb (Post.id p) (Post.id post)) eqn:E;
      [|reflexivity].
    apply String.eqb_eq in E.
    rewrite (Huniq p (or_introl eq_refl) E).
    destruct post; unfold Post.with_like; simpl.
    rewrite negb_involutive. reflexivity.
  - apply IH. intros q Hq. apply Huniq. right. exact Hq.
Qed.

(** [toggleLike] flips the cached post before its first await, whatever
    the gateway answers afterwards. *)
Lemma toggleLike_flips_cache (postId userId : string)
    (existing write : Reply unit) (cached : list Post.t) (T : Z)
    (cc : gmap string (Cached Comment.t)) :
  socialService.postsCache
    (fst (socialService.toggleLike postId userId existing write
            (socialService.mkState (Some (mkCached cached T)) cc)))
  = Some (mkCached (map (socialService.flip_like postId) cached) T).
Proof. destruct existing, write; reflexivity. Qed.

(** A write that comes back with an error object does not make
    [toggleLike] reject, so the [catch] of the like button is not
    entered and the feed stays as the click left it. *)
Lemma likeClick_error_object_keeps_flip (posts : list Post.t)
    (post : Post.t) (uid e : string) (existing : Reply unit)
    (svc : socialService.State) (received : Z) :
  (forall t, existing <> Thrown t) ->
  SquareView.feed
    (SquareView.likeClick posts post (Some uid) existing (Error e) svc
       received)
  = SquareView.like_optimistic posts post.
Proof.
  intros Hlookup. unfold SquareView.likeClick, socialService.toggleLike.
  destruct existing as [d|e'|t]; try reflexivity.
  exfalso. exact (Hlookup t eq_refl).
Qed.

(** An unlike of a post shown with no likes takes its count to -1. *)
Lemma like_optimistic_below_zero (posts : list Post.t) (post : Post.t) :
  In post posts -> Post.isLiked post = true -> Post.likes post = 0%Z ->
  In (Post.with_like post false (-1)) (SquareView.like_optimistic posts post).
Proof.
  intros Hin Hliked Hzero. unfold SquareView.like_optimistic.
  rewrite Hliked, Hzero. simpl.
  apply in_map_iff. exists post. split; [|exact Hin].
  rewrite String.eqb_refl. reflexivity.
Qed.

(** C1. A post with 5 likes, not liked, in the feed and in the posts
    cache, and a toggle-like whose remote write fails. When the insert
    of the like row comes back with an error object, [toggleLike]
    resolves and nothing is put back: feed and cache both show 6 likes,
    liked. When the write raises, the [catch] restores the feed to
    5 likes, not liked, and the posts cache keeps 6 likes, liked. *)
Theorem failed_toggle_like_leaves_optimistic_state :
  let post := Sample.post "p1" 5 false in
  let flipped := Sample.post "p1" 6 true in
  SquareView.likeClick [post] post (Some "u1") (Error "PGRST116")
    (Error "network") (Sample.loaded [post] 1000) 0
  = SquareView.mkShown [flipped] (Sample.loaded [flipped] 1000) 0
  /\ SquareView.likeClick [post] post (Some "u1") (Error "PGRST116")
       (Thrown "Failed to fetch") (Sample.loaded [post] 1000) 0
     = SquareView.mkShown [post] (Sample.loaded [flipped] 1000) 0.
Proof. split; reflexivity. Qed.

(** ** Counts stay non-negative, except under the like button *)

Lemma likesChannel_counts_ok (ev : SquareView.RowEvent)
    (current : list Post.t) :
  Forall counts_ok current ->
  Forall counts_ok (SquareView.likesChannel ev current).
Proof.
  unfold SquareView.likesChannel. destruct (SquareView.target ev);
    [|trivial].
  intros H. apply Forall_map. eapply Forall_impl; [exact H|].
  intros p [Hl Hc]. simpl.
  destruct (String.eqb (Post.id p) s); [|split; assumption].
  split; simpl; [unfold max0; lia | exact Hc].
Qed.

Lemma commentsChannel_counts_ok (ev : SquareView.RowEvent)
    (current : list Post.t) :
  Forall counts_ok current ->
  Forall counts_ok (SquareView.commentsChannel ev current).
Proof.
  unfold SquareView.commentsChannel. destruct (SquareView.target ev);
    [|trivial].
  intros H. apply Forall_map. eapply Forall_impl; [exact H|].
  intros p [Hl Hc]. simpl.
  destruct (String.eqb (Post.id p) s); [|split; assumption].
  split; simpl; [exact Hl | unfold max0; lia].
Qed.

Lemma onCommentAdded_counts_ok (posts : list Post.t) (PostId : string) :
  Forall counts_ok posts ->
  Forall counts_ok (SquareView.onCommentAdded posts PostId).
Proof.
  intros H. unfold SquareView.onCommentAdded. apply Forall_map.
  eapply Forall_impl; [exact H|].
  intros p [Hl Hc]. simpl.
  destruct (String.eqb (Post.id p) PostId); [|split; assumption].
  split; simpl; [exact Hl | lia].
Qed.

Lemma flip_like_counts_ok (postId : string) (p : Post.t) :
  counts_ok p -> counts_ok (socialService.flip_like postId p).
Proof.
  intros [Hl Hc]. unfold socialService.flip_like.
  destruct (String.eqb (Post.id p) postId); [|split; assumption].
  split; simpl; [|exact Hc].
  destruct (negb (Post.isLiked p)); [lia | unfold max0; lia].
Qed.

Lemma bump_comments_counts_ok (postId : string) (p : Post.t) :
  counts_ok p -> counts_ok (socialService.bump_comments postId p).
Proof.
  intros [Hl Hc]. unfold socialService.bump_comments.
  destruct (String.eqb (Post.id p) postId); [|split; assumption].
  split; simpl; [exact Hl | lia].
Qed.

(** C7. The like button takes a count below zero. A post liked by the
    viewer alone (1 like, liked): the viewer unlikes it (0) and likes it
    again (1, liked); the realtime delete of the first like arrives
    before the insert of the second (0, liked); the viewer unlikes once
    more, and the feed shows -1 likes. *)
Theorem like_button_count_below_zero :
  let gone := SquareView.mkRowEvent SquareView.DELETE None (Some "p1") in
  let f0 := [Sample.post "p1" 1 true] in
  let f1 := SquareView.like_optimistic f0 (Sample.post "p1" 1 true) in
  let f2 := SquareView.like_optimistic f1 (Sample.post "p1" 0 false) in
  let f3 := SquareView.likesChannel gone f2 in
  let f4 := SquareView.like_optimistic f3 (Sample.post "p1" 0 true) in
  Forall counts_ok f0
  /\ f1 = [Sample.post "p1" 0 false]
  /\ f2 = [Sample.post "p1" 1 true]
  /\ f3 = [Sample.post "p1" 0 true]
  /\ f4 = [Sample.post "p1" (-1) false]
  /\ ~ Forall counts_ok f4.
Proof.
  cbv zeta. repeat split.
  - repeat constructor; simpl; lia.
  - intros H. inversion H as [|p l [Hl _] _]; subst. simpl in Hl. lia.
Qed.

(** ** Realtime inserts and the optimistic create *)

Section InsertLemmas.

Import SquareView.

Lemma count_id_cons_same (i : string) (p : Post.t) (l : list Post.t) :
  Post.id p = i -> count_id i (p :: l) = S (count_id i l).
Proof.
  intros <-. unfold count_id. simpl. rewrite String.eqb_refl. reflexivity.
Qed.

Lemma count_id_cons_other (i : string) (p : Post.t) (l : list Post.t) :
  Post.id p <> i -> count_id i (p :: l) = count_id i l.
Proof.
  intros Hne. unfold count_id. simpl.
  apply String.eqb_neq in Hne. rewrite Hne. reflexivity.
Qed.

Lemma has_id_cons (i : string) (p : Post.t) (l : list Post.t) :
  has_id i (p :: l) = String.eqb (Post.id p) i || has_id i l.
Proof. reflexivity. Qed.

(** An insert for a post that is already shown is ignored. *)
Lemma on_post_insert_present (i : string)
    (fetched : Outcome (option Post.t)) (current : list Post.t) :
  has_id i current = true -> on_post_insert i fetched current = current.
Proof.
  intros H. unfold on_post_insert.
  destruct fetched as [[fp|]|]; try reflexivity. rewrite H. reflexivity.
Qed.

(** An insert either leaves the feed or puts the fetched post in front. *)
Lemma on_post_insert_shape (link : Gateway.Link)
    (table : list socialService.JoinedRow.t) (i : string)
    (current : list Post.t) :
  let next :=
    on_post_insert i (socialService.getPostById link table i) current in
  next = current
  \/ exists fp, Post.id fp = i /\ has_id i current = false
                /\ next = fp :: current.
Proof.
  simpl. unfold on_post_insert.
  destruct (socialService.getPostById link table i) as [[fp|]|] eqn:E;
    try (left; reflexivity).
  destruct (has_id i current) eqn:H; [left; reflexivity|].
  right. exists fp. split; [|split; reflexivity].
  eapply getPostById_id, E.
Qed.

Lemma replay_inserts_present (i : string)
    (fetches : list (Outcome (option Post.t))) (current : list Post.t) :
  has_id i current = true -> replay_inserts i fetches current = current.
Proof.
  unfold replay_inserts. revert current.
  induction fetches as [|f fs IH]; intros current H; simpl;
    [reflexivity|].
  rewrite on_post_insert_present by exact H. apply IH, H.
Qed.

Lemma replay_inserts_shape (i : string)
    (calls : list (Gateway.Link * list socialService.JoinedRow.t))
    (current : list Post.t) :
  has_id i current = false ->
  replay_inserts i (fetches_of i calls) current = current
  \/ exists fp, Post.id fp = i
                /\ replay_inserts i (fetches_of i calls) current
                   = fp :: current.
Proof.
  revert current.
  induction calls as [|[link table] cs IH]; intros current H; simpl;
    [left; reflexivity|].
  destruct (on_post_insert_shape link table i current)
    as [E | (fp & Hid & _ & E)]; unfold replay_inserts in *; simpl;
    rewrite E.
  - apply IH, H.
  - right. exists fp. split; [exact Hid|].
    apply (replay_inserts_present i (fetches_of i cs) (fp :: current)).
    rewrite has_id_cons. apply String.eqb_eq in Hid. rewrite Hid.
    reflexivity.
Qed.

(** After a confirmed publish the temporary entry is gone and the real
    post leads the feed, whether or not the realtime insert came
    first. *)
Lemma reconcile_after_inserts (tmp real : string)
    (optimistic fullPost : Post.t) (feed : list Post.t)
    (calls : list (Gateway.Link * list socialService.JoinedRow.t)) :
  Post.id optimistic = tmp -> Post.id fullPost = real -> real <> tmp ->
  has_id tmp feed = false -> has_id real feed = false ->
  exists f, Post.id f = real
            /\ reconcile tmp fullPost
                 (replay_inserts real (fetches_of real calls)
                    (prepend optimistic feed))
               = f :: feed.
Proof.
  intros Hop Hfull Hne Htmp Hreal.
  assert (Hshown : has_id real (prepend optimistic feed) = false).
  { unfold prepend. rewrite has_id_cons, Hreal, Hop.
    assert (tmp <> real) as Hne' by congruence.
    apply String.eqb_neq in Hne'. rewrite Hne'. reflexivity. }
  destruct (replay_inserts_shape real calls _ Hshown)
    as [E | (fp & Hid & E)]; rewrite E; unfold reconcile, prepend.
  - exists fullPost. split; [exact Hfull|].
    rewrite Hfull. unfold prepend in Hshown. rewrite Hshown.
    unfold replace. simpl. rewrite Hop, String.eqb_refl. f_equal.
    apply (replace_absent tmp fullPost feed Htmp).
  - exists fp. split; [exact Hid|].
    rewrite Hfull, has_id_cons, Hid, String.eqb_refl. simpl.
    unfold without. simpl. rewrite Hid, Hop, String.eqb_refl.
    apply String.eqb_neq in Hne. rewrite Hne. simpl. f_equal.
    apply (without_absent tmp feed Htmp).
Qed.

Lemma counts_of_reconciled (tmp real : string) (f : Post.t)
    (feed : list Post.t) :
  Post.id f = real -> real <> tmp ->
  has_id tmp feed = false -> has_id real feed = false ->
  count_id real (f :: feed) = 1%nat /\ count_id tmp (f :: feed) = 0%nat.
Proof.
  intros Hid Hne Htmp Hreal.
  apply has_id_count in Htmp. apply has_id_count in Hreal.
  rewrite (count_id_cons_same real f feed Hid), Hreal.
  rewrite count_id_cons_other by congruence. auto.
Qed.

End InsertLemmas.

(** C2. The realtime insert of a post, delivered twice. Once the fetch
    of the first delivery has found the post, the second delivery
    changes nothing (same feed, same length); an insert for a post that
    is already shown is ignored; a feed that did not show the post shows
    it exactly once afterwards. The same holds around the optimistic
    create that produced the post: whether the publish is confirmed
    before both deliveries, between them, or after them, the feed shows
    the post exactly once. *)
Theorem realtime_insert_applied_once
    (link link' : Gateway.Link)
    (table table' : list socialService.JoinedRow.t)
    (newPostId : string) (current : list Post.t) (found : Post.t) :
  socialService.getPostById link table newPostId = Resolved (Some found) ->
  let deliver :=
    SquareView.on_post_insert newPostId
      (socialService.getPostById link table newPostId) in
  let again :=
    SquareView.on_post_insert newPostId
      (socialService.getPostById link' table' newPostId) in
  again (deliver current) = deliver current
  /\ length (again (deliver current)) = length (deliver current)
  /\ (SquareView.has_id newPostId current = true ->
      deliver current = current)
  /\ (SquareView.count_id newPostId current = 0%nat ->
      SquareView.count_id newPostId (again (deliver current)) = 1%nat)
  /\ (forall (tmp : string) (optimistic confirmed : Post.t)
             (feed : list Post.t),
        Post.id optimistic = tmp -> Post.id confirmed = newPostId ->
        newPostId <> tmp ->
        SquareView.has_id tmp feed = false ->
        SquareView.has_id newPostId feed = false ->
        let shown := SquareView.prepend optimistic feed in
        let confirm := SquareView.reconcile tmp confirmed in
        SquareView.count_id newPostId (again (deliver (confirm shown)))
        = 1%nat
        /\ SquareView.count_id newPostId (again (confirm (deliver shown)))
           = 1%nat
        /\ SquareView.count_id newPostId (confirm (again (deliver shown)))
           = 1%nat).
Proof.
  intros Hfound deliver again.
  assert (Hpresent : SquareView.has_id newPostId (deliver current) = true).
  { subst deliver. unfold SquareView.on_post_insert. rewrite Hfound.
    destruct (SquareView.has_id newPostId current) eqn:H; [exact H|].
    rewrite has_id_cons, (getPostById_id _ _ _ _ Hfound), String.eqb_refl.
    reflexivity. }
  assert (Hsame : again (deliver current) = deliver current)
    by (apply on_post_insert_present, Hpresent).
  split; [exact Hsame|]. split; [rewrite Hsame; reflexivity|].
  split; [intros H; apply on_post_insert_present, H|].
  split.
  - intros Hzero. rewrite Hsame. subst deliver.
    unfold SquareView.on_post_insert. rewrite Hfound.
    apply has_id_count in Hzero as Habsent. rewrite Habsent.
    rewrite count_id_cons_same by (eapply getPostById_id, Hfound).
    rewrite Hzero. reflexivity.
  - intros tmp optimistic confirmed feed Hop Hconf Hne Htmp Hreal
      shown confirm.
    pose proof (reconcile_after_inserts tmp newPostId optimistic confirmed
                  feed) as Hrec.
    destruct (Hrec [] Hop Hconf Hne Htmp Hreal) as (f0 & Hf0 & E0).
    destruct (Hrec [(link, table)] Hop Hconf Hne Htmp Hreal)
      as (f1 & Hf1 & E1).
    destruct (Hrec [(link, table); (link', table')] Hop Hconf Hne Htmp
                Hreal) as (f2 & Hf2 & E2).
    unfold SquareView.replay_inserts, SquareView.fetches_of in E0, E1, E2.
    simpl in E0, E1, E2. fold shown in E0, E1, E2.
    fold confirm in E0, E1, E2. fold deliver in E1, E2.
    fold again in E2.
    assert (Hhead : forall f, Post.id f = newPostId ->
              SquareView.has_id newPostId (f :: feed) = true).
    { intros f Hf. rewrite has_id_cons. apply String.eqb_eq in Hf.
      rewrite Hf. reflexivity. }
    assert (Hone : forall f, Post.id f = newPostId ->
              SquareView.count_id newPostId (f :: feed) = 1%nat).
    { intros f Hf.
      apply (counts_of_reconciled tmp newPostId f feed Hf Hne Htmp Hreal). }
    repeat split.
    + rewrite E0. subst deliver again.
      rewrite (on_post_insert_present newPostId _ (f0 :: feed))
        by (apply Hhead, Hf0).
      rewrite (on_post_insert_present newPostId _ (f0 :: feed))
        by (apply Hhead, Hf0).
      apply Hone, Hf0.
    + rewrite E1. subst again.
      rewrite on_post_insert_present by (apply Hhead, Hf1).
      apply Hone, Hf1.
    + rewrite E2. apply Hone, Hf2.
Qed.

(** The insert of post uuid-1, delivered twice into a feed of one other
    post. *)
Lemma realtime_insert_applied_once_witness :
  let table := [Sample.row "uuid-1"] in
  let current := [Sample.post "p0" 1 false] in
  let deliver :=
    SquareView.on_post_insert "uuid-1"
      (socialService.getPostById Gateway.Up table "uuid-1") in
  socialService.getPostById Gateway.Up table "uuid-1"
  = Resolved (Some (socialService.toPostJoined (Sample.row "uuid-1")))
  /\ deliver (deliver current) = deliver current
  /\ SquareView.count_id "uuid-1" (deliver (deliver current)) = 1%nat.
Proof.
  cbv zeta. split; [reflexivity|].
  pose proof (realtime_insert_applied_once Gateway.Up Gateway.Up
                [Sample.row "uuid-1"] [Sample.row "uuid-1"] "uuid-1"
                [Sample.post "p0" 1 false]
                (socialService.toPostJoined (Sample.row "uuid-1")) eq_refl)
    as (Hsame & _ & _ & Hone & _).
  split; [exact Hsame | apply Hone; reflexivity].
Defined.



(** ** Search as you type *)

Section SearchLemmas.

Import FriendsView.

Lemma search_settles_seq (currentSeq : Z) (authUser : option string)
    (results : Outcome (list friendService.SearchResult.t)) (s : Search) :
  searchSeq (search_settles currentSeq authUser results s) = searchSeq s.
Proof. reflexivity. Qed.

(** A response that does not carry the latest sequence number is
    dropped. *)
Lemma search_settles_stale (currentSeq : Z) (authUser : option string)
    (results : Outcome (list friendService.SearchResult.t)) (s : Search) :
  currentSeq <> searchSeq s ->
  searchResults (search_settles currentSeq authUser results s)
  = searchResults s.
Proof.
  intros Hne. unfold search_settles. simpl.
  apply Z.eqb_neq in Hne. rewrite Hne.
  destruct authUser, results; reflexivity.
Qed.

(** The response that carries the latest sequence number is shown. *)
Lemma search_settles_latest (uid : string)
    (rs : list friendService.SearchResult.t) (s : Search) :
  searchResults (search_settles (searchSeq s) (Some uid) (Resolved rs) s)
  = rs.
Proof. unfold search_settles. simpl. rewrite Z.eqb_refl. reflexivity. Qed.

Lemma stale_arrivals_keep
    (late : list (Z * Outcome (list friendService.SearchResult.t)))
    (authUser : option string) (s : Search) :
  Forall (fun r => fst r <> searchSeq s) late ->
  searchResults (stale_arrivals late authUser s) = searchResults s
  /\ searchSeq (stale_arrivals late authUser s) = searchSeq s.
Proof.
  unfold stale_arrivals. revert s.
  induction late as [|r rest IH]; intros s Hall; simpl; [auto|].
  inversion Hall as [|r' rest' Hr Hrest]; subst.
  destruct (IH (search_settles (fst r) authUser (snd r) s)) as [Hres Hseq].
  - rewrite search_settles_seq. exact Hrest.
  - rewrite Hres, Hseq, search_settles_seq.
    split; [apply search_settles_stale, Hr | reflexivity].
Qed.

(** Clearing the input issues no request and leaves the sequence
    number as it is: the response to the request before it is still the
    latest and is shown when it arrives. *)
Remark blank_query_keeps_sequence (s : Search) (uid : string)
    (rs : list friendService.SearchResult.t) :
  searchSeq (handleSearch "" s) = searchSeq s
  /\ searchResults (handleSearch "" s) = []
  /\ searchResults
       (search_settles (searchSeq s) (Some uid) (Resolved rs)
          (handleSearch "" s)) = rs.
Proof.
  unfold handleSearch, search_settles. simpl. rewrite Z.eqb_refl.
  repeat split.
Qed.

End SearchLemmas.

(** C3. Two searches issued in order, for [qa] and then for [qab]: each
    leaves with its own sequence number, the later one with the larger.
    A response is shown only if it carries the latest sequence number,
    and is dropped otherwise. Hence, whether the response to [qa]
    arrives after the response to [qab], before it, or even before
    [qab] was issued, the results of [qab] are shown in the end, and any
    responses of earlier requests that arrive later leave them shown. *)
Theorem latest_search_response_wins
    (s : FriendsView.Search) (qa qab uid : string)
    (ra rab : list friendService.SearchResult.t)
    (late : list (Z * Outcome (list friendService.SearchResult.t))) :
  blank qa = false -> blank qab = false ->
  exists (seq_a seq_ab : Z) (s2 s4 : FriendsView.Search),
    FriendsView.timer_fires (FriendsView.handleSearch qa s)
    = (s2, Some (seq_a, qa))
    /\ FriendsView.timer_fires (FriendsView.handleSearch qab s2)
       = (s4, Some (seq_ab, qab))
    /\ (seq_a < seq_ab)%Z
    /\ FriendsView.searchSeq s4 = seq_ab
    /\ FriendsView.searchResults
         (FriendsView.search_settles seq_a (Some uid) (Resolved ra)
            (FriendsView.search_settles seq_ab (Some uid) (Resolved rab)
               s4)) = rab
    /\ FriendsView.searchResults
         (FriendsView.search_settles seq_ab (Some uid) (Resolved rab)
            (FriendsView.search_settles seq_a (Some uid) (Resolved ra)
               s4)) = rab
    /\ FriendsView.searchResults
         (FriendsView.search_settles seq_ab (Some uid) (Resolved rab)
            (fst (FriendsView.timer_fires
                    (FriendsView.handleSearch qab
                       (FriendsView.search_settles seq_a (Some uid)
                          (Resolved ra) s2))))) = rab
    /\ (forall seq auth res st,
          seq <> FriendsView.searchSeq st ->
          FriendsView.searchResults
            (FriendsView.search_settles seq auth res st)
          = FriendsView.searchResults st)
    /\ (Forall (fun r => fst r <> seq_ab) late ->
        FriendsView.searchResults
          (FriendsView.stale_arrivals late (Some uid)
             (FriendsView.search_settles seq_ab (Some uid) (Resolved rab)
                s4)) = rab).
Proof.
  intros Ha Hab. destruct s as [q0 r0 b0 n0 t0].
  exists (n0 + 1)%Z, (n0 + 2)%Z,
    (FriendsView.mkSearch qa r0 true (n0 + 1) None),
    (FriendsView.mkSearch qab r0 true (n0 + 2) None).
  assert (Hlt : (n0 + 1 =? n0 + 2)%Z = false) by (apply Z.eqb_neq; lia).
  assert (Hnext : (n0 + 1 + 1 = n0 + 2)%Z) by lia.
  unfold FriendsView.handleSearch, FriendsView.timer_fires,
    FriendsView.search_settles.
  rewrite Ha, Hab. simpl. rewrite ?Hab. simpl.
  rewrite ?Hnext, ?Z.eqb_refl, ?Hlt.
  repeat split; try reflexivity; try lia.
  - intros seq auth res st Hne.
    apply (search_settles_stale seq auth res st Hne).
  - intros Hlate.
    match goal with
    | |- FriendsView.searchResults
           (FriendsView.stale_arrivals _ _ ?st) = _ =>
        destruct (stale_arrivals_keep late (Some uid) st) as [Hres _];
          [exact Hlate | rewrite Hres; reflexivity]
    end.
Qed.

(** The queries "a" and "ab", the response to "a" arriving last. *)
Lemma latest_search_response_wins_witness :
  let s0 := FriendsView.mkSearch "" [] false 0 None in
  exists (seq_a seq_ab : Z) (s2 s4 : FriendsView.Search),
    FriendsView.timer_fires (FriendsView.handleSearch "a" s0)
    = (s2, Some (seq_a, "a"))
    /\ FriendsView.timer_fires (FriendsView.handleSearch "ab" s2)
       = (s4, Some (seq_ab, "ab"))
    /\ FriendsView.searchResults
         (FriendsView.search_settles seq_a (Some "u1")
            (Resolved [Sample.hit "anna"; Sample.hit "abel"])
            (FriendsView.search_settles seq_ab (Some "u1")
               (Resolved [Sample.hit "abel"]) s4))
       = [Sample.hit "abel"].
Proof.
  cbv zeta.
  destruct (latest_search_response_wins
              (FriendsView.mkSearch "" [] false 0 None) "a" "ab" "u1"
              [Sample.hit "anna"; Sample.hit "abel"] [Sample.hit "abel"]
              [] eq_refl eq_refl)
    as (seq_a & seq_ab & s2 & s4 & H1 & H2 & _ & _ & H5 & _).
  exists seq_a, seq_ab, s2, s4. auto.
Defined.

(** ** The freshness window *)

(** A posts cache fetched at [T] and read by [loadPosts] within 30
    seconds: the cached feed is shown and no fetch is issued. *)
Lemma loadPosts_within_window (T now : Z) (cached : list Post.t)
    (svc : socialService.State) (v : SquareView.View) :
  socialService.postsCache svc = Some (mkCached cached T) ->
  (now - T <= 30000)%Z ->
  SquareView.loadPosts now svc v
  = (SquareView.mkView cached (SquareView.page v) (SquareView.hasMore v)
       (SquareView.isLoading v), []).
Proof.
  intros Hc Hage. unfold SquareView.loadPosts, socialService.getCacheInfo.
  rewrite Hc. simpl.
  destruct (Z.gtb_spec (now - T) 30000); [lia | reflexivity].
Qed.

(** Read after more than 30 seconds: the cached feed is shown at once
    and exactly one forced fetch of the first page runs in the
    background. *)
Lemma loadPosts_past_window (T now : Z) (cached : list Post.t)
    (svc : socialService.State) (v : SquareView.View) :
  socialService.postsCache svc = Some (mkCached cached T) ->
  (now - T > 30000)%Z ->
  SquareView.loadPosts now svc v
  = (SquareView.mkView cached (SquareView.page v) (SquareView.hasMore v)
       (SquareView.isLoading v), [SquareView.Background 0 10 true]).
Proof.
  intros Hc Hage. unfold SquareView.loadPosts, socialService.getCacheInfo.
  rewrite Hc. simpl.
  destruct (Z.gtb_spec (now - T) 30000); [reflexivity | lia].
Qed.

(** The forced fetch of the first page, answered with rows: the posts
    cache is replaced as a whole by the mapped rows, stamped with the
    clock of the completion. *)
Lemma getPosts_refetch_replaces (now now' : Z)
    (rows : list socialService.PostRow.t) (currentUserId : option string)
    (svc : socialService.State) :
  socialService.getPosts 0 10 true now (Data rows) currentUserId now' svc
  = (socialService.set_postsCache svc
       (Some (mkCached (map (socialService.toPost currentUserId) rows)
                now')),
     Resolved (map (socialService.toPost currentUserId) rows)).
Proof. reflexivity. Qed.

(** The scenario for the posts cache: fetched at [T], read at [T] + 10 s
    and at [T] + 31 s. *)
Lemma posts_freshness_window (T : Z) (cached : list Post.t)
    (svc : socialService.State) (v : SquareView.View) :
  socialService.postsCache svc = Some (mkCached cached T) ->
  snd (SquareView.loadPosts (T + 10000) svc v) = []
  /\ SquareView.posts (fst (SquareView.loadPosts (T + 10000) svc v))
     = cached
  /\ snd (SquareView.loadPosts (T + 31000) svc v)
     = [SquareView.Background 0 10 true]
  /\ SquareView.posts (fst (SquareView.loadPosts (T + 31000) svc v))
     = cached.
Proof.
  intros Hc.
  rewrite (loadPosts_within_window T (T + 10000) cached svc v Hc) by lia.
  rewrite (loadPosts_past_window T (T + 31000) cached svc v Hc) by lia.
  repeat split.
Qed.

Lemma loadFriends_within_window (T now : Z) (userId : string)
    (cached : list friendService.Friend.t) (svc : friendService.State)
    (v : FriendsView.View) :
  friendService.friendsCache svc !! userId = Some (mkCached cached T) ->
  (now - T <= 30000)%Z ->
  FriendsView.loadFriends now userId svc v
  = (FriendsView.mkView cached (FriendsView.isLoading v), []).
Proof.
  intros Hc Hage. unfold FriendsView.loadFriends, friendService.getCacheInfo.
  rewrite Hc. simpl. change (30 * 1000)%Z with 30000%Z.
  destruct (Z.gtb_spec (now - T) 30000); [lia | reflexivity].
Qed.

Lemma loadFriends_past_window (T now : Z) (userId : string)
    (cached : list friendService.Friend.t) (svc : friendService.State)
    (v : FriendsView.View) :
  friendService.friendsCache svc !! userId = Some (mkCached cached T) ->
  (now - T > 30000)%Z ->
  FriendsView.loadFriends now userId svc v
  = (FriendsView.mkView cached (FriendsView.isLoading v),
     [FriendsView.Background userId true]).
Proof.
  intros Hc Hage. unfold FriendsView.loadFriends, friendService.getCacheInfo.
  rewrite Hc. simpl. change (30 * 1000)%Z with 30000%Z.
  destruct (Z.gtb_spec (now - T) 30000); [reflexivity | lia].
Qed.

(** The forced fetch of the friends list, when it finds at least one
    accepted friendship and the profiles arrive: the entry of the user
    is replaced as a whole and stamped with the clock of the
    completion. *)
Lemma getFriends_refetch_replaces (localDay : string -> string)
    (userId : string) (now now' : Z)
    (c : friendService.Connection.t) (cs : list friendService.Connection.t)
    (ps : list friendService.ProfileRow.t) (rem : list string)
    (notes : list friendService.NoteStamp.t) (todayStr : string)
    (svc : friendService.State) :
  let friends := map (friendService.toFriend localDay rem notes todayStr) ps
  in
  friendService.getFriends localDay userId true now (Data (c :: cs))
    (Data ps) (Data rem) (Data notes) todayStr now' svc
  = (friendService.mkState
       (<[userId := mkCached friends now']> (friendService.friendsCache svc)),
     Resolved friends).
Proof. reflexivity. Qed.

(** C4. The friends cache of user u1, fetched at clock 1000 with one
    friend, read at 1000 + 31 s: the cached list is shown at once and
    exactly one forced fetch runs in the background. That fetch finds no
    accepted friendship any more; it completes with the empty list, and
    the cache entry is not replaced: it still holds the friend, stamped
    1000. *)
Theorem empty_friends_refetch_keeps_cache :
  let svc :=
    friendService.mkState {[ "u1" := mkCached [Sample.friend "f1"] 1000 ]}
  in
  FriendsView.loadFriends 32000 "u1" svc (FriendsView.mkView [] false)
  = (FriendsView.mkView [Sample.friend "f1"] false,
     [FriendsView.Background "u1" true])
  /\ (forall localDay profiles reminders notes todayStr,
        friendService.getFriends localDay "u1" true 32000 (Data [])
          profiles reminders notes todayStr 32500 svc
        = (svc, Resolved []))
  /\ friendService.getCacheInfo "u1" svc
     = Some (mkCached [Sample.friend "f1"] 1000).
Proof.
  cbv zeta. split; [|split].
  - unfold FriendsView.loadFriends, friendService.getCacheInfo. simpl.
    rewrite lookup_singleton_eq. reflexivity.
  - intros. reflexivity.
  - unfold friendService.getCacheInfo. simpl.
    apply lookup_singleton_eq.
Qed.

(** ** How the services report a failed remote call *)



(** ** Responding to a friend request *)

Section RespondLemmas.

Import friendService.

Lemma no_addressed_row (userId friendshipId : string)
    (table : list FriendshipRow.t) :
  (forall r, In r table -> FriendshipRow.id r = friendshipId ->
             FriendshipRow.friend_id r <> userId) ->
  List.filter (addressed userId friendshipId) table = [].
Proof.
  induction table as [|r l IH]; intros H; simpl; [reflexivity|].
  destruct (addressed userId friendshipId r) eqn:E.
  - unfold addressed in E. apply andb_true_iff in E as [Ei Ef].
    apply String.eqb_eq in Ei. apply String.eqb_eq in Ef.
    exfalso. exact (H r (or_introl eq_refl) Ei Ef).
  - apply IH. intros r' Hin. apply H. right. exact Hin.
Qed.

Lemma respond_without_addressed_row (link : Gateway.Link)
    (table : list FriendshipRow.t) (userId friendshipId : string)
    (status : Status) :
  List.filter (addressed userId friendshipId) table = [] ->
  fst (respondToFriendRequest link table userId friendshipId status) = table
  /\ is_rejected
       (snd (respondToFriendRequest link table userId friendshipId status))
     = true.
Proof.
  intros H. unfold respondToFriendRequest. rewrite H.
  destruct link; split; reflexivity.
Qed.

End RespondLemmas.

(** C10. [respondToFriendRequest(userId, friendshipId, status)] changes
    a friendship row only if the row has that id and [userId] is its
    recipient, and then only its status; no row is added or removed. If
    [userId] is not the recipient of the row [friendshipId], the call
    rejects and the table is as before; in particular the sender of a
    request to somebody else cannot accept or reject it. *)
Theorem only_recipient_can_respond (link : Gateway.Link)
    (table : list friendService.FriendshipRow.t)
    (userId friendshipId : string) (status : friendService.Status) :
  let result :=
    friendService.respondToFriendRequest link table userId friendshipId
      status in
  (forall (i : nat) (r r' : friendService.FriendshipRow.t),
      table !! i = Some r -> fst result !! i = Some r' -> r' <> r ->
      friendService.FriendshipRow.id r = friendshipId
      /\ friendService.FriendshipRow.friend_id r = userId
      /\ r' = friendService.FriendshipRow.with_status r status)
  /\ length (fst result) = length table
  /\ ((forall r, In r table ->
                 friendService.FriendshipRow.id r = friendshipId ->
                 friendService.FriendshipRow.friend_id r <> userId) ->
      fst result = table /\ is_rejected (snd result) = true)
  /\ (forall r, In r table ->
        friendService.FriendshipRow.id r = friendshipId ->
        (forall r', In r' table ->
                    friendService.FriendshipRow.id r' = friendshipId ->
                    r' = r) ->
        friendService.FriendshipRow.user_id r = userId ->
        friendService.FriendshipRow.friend_id r
        <> friendService.FriendshipRow.user_id r ->
        fst result = table /\ is_rejected (snd result) = true).
Proof.
  intros result.
  assert (Hrejects :
            (forall r, In r table ->
                       friendService.FriendshipRow.id r = friendshipId ->
                       friendService.FriendshipRow.friend_id r <> userId) ->
            fst result = table /\ is_rejected (snd result) = true).
  { intros H. apply respond_without_addressed_row, no_addressed_row, H. }
  split; [|split; [|split; [exact Hrejects|]]].
  - intros i r r' Hr Hr' Hne. subst result.
    unfold friendService.respondToFriendRequest in Hr'.
    destruct link; simpl in Hr'; try congruence.
    destruct (List.filter (friendService.addressed userId friendshipId)
                table) as [|r0 [|r1 rest]]; simpl in Hr'; try congruence.
    change (map ?f table) with (f <$> table) in Hr'.
    rewrite list_lookup_fmap, Hr in Hr'. simpl in Hr'.
    destruct (friendService.addressed userId friendshipId r) eqn:E;
      [|congruence].
    unfold friendService.addressed in E.
    apply andb_true_iff in E as [Ei Ef].
    apply String.eqb_eq in Ei. apply String.eqb_eq in Ef.
    split; [exact Ei|]. split; [exact Ef|]. congruence.
  - subst result. unfold friendService.respondToFriendRequest.
    destruct link; try reflexivity.
    destruct (List.filter (friendService.addressed userId friendshipId)
                table) as [|r0 [|r1 rest]]; try reflexivity.
    simpl. apply length_map.
  - intros r Hin Hid Huniq Hsender Hother. apply Hrejects.
    intros r' Hin' Hid'. rewrite (Huniq r' Hin' Hid'). congruence.
Qed.

(** Alice sent the request fr1 to Bob and tries to accept it herself. *)
Lemma only_recipient_can_respond_witness :
  let request :=
    friendService.FriendshipRow.mk "fr1" "alice" "bob"
      friendService.pending in
  fst (friendService.respondToFriendRequest Gateway.Up [request] "alice"
         "fr1" friendService.accepted) = [request]
  /\ is_rejected
       (snd (friendService.respondToFriendRequest Gateway.Up [request]
               "alice" "fr1" friendService.accepted)) = true.
Proof.
  cbv zeta.
  pose proof (only_recipient_can_respond Gateway.Up
                [friendService.FriendshipRow.mk "fr1" "alice" "bob"
                   friendService.pending]
                "alice" "fr1" friendService.accepted) as H.
  cbv zeta in H. destruct H as (_ & _ & H & _).
  apply H. intros r [<-|[]] _. simpl. discriminate.
Defined.

(** ** Calendar dates of notes *)

Section DateLemmas.
Import JsDate DateChecks.
Local Open Scope Z_scope.

Lemma forallb_seqZ (f : Z -> bool) (a n x : Z) :
  forallb f (seqZ a n) = true -> a <= x < a + n -> f x = true.
Proof.
  intros H Hx. rewrite forallb_forall in H. apply H.
  apply list_elem_of_In, elem_of_seqZ. exact Hx.
Qed.

(** The year of the era is recovered from a day number of that year. *)
Lemma yoe_of_doe (yoe doy : Z) :
  0 <= yoe < 400 ->
  0 <= doy <= 365 ->
  (doy = 365 -> (yoe + 1) mod 4 = 0
                /\ ((yoe + 1) mod 100 <> 0 \/ yoe + 1 = 400)) ->
  let doe := yoe * 365 + yoe / 4 - yoe / 100 + doy in
  0 <= doe <= 146096
  /\ (doe - doe / 1460 + doe / 36524 - doe / 146096) / 365 = yoe.
Proof.
  intros Hy Hd Hleap doe. subst doe.
  split; Z.to_euclidean_division_equations; lia.
Qed.

(** Month and day are recovered from the day number within the
    March-based year. *)
Lemma month_day_of_doy (mp d : Z) :
  0 <= mp <= 11 -> 1 <= d <= 31 ->
  (mp = 1 \/ mp = 3 \/ mp = 6 \/ mp = 8 -> d <= 30) ->
  (mp = 11 -> d <= 29) ->
  let doy := (153 * mp + 2) / 5 + d - 1 in
  0 <= doy <= 365
  /\ (doy = 365 -> mp = 11 /\ d = 29)
  /\ (5 * doy + 2) / 153 = mp
  /\ doy - (153 * ((5 * doy + 2) / 153) + 2) / 5 + 1 = d.
Proof.
  intros Hmp Hd H30 H29 doy. subst doy.
  repeat split; Z.to_euclidean_division_equations; lia.
Qed.

Lemma days_in_month_le (y m : Z) : days_in_month y m <= 31.
Proof.
  unfold days_in_month.
  destruct (m =? 2); [destruct (is_leap y); lia|].
  destruct ((m =? 4) || (m =? 6) || (m =? 9) || (m =? 11)); lia.
Qed.

Lemma is_leap_true (y : Z) :
  is_leap y = true ->
  y mod 4 = 0 /\ (y mod 100 <> 0 \/ y mod 400 = 0).
Proof.
  unfold is_leap. intros H. apply andb_true_iff in H as [H4 H].
  apply Z.eqb_eq in H4. split; [exact H4|].
  apply orb_true_iff in H as [H|H].
  - left. apply negb_true_iff, Z.eqb_neq in H. exact H.
  - right. apply Z.eqb_eq in H. exact H.
Qed.

(** A day that exists in its month has a day number within its era from
    which the year of the era, the month and the day are recovered. *)
Lemma era_day (y m d : Z) :
  1 <= m <= 12 -> 1 <= d <= days_in_month y m ->
  let y' := if m <=? 2 then y - 1 else y in
  let yoe := y' mod 400 in
  0 <= doe_of yoe m d <= 146096
  /\ civil_of_doe (doe_of yoe m d) = (yoe, m, d).
Proof.
  intros Hm Hd y' yoe.
  assert (Hyoe : 0 <= yoe < 400) by (apply Z.mod_pos_bound; lia).
  pose proof (days_in_month_le y m) as Hle.
  set (mp := if m >? 2 then m - 3 else m + 9).
  assert (Hmp : 0 <= mp <= 11)
    by (subst mp; destruct (Z.gtb_spec m 2); lia).
  assert (H30 : mp = 1 \/ mp = 3 \/ mp = 6 \/ mp = 8 -> d <= 30).
  { intros Hc.
    assert (Hmonth : m = 4 \/ m = 6 \/ m = 9 \/ m = 11)
      by (subst mp; destruct (Z.gtb_spec m 2); lia).
    unfold days_in_month in Hd.
    destruct Hmonth as [-> | [-> | [-> | ->]]]; simpl in Hd; lia. }
  assert (H29 : mp = 11 -> m = 2 /\ d <= 29 /\ (d = 29 -> is_leap y = true)).
  { intros Hc.
    assert (Hmonth : m = 2) by (subst mp; destruct (Z.gtb_spec m 2); lia).
    subst m. unfold days_in_month in Hd. simpl in Hd.
    destruct (is_leap y); repeat split; try lia; intros; reflexivity. }
  destruct (month_day_of_doy mp d Hmp ltac:(lia) H30 ltac:(lia))
    as (Hdoy & Hlast & Hmonth & Hday).
  set (doy := (153 * mp + 2) / 5 + d - 1) in *.
  assert (Hleap : doy = 365 ->
                  (yoe + 1) mod 4 = 0
                  /\ ((yoe + 1) mod 100 <> 0 \/ yoe + 1 = 400)).
  { intros Hend. destruct (Hlast Hend) as [Hfeb H29th].
    destruct (H29 Hfeb) as (-> & _ & Hly).
    apply is_leap_true in Hly; [|exact H29th].
    subst yoe y'. simpl. clear - Hly.
    Z.to_euclidean_division_equations; lia. }
  destruct (yoe_of_doe yoe doy Hyoe Hdoy Hleap) as [Hrange Hyear].
  unfold doe_of. fold mp. fold doy. split; [exact Hrange|].
  unfold civil_of_doe. rewrite Hyear.
  replace (yoe * 365 + yoe / 4 - yoe / 100 + doy
           - (365 * yoe + yoe / 4 - yoe / 100)) with doy by lia.
  rewrite Hday, Hmonth.
  f_equal. f_equal.
  subst mp. destruct (Z.gtb_spec m 2).
  - destruct (Z.ltb_spec (m - 3) 10); lia.
  - destruct (Z.ltb_spec (m + 9) 10); lia.
Qed.

Lemma civil_round_trip (y m d : Z) :
  1 <= m <= 12 -> 1 <= d <= days_in_month y m ->
  civil_from_days (days_from_civil y m d) = (y, m, d).
Proof.
  intros Hm Hd.
  destruct (era_day y m d Hm Hd) as [Hrange Hinv].
  unfold days_from_civil, civil_from_days.
  set (y' := if m <=? 2 then y - 1 else y) in *.
  replace (y' - y' / 400 * 400) with (y' mod 400)
    by (rewrite Z.mod_eq by lia; lia).
  set (doe := doe_of (y' mod 400) m d) in *.
  replace (y' / 400 * 146097 + doe - 719468 + 719468)
    with (doe + y' / 400 * 146097) by lia.
  rewrite Z.div_add by lia. rewrite (Z.div_small doe) by lia.
  replace (doe + y' / 400 * 146097 - (0 + y' / 400) * 146097)
    with doe by lia.
  rewrite Hinv.
  replace (y' mod 400 + (0 + y' / 400) * 400) with y'
    by (rewrite Z.mod_eq by lia; lia).
  subst y'. destruct (Z.leb_spec m 2); repeat f_equal; lia.
Qed.

Lemma digit_checks : forallb digit_check (seqZ 0 10) = true.
Proof. vm_cast_no_check (eq_refl true). Qed.

Lemma digit_val_digit (k : Z) :
  0 <= k <= 9 -> digit_val (digit k) = Some k.
Proof.
  intros Hk. pose proof (forallb_seqZ _ 0 10 k digit_checks ltac:(lia)) as H.
  unfold digit_check in H. apply andb_true_iff in H as [H _].
  destruct (digit_val (digit k)); [|discriminate].
  apply Z.eqb_eq in H. congruence.
Qed.

Lemma digit_not_T (k : Z) :
  0 <= k <= 9 -> Ascii.eqb (digit k) "T" = false.
Proof.
  intros Hk. pose proof (forallb_seqZ _ 0 10 k digit_checks ltac:(lia)) as H.
  unfold digit_check in H. apply andb_true_iff in H as [_ H].
  apply negb_true_iff in H. exact H.
Qed.

Lemma num2_digits (n : Z) :
  0 <= n <= 99 -> num2 (digit (n / 10 mod 10)) (digit (n mod 10)) = Some n.
Proof.
  intros Hn. unfold num2.
  rewrite !digit_val_digit by (Z.to_euclidean_division_equations; lia).
  f_equal. Z.to_euclidean_division_equations; lia.
Qed.

Lemma num4_digits (n : Z) :
  0 <= n <= 9999 ->
  num4 (digit (n / 1000 mod 10)) (digit (n / 100 mod 10))
       (digit (n / 10 mod 10)) (digit (n mod 10)) = Some n.
Proof.
  intros Hn. unfold num4, num2.
  rewrite !digit_val_digit by (Z.to_euclidean_division_equations; lia).
  f_equal. Z.to_euclidean_division_equations; lia.
Qed.

Lemma parse_ymd_digits (y m d : Z) :
  0 <= y <= 9999 -> 1 <= m <= 12 -> 1 <= d <= 31 ->
  parse_ymd (digit (y / 1000 mod 10)) (digit (y / 100 mod 10))
    (digit (y / 10 mod 10)) (digit (y mod 10))
    (digit (m / 10 mod 10)) (digit (m mod 10))
    (digit (d / 10 mod 10)) (digit (d mod 10))
  = Some (days_from_civil y m d).
Proof.
  intros Hy Hm Hd. unfold parse_ymd.
  rewrite num4_digits, !num2_digits by lia.
  destruct (Z.leb_spec 1 m); [|lia]. destruct (Z.leb_spec m 12); [|lia].
  destruct (Z.leb_spec 1 d); [|lia]. destruct (Z.leb_spec d 31); [|lia].
  reflexivity.
Qed.

Lemma iso_year_four (y : Z) : 0 <= y <= 9999 -> iso_year y = pad4 y.
Proof.
  intros Hy. unfold iso_year.
  destruct (Z.leb_spec 0 y); [|lia]. destruct (Z.leb_spec y 9999); [|lia].
  reflexivity.
Qed.

Lemma parse_iso_date (y m d : Z) :
  0 <= y <= 9999 -> 1 <= m <= 12 -> 1 <= d <= 31 ->
  parse (iso_date y m d) = Some (days_from_civil y m d * msPerDay).
Proof.
  intros Hy Hm Hd. unfold iso_date. rewrite iso_year_four by exact Hy.
  cbv [pad4 pad3 pad2 String.append parse].
  rewrite parse_ymd_digits by assumption. reflexivity.
Qed.

Lemma parse_iso_midnight (y m d : Z) :
  0 <= y <= 9999 -> 1 <= m <= 12 -> 1 <= d <= 31 ->
  parse (iso_date y m d +:+ "T00:00:00.000Z")
  = Some (days_from_civil y m d * msPerDay).
Proof.
  intros Hy Hm Hd. unfold iso_date. rewrite iso_year_four by exact Hy.
  cbv [pad4 pad3 pad2 String.append parse].
  rewrite parse_ymd_digits by assumption.
  change (parse_hms "0" "0" "0" "0" "0" "0" "0" "0" "0") with (Some 0).
  cbv beta iota. f_equal. lia.
Qed.

Lemma split_head_app (sep : ascii) (s r : string) :
  lacks sep s = true -> split_head sep (s +:+ String sep r) = s.
Proof.
  induction s as [|c s IH]; simpl; intros H.
  - rewrite Ascii.eqb_refl. reflexivity.
  - apply andb_true_iff in H as [Hc Hs]. apply negb_true_iff in Hc.
    rewrite Hc, IH by exact Hs. reflexivity.
Qed.

Lemma iso_date_lacks_T (y m d : Z) :
  0 <= y <= 9999 -> lacks "T" (iso_date y m d) = true.
Proof.
  intros Hy. unfold iso_date. rewrite iso_year_four by exact Hy.
  cbv [pad4 pad3 pad2 String.append lacks].
  rewrite !digit_not_T by (Z.to_euclidean_division_equations; lia).
  reflexivity.
Qed.

Lemma toISOString_midnight (day y m d : Z) :
  civil_from_days day = (y, m, d) ->
  toISOString (day * msPerDay) = iso_date y m d +:+ "T00:00:00.000Z".
Proof.
  intros Hc. unfold toISOString.
  rewrite Z.div_mul by (unfold msPerDay; lia).
  rewrite Hc, Z.sub_diag. reflexivity.
Qed.


Lemma pretty_N_char_digit (n : N) :
  (n < 10)%N -> pretty_N_char n = digit (Z.of_N n).
Proof.
  intros Hn. destruct n as [|p]; [reflexivity|].
  do 4 (try destruct p as [p|p|]); try reflexivity; lia.
Qed.

(** [`${year}`] of a four-digit year is its four digits. *)
Lemma pretty_year (y : Z) : 1000 <= y <= 9999 -> pretty y = pad4 y.
Proof.
  intros Hy. destruct y as [|p|p]; try lia.
  unfold pretty, pretty_Z, pretty, pretty_positive, pretty, pretty_N.
  destruct (decide (N.pos p = 0%N)) as [E|_]; [discriminate E|].
  set (x := N.pos p).
  assert (Hx : Z.pos p = Z.of_N x) by reflexivity.
  rewrite Hx in Hy |- *. clearbody x. clear Hx p.
  rewrite (pretty_N_go_step x) by lia.
  rewrite (pretty_N_go_step (x / 10)%N)
    by (zify; Z.to_euclidean_division_equations; lia).
  rewrite (pretty_N_go_step (x / 10 / 10)%N)
    by (zify; Z.to_euclidean_division_equations; lia).
  rewrite (pretty_N_go_step (x / 10 / 10 / 10)%N)
    by (zify; Z.to_euclidean_division_equations; lia).
  replace (x / 10 / 10 / 10 / 10)%N with 0%N
    by (zify; Z.to_euclidean_division_equations; lia).
  rewrite pretty_N_go_0.
  rewrite !pretty_N_char_digit by (apply N.mod_lt; lia).
  unfold pad4, pad3, pad2.
  repeat f_equal; zify; Z.to_euclidean_division_equations; lia.
Qed.
Lemma field_checks : forallb field_check (seqZ 1 31) = true.
Proof. vm_cast_no_check (eq_refl true). Qed.

(** The key of a calendar cell is the ISO date of its day, for a
    four-digit year. *)
Lemma getLocalDateString_iso (y m d : Z) :
  1000 <= y <= 9999 -> 1 <= m <= 12 -> 1 <= d <= 31 ->
  HomeView.getLocalDateString (HomeView.mkLocalDate y (m - 1) d)
  = iso_date y m d.
Proof.
  intros Hy Hm Hd. unfold HomeView.getLocalDateString. simpl.
  replace (m - 1 + 1) with m by lia.
  pose proof (pretty_year y ltac:(lia)) as Hyear.
  pose proof (forallb_seqZ _ 1 31 m field_checks ltac:(lia)) as Hmonth.
  pose proof (forallb_seqZ _ 1 31 d field_checks ltac:(lia)) as Hday.
  unfold field_check in Hmonth, Hday.
  apply String.eqb_eq in Hmonth.
  apply String.eqb_eq in Hday.
  rewrite Hyear, Hmonth, Hday. unfold iso_date.
  rewrite iso_year_four by lia. reflexivity.
Qed.

End DateLemmas.

(** C8. A note created with a calendar date [date] (YYYY-MM-DD, an
    existing day of the years 0000 to 9999) comes back from [createNote]
    with that date, and [getNotes] reads it back with that date: the
    date is stored as midnight UTC of the day and rendered in UTC again,
    so the time zone of the client plays no part. The key that the
    calendar computes for the cell of that local day (for a four-digit
    year) is the same string, so the look-up behind the heat map finds
    the note. *)
Theorem note_date_round_trip
    (table : list noteService.NoteRow.t) (newId : string)
    (stamp : option Z) (now : Z)
    (userId title content category : string) (y m d : Z) :
  (0 <= y <= 9999)%Z -> (1 <= m <= 12)%Z ->
  (1 <= d <= JsDate.days_in_month y m)%Z ->
  let date := JsDate.iso_date y m d in
  let midnight := (JsDate.days_from_civil y m d * JsDate.msPerDay)%Z in
  let created :=
    noteService.createNote Gateway.Up newId stamp now userId
      (noteService.Draft.mk title content category date) table in
  let cell := HomeView.mkLocalDate y (m - 1) d in
  snd created
  = Resolved
      (Note.mk newId title content category date
         (match stamp with Some t => t | None => 0%Z end))
  /\ exists read,
       noteService.getNotes Gateway.Up (fst created) userId = Resolved read
       /\ In (Note.mk newId title content category date
                (match stamp with Some t => t | None => midnight end))
            read
       /\ ((1000 <= y)%Z ->
           HomeView.getLocalDateString cell = date
           /\ HomeView.hasNoteOnDay read cell = true).
Proof.
  intros Hy Hm Hd date midnight created cell. subst date.
  pose proof (days_in_month_le y m) as Hle.
  assert (Hd31 : (1 <= d <= 31)%Z) by lia.
  assert (Hnonempty : String.eqb (JsDate.iso_date y m d) "" = false).
  { unfold JsDate.iso_date. rewrite iso_year_four by exact Hy.
    reflexivity. }
  assert (Htext : JsDate.toISOString midnight
                  = (JsDate.iso_date y m d) +:+ "T00:00:00.000Z").
  { apply toISOString_midnight, civil_round_trip; [exact Hm | exact Hd]. }
  assert (Hdate : noteService.date_of midnight = (JsDate.iso_date y m d)).
  { unfold noteService.date_of. rewrite Htext.
    apply (split_head_app "T" (JsDate.iso_date y m d) "00:00:00.000Z").
    apply iso_date_lacks_T, Hy. }
  assert (Hcreated :
            created
            = (table ++ [noteService.NoteRow.mk newId userId title content
                           category midnight stamp],
               Resolved
                 (Note.mk newId title content category (JsDate.iso_date y m d)
                    (match stamp with Some t => t | None => 0%Z end)))).
  { subst created. unfold noteService.createNote, noteService.created_at_text.
    cbn [noteService.Draft.date noteService.Draft.title
         noteService.Draft.content noteService.Draft.category].
    rewrite Hnonempty.
    rewrite (parse_iso_date y m d Hy Hm Hd31). fold midnight.
    unfold noteService.insert.
    cbn [noteService.NoteInsert.created_at noteService.NoteInsert.user_id
         noteService.NoteInsert.title noteService.NoteInsert.content
         noteService.NoteInsert.category].
    rewrite Htext.
    rewrite (parse_iso_midnight y m d Hy Hm Hd31). fold midnight.
    cbn [noteService.NoteRow.id noteService.NoteRow.title
         noteService.NoteRow.content noteService.NoteRow.category
         noteService.NoteRow.created_at noteService.NoteRow.last_edited].
    rewrite Hdate. reflexivity. }
  rewrite Hcreated. cbn [fst snd]. split; [reflexivity|].
  eexists. split; [reflexivity|].
  set (row := noteService.NoteRow.mk newId userId title content category
                midnight stamp).
  set (toNote := fun n : noteService.NoteRow.t =>
         Note.mk (noteService.NoteRow.id n) (noteService.NoteRow.title n)
           (noteService.NoteRow.content n) (noteService.NoteRow.category n)
           (noteService.date_of (noteService.NoteRow.created_at n))
           (match noteService.NoteRow.last_edited n with
            | Some t => t
            | None => noteService.NoteRow.created_at n
            end)).
  assert (Hin : In (Note.mk newId title content category (JsDate.iso_date y m d)
                      (match stamp with Some t => t | None => midnight end))
                  (map toNote
                     (noteService.select_by_user userId (table ++ [row])))).
  { replace (Note.mk newId title content category (JsDate.iso_date y m d)
               (match stamp with Some t => t | None => midnight end))
      with (toNote row)
      by (unfold toNote, row; simpl; rewrite Hdate; reflexivity).
    apply in_map. unfold noteService.select_by_user.
    eapply Permutation_in;
      [symmetry; apply merge_sort_Permutation|].
    unfold Gateway.eq. apply filter_In. split.
    - apply in_or_app. right. left. reflexivity.
    - unfold row. simpl. apply String.eqb_refl. }
  split; [exact Hin|].
  intros Hy4.
  assert (Hkey : HomeView.getLocalDateString cell = (JsDate.iso_date y m d))
    by (apply getLocalDateString_iso; lia).
  split; [exact Hkey|].
  unfold HomeView.hasNoteOnDay. apply existsb_exists.
  eexists. split; [exact Hin|]. simpl. rewrite Hkey. apply String.eqb_refl.
Qed.

(** A note for the leap day of 2024. *)
Lemma note_date_round_trip_witness :
  JsDate.iso_date 2024 2 29 = "2024-02-29"
  /\ snd (noteService.createNote Gateway.Up "n1" None 0 "u1"
            (noteService.Draft.mk "Sets" "notes" "math" "2024-02-29") [])
     = Resolved (Note.mk "n1" "Sets" "notes" "math" "2024-02-29" 0).
Proof.
  split; [reflexivity|].
  pose proof (note_date_round_trip [] "n1" None 0 "u1" "Sets" "notes"
                "math" 2024 2 29) as H.
  cbv zeta in H. destruct H as [H _].
  - lia.
  - lia.
  - vm_compute. split; discriminate.
  - exact H.
Defined.

(** * Further properties *)

(** ** Further properties of the social service *)

Section SocialCache.

Import socialService.

(** Flipping the bookmark flag of a post twice gives the post back. *)
Lemma flip_bookmark_twice (postId : string) (p : Post.t) :
  flip_bookmark postId (flip_bookmark postId p) = p.
Proof.
  unfold flip_bookmark.
  destruct (String.eqb (Post.id p) postId) eqn:E; simpl.
  - rewrite E. destruct p; unfold Post.with_bookmark; simpl.
    rewrite negb_involutive. reflexivity.
  - rewrite E. reflexivity.
Qed.

(** The state [toggleBookmark] leaves does not depend on the replies. *)
Lemma toggleBookmark_state (postId userId : string)
    (existing write : Reply unit) (st : State) :
  fst (toggleBookmark postId userId existing write st)
  = match postsCache st with
    | Some c =>
        set_postsCache st
          (Some (mkCached (map (flip_bookmark postId) (data c))
                          (timestamp c)))
    | None => st
    end.
Proof. unfold toggleBookmark. destruct existing, write; reflexivity. Qed.

Lemma toggleLike_state (postId userId : string)
    (existing write : Reply unit) (st : State) :
  fst (toggleLike postId userId existing write st)
  = match postsCache st with
    | Some c =>
        set_postsCache st
          (Some (mkCached (map (flip_like postId) (data c))
                          (timestamp c)))
    | None => st
    end.
Proof. unfold toggleLike. destruct existing, write; reflexivity. Qed.

(** X1. After the comments of a post were fetched at [t1], a read of the
    same post that starts less than [CACHE_TTL] later is answered from
    the cache, whatever the gateway would say, and leaves the service as
    it is; from [CACHE_TTL] on, a gateway error gives the empty list and
    not the cached comments; the entry does not answer for another
    post. *)
Theorem comments_cache_round_trip (postId : string)
    (rows : list CommentRow.t) (t0 t1 now now' : Z)
    (reply : Reply (list CommentRow.t)) (st : State) :
  let st1 := fst (getComments postId true t0 (Data rows) t1 st) in
  ((now - t1 < CACHE_TTL)%Z ->
   getComments postId false now reply now' st1
   = (st1, Resolved (map toComment rows)))
  /\ ((CACHE_TTL <= now - t1)%Z ->
      forall e, getComments postId false now (Error e) now' st1
                = (st1, Resolved []))
  /\ (forall other force,
        other <> postId ->
        snd (getComments other force now reply now' st1)
        = snd (getComments other force now reply now' st)).
Proof.
  cbv zeta. unfold getComments at 2 4. simpl.
  repeat split.
  - intros Hage. unfold getComments, fresh_comments. simpl.
    rewrite lookup_insert_eq. simpl.
    destruct (Z.ltb_spec (now - t1) CACHE_TTL); [reflexivity|lia].
  - intros Hage e. unfold getComments, fresh_comments. simpl.
    rewrite lookup_insert_eq. simpl.
    destruct (Z.ltb_spec (now - t1) CACHE_TTL); [lia|reflexivity].
  - intros other force Hne. unfold getComments, fresh_comments. simpl.
    rewrite lookup_insert_ne by congruence.
    destruct force; [destruct reply; reflexivity|].
    destruct (commentsCache st !! other) as [c|];
      [|destruct reply; reflexivity].
    destruct (now - timestamp c <? CACHE_TTL)%Z;
      [reflexivity|destruct reply; reflexivity].
Qed.

(** Comments fetched at 1000 and read again one minute later. *)
Lemma comments_cache_round_trip_witness :
  getComments "p1" false 61000 (Thrown "offline") 61001
    (fst (getComments "p1" true 0
            (Data [CommentRow.mk "c1" "hi" "2024-05-01T08:00:00+00:00"
                     (OneProfile None)])
            1000 Sample.unloaded))
  = (fst (getComments "p1" true 0
            (Data [CommentRow.mk "c1" "hi" "2024-05-01T08:00:00+00:00"
                     (OneProfile None)])
            1000 Sample.unloaded),
     Resolved [Comment.mk "c1" "Unknown" "" "hi"
                 (LocaleString "2024-05-01T08:00:00+00:00")]).
Proof.
  pose proof (comments_cache_round_trip "p1"
                [CommentRow.mk "c1" "hi" "2024-05-01T08:00:00+00:00"
                   (OneProfile None)]
                0 1000 61000 61001 (Thrown "offline") Sample.unloaded) as H.
  cbv zeta in H. destruct H as [H _].
  apply H. unfold CACHE_TTL. lia.
Defined.

(** X2. A page other than the first never touches the posts cache: the
    service state is unchanged and the answer is the mapped reply of the
    gateway, also when a fresh cache exists and no refresh is forced. *)
Theorem later_pages_bypass_cache (page pageSize : Z) (force : bool)
    (now now' : Z) (reply : Reply (list PostRow.t))
    (currentUserId : option string) (st : State) :
  page <> 0%Z ->
  getPosts page pageSize force now reply currentUserId now' st
  = (st,
     match reply with
     | Data rows => Resolved (map (toPost currentUserId) rows)
     | Error _ => Resolved []
     | Thrown e => Rejected e
     end).
Proof.
  intros Hp. unfold getPosts, fresh_posts.
  destruct (Z.eqb_spec page 0) as [->|_]; [congruence|].
  simpl. destruct reply; reflexivity.
Qed.

Lemma later_pages_bypass_cache_witness :
  getPosts 1 10 false 2000 (Data []) (Some "u1") 2001
    (Sample.loaded [Sample.post "p1" 0 false] 1000)
  = (Sample.loaded [Sample.post "p1" 0 false] 1000, Resolved []).
Proof.
  apply (later_pages_bypass_cache 1 10 false 2000 2001 (Data [])
           (Some "u1") (Sample.loaded [Sample.post "p1" 0 false] 1000)).
  lia.
Defined.

(** X3. A successful [createPost] or [updatePost] drops the posts cache
    and leaves the comments cache; the next unforced read of the first
    page then goes to the gateway and caches what it returns. A failed
    write leaves the service as it was. *)
Theorem post_write_invalidates_cache (userId content postId : string)
    (images tags : list string) (row : PostRecord.t)
    (rows : list PostRow.t) (pageSize now now' : Z)
    (currentUserId : option string) (e : string) (st : State) :
  let written := fst (createPost userId content images tags (Data row) st) in
  let edited := fst (updatePost postId (Data row) st) in
  getCacheInfo written = None
  /\ edited = written
  /\ commentsCache written = commentsCache st
  /\ getPosts 0 pageSize false now (Data rows) currentUserId now' written
     = (set_postsCache st
          (Some (mkCached (map (toPost currentUserId) rows) now')),
        Resolved (map (toPost currentUserId) rows))
  /\ createPost userId content images tags (Error e) st = (st, Rejected e)
  /\ createPost userId content images tags (Thrown e) st = (st, Rejected e)
  /\ updatePost postId (Error e) st = (st, Rejected e)
  /\ updatePost postId (Thrown e) st = (st, Rejected e).
Proof. cbv zeta. repeat split. Qed.

(** X4. After a successful [deletePost], the cached feed keeps its
    fetch time and its other posts in order and no longer holds the
    post, so a read within [CACHE_TTL] of the fetch is answered without
    it; the cached comments of the post stay. A failed delete leaves
    the service as it was. *)
Theorem deleted_post_leaves_cache (postId : string) (c : Cached Post.t)
    (now now' pageSize : Z) (reply : Reply (list PostRow.t))
    (currentUserId : option string) (e : string) (st : State) :
  postsCache st = Some c ->
  (now - timestamp c < CACHE_TTL)%Z ->
  let st' := fst (deletePost postId (Data tt) st) in
  getPosts 0 pageSize false now reply currentUserId now' st'
  = (st', Resolved (SquareView.without postId (data c)))
  /\ SquareView.has_id postId (SquareView.without postId (data c)) = false
  /\ (forall p, In p (data c) -> Post.id p <> postId ->
                In p (SquareView.without postId (data c)))
  /\ commentsCache st' = commentsCache st
  /\ deletePost postId (Error e) st = (st, Rejected e)
  /\ deletePost postId (Thrown e) st = (st, Rejected e).
Proof.
  intros Hc Hage. cbv zeta. unfold deletePost. simpl. rewrite Hc.
  repeat split.
  - unfold getPosts, fresh_posts. simpl.
    destruct (Z.ltb_spec (now - timestamp c) CACHE_TTL); [reflexivity|lia].
  - unfold SquareView.has_id, SquareView.without.
    apply not_true_is_false. intros H.
    apply existsb_exists in H. destruct H as [p [Hin Hp]].
    apply filter_In in Hin. destruct Hin as [_ Hf].
    rewrite Hp in Hf. discriminate.
  - intros p Hin Hne. unfold SquareView.without. apply filter_In.
    split; [exact Hin|].
    apply negb_true_iff. apply String.eqb_neq. exact Hne.
Qed.

Lemma deleted_post_leaves_cache_witness :
  getPosts 0 10 false 2000 (Thrown "offline") None 2001
    (fst (deletePost "p1" (Data tt)
            (Sample.loaded
               [Sample.post "p1" 0 false; Sample.post "p2" 0 false] 1000)))
  = (Sample.loaded [Sample.post "p2" 0 false] 1000,
     Resolved [Sample.post "p2" 0 false]).
Proof.
  pose proof (deleted_post_leaves_cache "p1"
                (mkCached
                   [Sample.post "p1" 0 false; Sample.post "p2" 0 false]
                   1000)
                2000 2001 10 (Thrown "offline") None "e"
                (Sample.loaded
                   [Sample.post "p1" 0 false; Sample.post "p2" 0 false]
                   1000)) as H.
  cbv zeta in H. destruct H as [H _].
  - reflexivity.
  - unfold CACHE_TTL. simpl. lia.
  - exact H.
Defined.

End SocialCache.

Section SocialWrites.

Import socialService.

(** X5. A comment created at [now] on a post whose comments are cached
    is appended to the cached list and the entry is stamped [now]: a
    read within [CACHE_TTL] of [now] returns the old comments followed
    by the new one, however old the entry was before. The posts cache
    keeps its fetch time. Without a cached entry nothing is stored for
    the post. *)
Theorem created_comment_reaches_cache (userId postId content : string)
    (row : CommentRow.t) (now later later' : Z)
    (reply : Reply (list CommentRow.t)) (c : Cached Comment.t)
    (st : State) :
  commentsCache st !! postId = Some c ->
  (later - now < CACHE_TTL)%Z ->
  let st1 := fst (createComment userId postId content (Data row) now st) in
  getComments postId false later reply later' st1
  = (st1, Resolved (data c ++ [toComment row]))
  /\ (timestamp <$> postsCache st1) = (timestamp <$> postsCache st).
Proof.
  intros Hc Hage. cbv zeta. unfold createComment. simpl. rewrite Hc.
  split.
  - unfold getComments, fresh_comments. simpl.
    rewrite lookup_insert_eq. simpl.
    destruct (Z.ltb_spec (later - now) CACHE_TTL); [reflexivity|lia].
  - destruct (postsCache st); reflexivity.
Qed.

(** An entry fetched at 0 is read ten minutes later, right after a
    comment was created. *)
Lemma created_comment_reaches_cache_witness :
  snd (getComments "p1" false 600001 (Thrown "offline") 600002
         (fst (createComment "u1" "p1" "hi"
                 (Data (CommentRow.mk "c1" "hi" "2024-05-01T08:00:00+00:00"
                          (OneProfile None)))
                 600000
                 (mkState None {[ "p1" := mkCached [] 0 ]}))))
  = Resolved [Comment.mk "c1" "Unknown" "" "hi"
                (LocaleString "2024-05-01T08:00:00+00:00")].
Proof.
  pose proof (created_comment_reaches_cache "u1" "p1" "hi"
                (CommentRow.mk "c1" "hi" "2024-05-01T08:00:00+00:00"
                   (OneProfile None))
                600000 600001 600002 (Thrown "offline") (mkCached [] 0)
                (mkState None {[ "p1" := mkCached [] 0 ]})) as H.
  cbv zeta in H. destruct H as [H _].
  - apply lookup_singleton_eq.
  - unfold CACHE_TTL. lia.
  - rewrite H. reflexivity.
Defined.

(** X6. [toggleBookmark] flips the bookmark flag of the post in the
    posts cache before the gateway is asked, and leaves everything else
    of the cache as it is. The flip stays whatever the gateway answers,
    also when the call fails; the comments cache is not touched. Two
    calls for the same post therefore leave the service exactly as it
    was. *)
Theorem bookmark_toggle_twice (postId userId : string)
    (e1 w1 e2 w2 : Reply unit) (st : State) :
  postsCache (fst (toggleBookmark postId userId e1 w1 st))
  = (fun c =>
       mkCached
         (map (fun p =>
                 if String.eqb (Post.id p) postId
                 then Post.with_bookmark p (negb (Post.isBookmarked p))
                 else p) (data c))
         (timestamp c)) <$> postsCache st
  /\ commentsCache (fst (toggleBookmark postId userId e1 w1 st))
     = commentsCache st
  /\ fst (toggleBookmark postId userId e2 w2
            (fst (toggleBookmark postId userId e1 w1 st)))
     = st.
Proof.
  split; [|split].
  - rewrite toggleBookmark_state. destruct st as [[c|] cc]; reflexivity.
  - rewrite toggleBookmark_state. destruct st as [[c|] cc]; reflexivity.
  - rewrite !toggleBookmark_state.
    destruct st as [[[d ts]|] cc]; simpl; [|reflexivity].
    unfold set_postsCache. simpl. do 3 f_equal.
    rewrite map_map. rewrite <- (map_id d) at 2.
    apply map_ext. intros p. apply flip_bookmark_twice.
Qed.

(** X7. Two calls of [toggleLike] for the same post leave the service
    as it was when the cached post has a like count of at least 0, and
    of at least 1 if it is marked as liked. *)
Theorem like_toggle_twice (postId userId : string)
    (e1 w1 e2 w2 : Reply unit) (st : State) :
  (forall c p, postsCache st = Some c -> In p (data c) ->
     (0 <= Post.likes p)%Z
     /\ (Post.isLiked p = true -> 1 <= Post.likes p)%Z) ->
  fst (toggleLike postId userId e2 w2
         (fst (toggleLike postId userId e1 w1 st)))
  = st.
Proof.
  intros Hok. rewrite !toggleLike_state.
  destruct st as [[[d ts]|] cc]; simpl; [|reflexivity].
  unfold set_postsCache. simpl. do 3 f_equal.
  rewrite map_map. rewrite <- (map_id d) at 2.
  apply map_ext_in. intros p Hin.
  destruct (Hok _ p eq_refl Hin) as [H0 H1].
  unfold flip_like.
  destruct (String.eqb (Post.id p) postId) eqn:E; simpl;
    [|rewrite E; reflexivity].
  rewrite E. destruct p as [i u a c im l cm lk bk tm tg].
  unfold Post.with_like; simpl in *.
  destruct lk; simpl; unfold max0.
  - specialize (H1 eq_refl).
    destruct (Z.ltb_spec (l - 1) 0); [lia|]. f_equal. lia.
  - destruct (Z.ltb_spec (l + 1 - 1) 0); [lia|]. f_equal. lia.
Qed.

Lemma like_toggle_twice_witness :
  fst (toggleLike "p1" "u1" (Data tt) (Data tt)
         (fst (toggleLike "p1" "u1" (Error "none") (Data tt)
                 (Sample.loaded [Sample.post "p1" 0 false] 1000))))
  = Sample.loaded [Sample.post "p1" 0 false] 1000.
Proof.
  apply (like_toggle_twice "p1" "u1" (Error "none") (Data tt) (Data tt)
           (Data tt) (Sample.loaded [Sample.post "p1" 0 false] 1000)).
  intros c p Hc Hin. injection Hc as <-. simpl in Hin.
  destruct Hin as [<-|[]]. simpl. split; [lia|discriminate].
Defined.

End SocialWrites.

(** ** Further properties of the feed view *)

Section FeedEvents.

Import SquareView.

(** X8. The post handed over by [getPostById] always carries 0 likes
    and is neither liked nor bookmarked, so once an UPDATE event of the
    [posts] channel has been applied, every entry of the feed with the
    id of the event shows 0 likes and no like of the viewer, whatever it
    showed before; the feed keeps its length. *)
Theorem update_event_resets_likes (link : Gateway.Link)
    (table : list socialService.JoinedRow.t) (i : string) (q : Post.t)
    (current : list Post.t) :
  socialService.getPostById link table i = Resolved (Some q) ->
  let shown :=
    on_post_update i (socialService.getPostById link table i) current in
  length shown = length current
  /\ Forall (fun p => Post.id p = i ->
               Post.likes p = 0%Z /\ Post.isLiked p = false
               /\ Post.isBookmarked p = false) shown.
Proof.
  intros Hq. cbv zeta. rewrite Hq. unfold on_post_update, replace.
  split; [apply length_map|].
  assert (Hz : Post.likes q = 0%Z /\ Post.isLiked q = false
               /\ Post.isBookmarked q = false).
  { unfold socialService.getPostById in Hq.
    destruct (Gateway.answer link _) as [row|e|e]; try discriminate.
    injection Hq as <-. repeat split. }
  apply List.Forall_forall. intros p Hin.
  apply in_map_iff in Hin. destruct Hin as [p0 [Hp Hin]].
  destruct (String.eqb (Post.id p0) i) eqn:E.
  - subst p. intros _. exact Hz.
  - subst p. intros Hid. apply String.eqb_neq in E. contradiction.
Qed.

(** A post shown with 5 likes is edited. *)
Lemma update_event_resets_likes_witness :
  length (on_post_update "p1"
            (socialService.getPostById Gateway.Up [Sample.row "p1"] "p1")
            [Sample.post "p1" 5 true]) = 1%nat
  /\ Forall (fun p => Post.id p = "p1" ->
               Post.likes p = 0%Z /\ Post.isLiked p = false
               /\ Post.isBookmarked p = false)
       (on_post_update "p1"
          (socialService.getPostById Gateway.Up [Sample.row "p1"] "p1")
          [Sample.post "p1" 5 true]).
Proof.
  apply (update_event_resets_likes Gateway.Up [Sample.row "p1"] "p1"
           (Sample.post "p1" 0 false) [Sample.post "p1" 5 true]).
  reflexivity.
Defined.

(** X9. The like button when [toggleLike] rejects, which it does
    exactly when the look-up of the like or the write that follows
    raises: the feed of the render is put back exactly (every entry with
    the id of the post being that post) and the statistic is left alone.
    When [toggleLike] resolves, the optimistic feed stays. In both cases
    the posts cache of the service stays flipped. *)
Theorem thrown_like_restores_feed (posts : list Post.t) (post : Post.t)
    (uid : string) (existing write : Reply unit)
    (svc : socialService.State) (received : Z) :
  (forall p, In p posts -> Post.id p = Post.id post -> p = post) ->
  let r := likeClick posts post (Some uid) existing write svc received in
  let settled :=
    snd (socialService.toggleLike (Post.id post) uid existing write svc) in
  is_rejected settled
  = match existing, write with
    | Thrown _, _ => true
    | _, Thrown _ => true
    | _, _ => false
    end
  /\ match settled with
     | Rejected _ => feed r = posts /\ likesReceived r = received
     | Resolved _ => feed r = like_optimistic posts post
     end
  /\ socialService.postsCache (service r)
     = (fun c =>
          mkCached
            (map (fun p =>
                    if String.eqb (Post.id p) (Post.id post)
                    then Post.with_like p (negb (Post.isLiked p))
                           (if negb (Post.isLiked p)
                            then Post.likes p + 1
                            else Z.max 0 (Post.likes p - 1))%Z
                    else p) (data c))
            (timestamp c)) <$> socialService.postsCache svc.
Proof.
  intros Huniq. cbv zeta.
  pose proof (like_revert_restores posts post Huniq) as Hrev.
  unfold likeClick.
  split; [destruct existing, write; reflexivity|].
  split.
  - destruct existing, write; simpl; try reflexivity;
      (split; [exact Hrev|reflexivity]).
  - destruct svc as [[c|] cc], existing, write; reflexivity.
Qed.

(** The look-up finds no like and the insert raises. *)
Lemma thrown_like_restores_feed_witness :
  feed (likeClick [Sample.post "p1" 2 false] (Sample.post "p1" 2 false)
          (Some "u1") (Error "none") (Thrown "offline")
          (Sample.loaded [Sample.post "p1" 2 false] 0) 0)
  = [Sample.post "p1" 2 false].
Proof.
  pose proof (thrown_like_restores_feed [Sample.post "p1" 2 false]
                (Sample.post "p1" 2 false) "u1" (Error "none")
                (Thrown "offline")
                (Sample.loaded [Sample.post "p1" 2 false] 0) 0) as H.
  cbv zeta in H. destruct H as [_ [H _]].
  - intros p [<-|[]] _. reflexivity.
  - simpl in H. destruct H as [H _]. exact H.
Defined.

(** The revert of the bookmark button undoes its optimistic update on
    the feed of the render. *)
Lemma bookmark_revert_restores (posts : list Post.t) (post : Post.t) :
  (forall p, In p posts -> Post.id p = Post.id post -> p = post) ->
  bookmark_revert posts post = posts.
Proof.
  intros Huniq. unfold bookmark_revert.
  induction posts as [|p l IH]; simpl; [reflexivity|].
  f_equal.
  - destruct (String.eqb (Post.id p) (Post.id post)) eqn:E;
      [|reflexivity].
    apply String.eqb_eq in E.
    rewrite (Huniq p (or_introl eq_refl) E).
    destruct post; unfold Post.with_bookmark; simpl.
    rewrite negb_involutive. reflexivity.
  - apply IH. intros q Hq. apply Huniq. right. exact Hq.
Qed.

(** X10. The bookmark button: when [toggleBookmark] rejects, the feed
    of the render is put back and the bookmark count is untouched; when
    it resolves, the feed shows the flipped flag on the post and the
    count moves by one in the direction the service reported, never
    below 0 from a count that was not negative. *)
Theorem bookmark_click_settles (posts : list Post.t) (post : Post.t)
    (uid : string) (existing write : Reply unit)
    (svc : socialService.State) (count : Z) :
  (forall p, In p posts -> Post.id p = Post.id post -> p = post) ->
  (0 <= count)%Z ->
  let r := bookmarkClick posts post (Some uid) existing write svc count in
  (0 <= bookmarksCount r)%Z
  /\ match snd (socialService.toggleBookmark (Post.id post) uid existing
                  write svc) with
     | Rejected _ => marked_feed r = posts /\ bookmarksCount r = count
     | Resolved b =>
         marked_feed r = bookmark_optimistic posts post
         /\ (bookmarksCount r
             = if b then count + 1 else Z.max 0 (count - 1))%Z
         /\ Forall (fun p => Post.id p = Post.id post ->
                      Post.isBookmarked p = negb (Post.isBookmarked post))
              (marked_feed r)
     end.
Proof.
  intros Huniq Hc. cbv zeta. unfold bookmarkClick.
  destruct (socialService.toggleBookmark (Post.id post) uid existing write
              svc) as [svc' [b|e]] eqn:E; simpl.
  - split; [destruct b; unfold max0; lia|].
    repeat split.
    unfold bookmark_optimistic. apply List.Forall_forall. intros p Hin.
    apply in_map_iff in Hin. destruct Hin as [p0 [Hp Hin]].
    destruct (String.eqb (Post.id p0) (Post.id post)) eqn:Ei.
    + subst p. intros _. reflexivity.
    + subst p. intros Hid. apply String.eqb_neq in Ei. contradiction.
  - split; [exact Hc|]. split; [|reflexivity].
    apply bookmark_revert_restores. exact Huniq.
Qed.

Lemma bookmark_click_settles_witness :
  marked_feed
    (bookmarkClick [Sample.post "p1" 2 false] (Sample.post "p1" 2 false)
       (Some "u1") (Thrown "offline") (Data tt) Sample.unloaded 0)
  = [Sample.post "p1" 2 false].
Proof.
  pose proof (bookmark_click_settles [Sample.post "p1" 2 false]
                (Sample.post "p1" 2 false) "u1" (Thrown "offline")
                (Data tt) Sample.unloaded 0) as H.
  cbv zeta in H. destruct H as [_ H].
  - intros p [<-|[]] _. reflexivity.
  - lia.
  - simpl in H. destruct H as [H _]. exact H.
Defined.

End FeedEvents.

Section FeedChannels.

Import SquareView.

(** X11. A like INSERT event followed by the DELETE event of the same
    post puts the feed back when the like counts of that post are not
    negative; the same holds for the comments channel. *)
Theorem count_events_cancel (i : string) (n o n' o' : option string)
    (current : list Post.t) :
  target (mkRowEvent INSERT n o) = Some i ->
  target (mkRowEvent DELETE n' o') = Some i ->
  Forall counts_ok current ->
  likesChannel (mkRowEvent DELETE n' o')
    (likesChannel (mkRowEvent INSERT n o) current) = current
  /\ commentsChannel (mkRowEvent DELETE n' o')
       (commentsChannel (mkRowEvent INSERT n o) current) = current.
Proof.
  intros Hi Hd Hok. unfold likesChannel, commentsChannel.
  rewrite Hi, Hd. simpl. rewrite !map_map.
  split.
  - rewrite <- (map_id current) at 2. apply map_ext_in. intros p Hin.
    rewrite List.Forall_forall in Hok. destruct (Hok p Hin) as [Hl _].
    destruct (String.eqb (Post.id p) i) eqn:E; simpl; rewrite E;
      [|reflexivity].
    destruct p; unfold Post.with_likes, max0; simpl in *. f_equal. lia.
  - rewrite <- (map_id current) at 2. apply map_ext_in. intros p Hin.
    rewrite List.Forall_forall in Hok. destruct (Hok p Hin) as [_ Hc].
    destruct (String.eqb (Post.id p) i) eqn:E; simpl; rewrite E;
      [|reflexivity].
    destruct p; unfold Post.with_comments, max0; simpl in *. f_equal. lia.
Qed.

Lemma count_events_cancel_witness :
  likesChannel (mkRowEvent DELETE None (Some "p1"))
    (likesChannel (mkRowEvent INSERT (Some "p1") None)
       [Sample.post "p1" 0 false])
  = [Sample.post "p1" 0 false].
Proof.
  apply (count_events_cancel "p1" (Some "p1") None None (Some "p1")
           [Sample.post "p1" 0 false]).
  - reflexivity.
  - reflexivity.
  - repeat constructor; simpl; lia.
Defined.

(** X12. An event of the likes channel changes at most the like count
    of a post, and an event of the comments channel at most its comment
    count: the posts stay the same in number and order, and every other
    field of every post, the like and bookmark flags included, is kept.
    An event without a post id, or for a post that is not in the feed,
    changes nothing at all. *)
Theorem count_events_keep_feed (ev : RowEvent) (current : list Post.t) :
  Forall2 (fun p q => q = Post.with_likes p (Post.likes q)) current
    (likesChannel ev current)
  /\ Forall2 (fun p q => q = Post.with_comments p (Post.comments q)) current
       (commentsChannel ev current)
  /\ (target ev = None ->
      likesChannel ev current = current
      /\ commentsChannel ev current = current)
  /\ (forall i, target ev = Some i -> has_id i current = false ->
      likesChannel ev current = current
      /\ commentsChannel ev current = current).
Proof.
  assert (Heta : forall p, Post.with_likes p (Post.likes p) = p
                           /\ Post.with_comments p (Post.comments p) = p).
  { intros p. destruct p. split; reflexivity. }
  unfold likesChannel, commentsChannel.
  destruct (target ev) as [i|].
  2: { split; [|split; [|split]].
       - induction current as [|p l IH]; constructor;
           [symmetry; apply Heta|exact IH].
       - induction current as [|p l IH]; constructor;
           [symmetry; apply Heta|exact IH].
       - intros _. split; reflexivity.
       - discriminate. }
  split; [|split; [|split]].
  - induction current as [|p l IH]; simpl; constructor; [|exact IH].
    destruct (String.eqb (Post.id p) i); [reflexivity|].
    symmetry. apply Heta.
  - induction current as [|p l IH]; simpl; constructor; [|exact IH].
    destruct (String.eqb (Post.id p) i); [reflexivity|].
    symmetry. apply Heta.
  - discriminate.
  - intros j Hj Habs. injection Hj as <-.
    assert (Hno : forall p, In p current ->
                    String.eqb (Post.id p) i = false).
    { intros p Hin. apply not_true_is_false. intros E.
      unfold has_id in Habs.
      assert (existsb (fun p => String.eqb (Post.id p) i) current = true)
        by (apply existsb_exists; exists p; split; assumption).
      congruence. }
    split; rewrite <- (map_id current) at 2; apply map_ext_in;
      intros p Hin; rewrite (Hno p Hin); reflexivity.
Qed.

Lemma count_events_keep_feed_witness :
  likesChannel (mkRowEvent INSERT (Some "p9") None)
    [Sample.post "p1" 0 false]
  = [Sample.post "p1" 0 false].
Proof.
  pose proof (count_events_keep_feed (mkRowEvent INSERT (Some "p9") None)
                [Sample.post "p1" 0 false]) as H.
  destruct H as [_ [_ [_ H]]].
  destruct (H "p9" eq_refl eq_refl) as [H1 _]. exact H1.
Defined.

(** X13. The DELETE event of the [posts] channel is idempotent, leaves
    no entry with the deleted id and keeps the number of entries of
    every other id; an UPDATE event for the deleted post that arrives
    afterwards does not bring it back. *)
Theorem delete_event_is_final (i : string) (current : list Post.t)
    (fetched : Outcome (option Post.t)) :
  i <> EmptyString ->
  let gone := on_post_delete (Some i) current in
  on_post_delete (Some i) gone = gone
  /\ has_id i gone = false
  /\ (forall j, j <> i -> count_id j gone = count_id j current)
  /\ on_post_update i fetched gone = gone.
Proof.
  intros Hne. cbv zeta. unfold on_post_delete.
  destruct (String.eqb_spec i ""); [contradiction|].
  assert (Habs : has_id i (without i current) = false).
  { apply has_id_count. apply count_id_without_same. }
  repeat split.
  - apply without_absent. exact Habs.
  - exact Habs.
  - intros j Hj. apply count_id_without_other. exact Hj.
  - unfold on_post_update. destruct fetched as [[q|]|e]; try reflexivity.
    apply replace_absent. exact Habs.
Qed.

Lemma delete_event_is_final_witness :
  on_post_update "p1" (Resolved (Some (Sample.post "p1" 0 false)))
    (on_post_delete (Some "p1")
       [Sample.post "p1" 3 true; Sample.post "p2" 0 false])
  = [Sample.post "p2" 0 false].
Proof.
  pose proof (delete_event_is_final "p1"
                [Sample.post "p1" 3 true; Sample.post "p2" 0 false]
                (Resolved (Some (Sample.post "p1" 0 false)))) as H.
  cbv zeta in H. destruct H as [_ [_ [_ H]]].
  - discriminate.
  - exact H.
Defined.

(** X14. How a publish that does not go through leaves the feed. When
    [createPost] fails, or when the re-fetch of the created post raises,
    the optimistic entry is taken out again: with a temporary id that no
    other post carries, the feed is what it was before the publish,
    together with whatever arrived in the meantime. When the re-fetch
    comes back with an error object, or does not find the post,
    [getPostById] hands over null: the temporary entry then stays in the
    feed and a reload of the feed is asked for. *)
Theorem failed_publish_restores_feed (now : Z)
    (authUserId content e : string) (images tags : list string)
    (user : Post.Author) (c : Composer) (row : socialService.PostRecord.t)
    (table : list socialService.JoinedRow.t)
    (fetched : Outcome (option Post.t)) (st : socialService.State)
    (prev arrived : list Post.t) :
  has_id (tempId now) prev = false ->
  has_id (tempId now) arrived = false ->
  let shown := arrived ++ prepend (optimisticPost now authUserId user c) prev in
  let i := socialService.PostRecord.id row in
  settle_publish (tempId now)
    (snd (socialService.createPost authUserId content images tags (Error e)
            st)) fetched shown
  = (arrived ++ prev, false)
  /\ settle_publish (tempId now)
       (snd (socialService.createPost authUserId content images tags
               (Thrown e) st)) fetched shown
     = (arrived ++ prev, false)
  /\ settle_publish (tempId now) (Resolved row)
       (socialService.getPostById (Gateway.Broken e) table i) shown
     = (arrived ++ prev, false)
  /\ settle_publish (tempId now) (Resolved row)
       (socialService.getPostById (Gateway.Down e) table i) shown
     = (shown, true)
  /\ (Gateway.eq socialService.JoinedRow.id i table = [] ->
      settle_publish (tempId now) (Resolved row)
        (socialService.getPostById Gateway.Up table i) shown
      = (shown, true)).
Proof.
  intros Hp Ha. cbv zeta. unfold settle_publish, rollback, prepend.
  assert (H : without (tempId now)
                (arrived ++ optimisticPost now authUserId user c :: prev)
              = arrived ++ prev).
  { unfold without. rewrite List.filter_app. simpl.
    rewrite String.eqb_refl. simpl.
    fold (without (tempId now) arrived). fold (without (tempId now) prev).
    rewrite !without_absent by assumption. reflexivity. }
  simpl. rewrite H.
  split; [reflexivity|]. split; [reflexivity|]. split; [reflexivity|].
  split; [reflexivity|].
  intros Hnone. unfold socialService.getPostById. rewrite Hnone.
  reflexivity.
Qed.

Lemma failed_publish_restores_feed_witness :
  settle_publish (tempId 1700000000000)
    (snd (socialService.createPost "u1" "hello" [] [] (Error "offline")
            Sample.unloaded))
    (Resolved None)
    (prepend
       (optimisticPost 1700000000000 "u1" (Post.mkAuthor "Lin" "")
          (mkComposer "hello" [] [] false))
       [Sample.post "p1" 0 false])
  = ([Sample.post "p1" 0 false], false).
Proof.
  pose proof (failed_publish_restores_feed 1700000000000 "u1" "hello"
                "offline" [] [] (Post.mkAuthor "Lin" "")
                (mkComposer "hello" [] [] false)
                (socialService.PostRecord.mk "p2" "u1" "hello" [] [] "")
                [] (Resolved None) Sample.unloaded
                [Sample.post "p1" 0 false] []) as H.
  cbv zeta in H. destruct H as [H _].
  - reflexivity.
  - reflexivity.
  - exact H.
Defined.

(** X30. One comment of the user is announced twice to the feed: by
    [onCommentAdded] after the service confirmed it, over the posts of
    the render, and by the INSERT event of the comments channel. When
    the event arrives after the confirmation, the post shows 2 comments
    more than before, while the posts cache of the service counts 1
    more; the confirmation alone, computed from the render, gives 1
    more. *)
Theorem own_comment_counted_twice (i userId content : string)
    (n o : option string) (row : socialService.CommentRow.t) (now T : Z)
    (cc : gmap string (Cached Comment.t)) (posts : list Post.t) :
  target (mkRowEvent INSERT n o) = Some i ->
  Forall counts_ok posts ->
  map Post.comments
    (commentsChannel (mkRowEvent INSERT n o) (onCommentAdded posts i))
  = map (fun p => if String.eqb (Post.id p) i
                  then (Post.comments p + 2)%Z else Post.comments p) posts
  /\ (fun c => map Post.comments (data c))
       <$> socialService.postsCache
             (fst (socialService.createComment userId i content (Data row)
                     now
                     (socialService.mkState (Some (mkCached posts T)) cc)))
     = Some (map (fun p => if String.eqb (Post.id p) i
                           then (Post.comments p + 1)%Z
                           else Post.comments p) posts)
  /\ map Post.comments (onCommentAdded posts i)
     = map (fun p => if String.eqb (Post.id p) i
                     then (Post.comments p + 1)%Z else Post.comments p)
         posts.
Proof.
  intros Ht Hok. unfold commentsChannel, onCommentAdded. rewrite Ht.
  rewrite !map_map. split; [|split].
  - apply map_ext_in. intros p Hin.
    rewrite List.Forall_forall in Hok. destruct (Hok p Hin) as [_ Hc].
    destruct (String.eqb (Post.id p) i) eqn:E; simpl; rewrite E;
      [|reflexivity].
    simpl. unfold max0. lia.
  - simpl. f_equal. rewrite map_map. apply map_ext. intros p.
    unfold socialService.bump_comments.
    destruct (String.eqb (Post.id p) i); reflexivity.
  - apply map_ext. intros p.
    destruct (String.eqb (Post.id p) i); reflexivity.
Qed.

Lemma own_comment_counted_twice_witness :
  map Post.comments
    (commentsChannel (mkRowEvent INSERT (Some "p1") None)
       (onCommentAdded [Sample.post "p1" 0 false] "p1"))
  = [2%Z].
Proof.
  pose proof (own_comment_counted_twice "p1" "u1" "hi" (Some "p1") None
                (socialService.CommentRow.mk "c1" "hi"
                   "2024-05-01T08:00:00+00:00" (OneProfile None))
                0 0 ∅ [Sample.post "p1" 0 false]) as H.
  destruct H as [H _].
  - reflexivity.
  - repeat constructor; simpl; lia.
  - exact H.
Defined.

End FeedChannels.

Section FeedLoading.

Import SquareView.

(** X15. Once a forced fetch of the first page has stored its posts at
    [t1], opening the feed up to 30 seconds later shows them without
    asking the gateway; later than that it shows them and starts one
    forced fetch in the background, which the service sends to the
    gateway although the cache is younger than [CACHE_TTL]. *)
Theorem refreshed_cache_serves_next_load
    (rows : list socialService.PostRow.t) (uid : option string)
    (t0 t1 later later' : Z) (reply : Reply (list socialService.PostRow.t))
    (st : socialService.State) (v : View) :
  let st1 :=
    fst (socialService.getPosts 0 10 true t0 (Data rows) uid t1 st) in
  let shown :=
    mkView (map (socialService.toPost uid) rows) (page v) (hasMore v)
      (isLoading v) in
  ((later - t1 <= 30000)%Z -> loadPosts later st1 v = (shown, []))
  /\ ((30000 < later - t1)%Z ->
      loadPosts later st1 v = (shown, [Background 0 10 true])
      /\ snd (socialService.getPosts 0 10 true later reply uid later' st1)
         = match reply with
           | Data rows' => Resolved (map (socialService.toPost uid) rows')
           | Error _ => Resolved []
           | Thrown e => Rejected e
           end).
Proof.
  cbv zeta. rewrite getPosts_refetch_replaces. simpl.
  split.
  - intros Hage. eapply loadPosts_within_window; [reflexivity|exact Hage].
  - intros Hage. split.
    + eapply loadPosts_past_window; [reflexivity|lia].
    + destruct reply; reflexivity.
Qed.

Lemma refreshed_cache_serves_next_load_witness :
  loadPosts 21000
    (fst (socialService.getPosts 0 10 true 0 (Data []) (Some "u1") 1000
            Sample.unloaded))
    (mkView [] 0 true false)
  = (mkView [] 0 true false, []).
Proof.
  pose proof (refreshed_cache_serves_next_load [] (Some "u1") 0 1000 21000
                21001 (Data []) Sample.unloaded (mkView [] 0 true false))
    as H.
  cbv zeta in H. destruct H as [H _]. apply H. lia.
Defined.

(** X16. Loading more from a page that is not negative asks for the
    next page and never touches the posts cache. What arrives is
    appended and the page advances; fewer than 10 posts end the
    pagination, and so does an error object of the gateway, which
    arrives as an empty page. A thrown failure changes nothing. While a
    page is loading, or when no more pages are expected, nothing is
    requested. *)
Theorem load_more_appends (uid : option string) (now now' : Z)
    (reply : Reply (list socialService.PostRow.t))
    (svc : socialService.State) (v : View) :
  hasMore v = true ->
  (0 <= page v)%Z ->
  let r := socialService.getPosts (page v + 1) 10 false now reply uid now'
             svc in
  load_more_request false v = Some ((page v + 1)%Z, 10%Z)
  /\ fst r = svc
  /\ handleLoadMore false (snd r) v
     = match reply with
       | Data rows =>
           (mkView (posts v ++ map (socialService.toPost uid) rows)
              (page v + 1) (negb (Nat.ltb (length rows) 10)) (isLoading v),
            false)
       | Error _ =>
           (mkView (posts v) (page v + 1) false (isLoading v), false)
       | Thrown _ => (v, false)
       end
  /\ load_more_request true v = None
  /\ (forall e,
        load_more_request false
          (fst (handleLoadMore false
                  (snd (socialService.getPosts (page v + 1) 10 false now
                          (Error e) uid now' svc)) v))
        = None).
Proof.
  intros Hmore Hpage. cbv zeta.
  assert (Hr : forall reply,
             socialService.getPosts (page v + 1) 10 false now reply uid
               now' svc
             = (svc,
                match reply with
                | Data rows => Resolved (map (socialService.toPost uid) rows)
                | Error _ => Resolved []
                | Thrown e => Rejected e
                end)).
  { intros r. unfold socialService.getPosts, socialService.fresh_posts.
    destruct (Z.eqb_spec (page v + 1) 0); [lia|].
    simpl. destruct r; reflexivity. }
  unfold load_more_request. rewrite Hmore. simpl.
  split; [reflexivity|]. rewrite Hr.
  split; [reflexivity|].
  split; [|split; [reflexivity|]].
  - unfold handleLoadMore. rewrite Hmore. simpl.
    destruct reply as [rows|e|e]; simpl.
    + rewrite length_map. destruct (Nat.ltb (length rows) 10); reflexivity.
    + rewrite app_nil_r. reflexivity.
    + reflexivity.
  - intros e. rewrite Hr. unfold handleLoadMore. rewrite Hmore. reflexivity.
Qed.

Lemma load_more_appends_witness :
  handleLoadMore false
    (snd (socialService.getPosts 1 10 false 0 (Error "timeout") None 1
            Sample.unloaded))
    (mkView [Sample.post "p1" 0 false] 0 true false)
  = (mkView [Sample.post "p1" 0 false] 1 false false, false).
Proof.
  pose proof (load_more_appends None 0 1 (Error "timeout") Sample.unloaded
                (mkView [Sample.post "p1" 0 false] 0 true false)) as H.
  cbv zeta in H. destruct H as [_ [_ [H _]]].
  - reflexivity.
  - simpl. lia.
  - exact H.
Defined.

(** [Promise.all] resolves with one value per promise. *)
Lemma promise_all_length {A : Type} (settled : list (Outcome A))
    (values : list A) :
  promise_all settled = Resolved values ->
  length values = length settled.
Proof.
  revert values. induction settled as [|[a|e] rest IH]; simpl; intros vs H.
  - injection H as <-. reflexivity.
  - destruct (promise_all rest) as [l|e]; [|discriminate].
    injection H as <-. simpl. f_equal. apply IH. reflexivity.
  - discriminate.
Qed.

(** [Promise.all] rejects as soon as one promise does. *)
Lemma promise_all_rejected {A : Type} (settled : list (Outcome A)) :
  existsb is_rejected settled = true ->
  is_rejected (promise_all settled) = true.
Proof.
  induction settled as [|[a|e] rest IH]; simpl; intros H.
  - discriminate.
  - specialize (IH H). destruct (promise_all rest); [discriminate|].
    reflexivity.
  - reflexivity.
Qed.

(** [Promise.all] resolves when every promise does. *)
Lemma promise_all_resolves {A : Type} (settled : list (Outcome A)) :
  existsb is_rejected settled = false ->
  exists values, promise_all settled = Resolved values.
Proof.
  induction settled as [|[a|e] rest IH]; simpl; intros H.
  - eexists. reflexivity.
  - destruct (IH H) as [vs ->]. eexists. reflexivity.
  - discriminate.
Qed.

(** X17. The composer never holds more than 3 images: selecting files
    and removing an image keep the bound. Without a failed upload and
    within the bound every selected file adds one url; if one upload of
    the batch fails, no image of the batch is added. *)
Theorem images_stay_capped {F : Type}
    (upload : F -> string -> Outcome string) (files : list F)
    (authUser : option string) (url : string) (images : list string) :
  (length images <= 3)%nat ->
  (length (handleImageSelect upload files authUser images) <= 3)%nat
  /\ (length (removeImage url images) <= 3)%nat
  /\ (forall uid,
        authUser = Some uid ->
        existsb is_rejected (map (fun file => upload file uid) files)
        = true ->
        handleImageSelect upload files authUser images = images)
  /\ (forall uid,
        authUser = Some uid ->
        existsb is_rejected (map (fun file => upload file uid) files)
        = false ->
        (length images + length files <= 3)%nat ->
        length (handleImageSelect upload files authUser images)
        = (length images + length files)%nat).
Proof.
  intros Hcap. unfold handleImageSelect.
  split; [|split; [|split]].
  - destruct files as [|f fs]; [exact Hcap|].
    destruct (Nat.ltb_spec 3 (length images + length (f :: fs)));
      [exact Hcap|].
    destruct authUser as [uid|]; [|exact Hcap].
    destruct (promise_all _) as [urls|e] eqn:E; [|exact Hcap].
    apply promise_all_length in E. rewrite length_map in E.
    rewrite length_app. lia.
  - unfold removeImage.
    pose proof (List.filter_length_le
                  (fun i => negb (String.eqb i url)) images). lia.
  - intros uid -> Hrej. destruct files as [|f fs]; [reflexivity|].
    destruct (Nat.ltb 3 _); [reflexivity|].
    apply promise_all_rejected in Hrej.
    destruct (promise_all _); [discriminate|reflexivity].
  - intros uid -> Hok Hroom. destruct files as [|f fs]; [simpl; lia|].
    destruct (Nat.ltb_spec 3 (length images + length (f :: fs))); [lia|].
    destruct (promise_all_resolves _ Hok) as [urls E]. rewrite E.
    apply promise_all_length in E. rewrite length_map in E.
    rewrite length_app. lia.
Qed.

(** Two files selected next to two images are refused. *)
Lemma images_stay_capped_witness :
  (length (handleImageSelect (fun (f : string) (_ : string) => Resolved f)
             ["c.png"; "d.png"] (Some "u1") ["a.png"; "b.png"]) <= 3)%nat.
Proof.
  pose proof (images_stay_capped (fun (f : string) (_ : string) => Resolved f)
                ["c.png"; "d.png"] (Some "u1") "a.png" ["a.png"; "b.png"])
    as H.
  destruct H as [H _]; [simpl; lia|exact H].
Defined.

End FeedLoading.

Section Selections.

Import SquareView.

Lemma toggleFriendSelect_flips (id : string) (picked : gset string) :
  id ∈ toggleFriendSelect id picked <-> id ∉ picked.
Proof.
  unfold toggleFriendSelect.
  destruct (decide (id ∈ picked)) as [H|H].
  - rewrite (bool_decide_eq_true_2 _ H).
    rewrite elem_of_difference, elem_of_singleton. tauto.
  - rewrite (bool_decide_eq_false_2 _ H).
    rewrite elem_of_union, elem_of_singleton. tauto.
Qed.

Lemma toggleFriendSelect_twice (id : string) (picked : gset string) :
  toggleFriendSelect id (toggleFriendSelect id picked) = picked.
Proof.
  unfold toggleFriendSelect.
  destruct (decide (id ∈ picked)) as [H|H].
  - rewrite (bool_decide_eq_true_2 _ H).
    rewrite bool_decide_eq_false_2
      by (rewrite elem_of_difference, elem_of_singleton; tauto).
    apply leibniz_equiv. intros x.
    rewrite elem_of_union, elem_of_difference, elem_of_singleton.
    destruct (decide (x = id)) as [->|Hx]; tauto.
  - rewrite (bool_decide_eq_false_2 _ H).
    rewrite bool_decide_eq_true_2
      by (rewrite elem_of_union, elem_of_singleton; tauto).
    apply leibniz_equiv. intros x.
    rewrite elem_of_difference, elem_of_union, elem_of_singleton.
    destruct (decide (x = id)) as [->|Hx]; tauto.
Qed.

(** X18. Toggling a publish tag flips whether it is selected and leaves
    the selection of every other tag alone; a selection without
    repetitions stays without repetitions, and toggling twice a tag that
    was not selected gives the selection back. Toggling a friend of the
    share dialog twice gives the set of picked friends back. *)
Theorem selection_toggles (tag other : string)
    (selectedPublishTags : list string) (friend : string)
    (picked : gset string) :
  (In tag (toggleTag tag selectedPublishTags)
   <-> ~ In tag selectedPublishTags)
  /\ (other <> tag ->
      (In other (toggleTag tag selectedPublishTags)
       <-> In other selectedPublishTags))
  /\ (List.NoDup selectedPublishTags ->
      List.NoDup (toggleTag tag selectedPublishTags))
  /\ (~ In tag selectedPublishTags ->
      toggleTag tag (toggleTag tag selectedPublishTags)
      = selectedPublishTags)
  /\ (friend ∈ toggleFriendSelect friend picked <-> friend ∉ picked)
  /\ toggleFriendSelect friend (toggleFriendSelect friend picked) = picked.
Proof.
  assert (Hin : existsb (String.eqb tag) selectedPublishTags = true
                <-> In tag selectedPublishTags).
  { rewrite existsb_exists. split.
    - intros [x [Hx E]]. apply String.eqb_eq in E. subst x. exact Hx.
    - intros H. exists tag. split; [exact H|apply String.eqb_refl]. }
  unfold toggleTag.
  split; [|split; [|split; [|split; [|split]]]].
  - destruct (existsb (String.eqb tag) selectedPublishTags) eqn:E.
    + split.
      * intros H. apply filter_In in H. destruct H as [_ H].
        rewrite String.eqb_refl in H. discriminate.
      * intros H. exfalso. apply H, Hin. reflexivity.
    + split.
      * intros _ H. apply Hin in H. congruence.
      * intros _. apply in_or_app. right. left. reflexivity.
  - intros Hne.
    destruct (existsb (String.eqb tag) selectedPublishTags).
    + rewrite filter_In. split; [tauto|].
      intros H. split; [exact H|].
      apply negb_true_iff, String.eqb_neq. exact Hne.
    + rewrite in_app_iff. simpl. split; [|tauto].
      intros [H|[H|[]]]; [exact H|congruence].
  - intros Hnd.
    destruct (existsb (String.eqb tag) selectedPublishTags) eqn:E.
    + apply List.NoDup_filter. exact Hnd.
    + apply List.NoDup_app;
        [exact Hnd|repeat constructor; simpl; tauto|].
      intros x Hx [<-|[]]. apply Hin in Hx. congruence.
  - intros Hnot.
    destruct (existsb (String.eqb tag) selectedPublishTags) eqn:E;
      [exfalso; apply Hnot, Hin; reflexivity|].
    rewrite existsb_app. simpl. rewrite String.eqb_refl, orb_true_r.
    rewrite List.filter_app. simpl. rewrite String.eqb_refl. simpl.
    rewrite app_nil_r.
    clear E Hin. induction selectedPublishTags as [|t l IH]; simpl;
      [reflexivity|].
    destruct (String.eqb_spec t tag) as [->|Hne]; simpl.
    + exfalso. apply Hnot. left. reflexivity.
    + f_equal. apply IH. intros H. apply Hnot. right. exact H.
  - apply toggleFriendSelect_flips.
  - apply toggleFriendSelect_twice.
Qed.

Lemma selection_toggles_witness :
  toggleTag "math" (toggleTag "math" ["art"]) = ["art"].
Proof.
  pose proof (selection_toggles "math" "art" ["art"] "f1" ∅) as H.
  destruct H as [_ [_ [_ [H _]]]].
  apply H. intros [E|[]]. discriminate.
Defined.

End Selections.

(** ** Further properties of the friend service and its view *)

Section Friends.

Import friendService.




End Friends.

Section FriendsCache.

Import friendService.

(** X20. After a fetch of the friends of a user was stored at [t1], an
    unforced read less than [CACHE_TTL] later is answered from the
    cache whatever the gateway would say. [invalidateCache] removes the
    entry of that user only, and the next unforced read goes to the
    gateway again. *)
Theorem friends_cache_round_trip (localDay : string -> string)
    (userId other : string) (c0 : Connection.t)
    (cs : list Connection.t) (ps : list ProfileRow.t)
    (reminders : list string) (notes : list NoteStamp.t)
    (todayStr todayStr' : string) (t0 t1 now now' : Z)
    (connections : Reply (list Connection.t))
    (profiles : Reply (list ProfileRow.t))
    (reminders' : Reply (list string))
    (notes' : Reply (list NoteStamp.t)) (e : string) (st : State) :
  (now - t1 < CACHE_TTL)%Z ->
  other <> userId ->
  let friends := map (toFriend localDay reminders notes todayStr) ps in
  let st1 :=
    fst (getFriends localDay userId true t0 (Data (c0 :: cs)) (Data ps)
           (Data reminders) (Data notes) todayStr t1 st) in
  getFriends localDay userId false now connections profiles reminders'
    notes' todayStr' now' st1
  = (st1, Resolved friends)
  /\ getCacheInfo userId (invalidateCache userId st1) = None
  /\ getCacheInfo other (invalidateCache userId st1) = getCacheInfo other st
  /\ getFriends localDay userId false now (Error e) profiles reminders'
       notes' todayStr' now' (invalidateCache userId st1)
     = (invalidateCache userId st1, Resolved []).
Proof.
  intros Hage Hne. cbv zeta. unfold getFriends at 2 3 5 6. simpl.
  unfold getCacheInfo, invalidateCache. simpl.
  split; [|split; [|split]].
  - unfold getFriends, fresh_friends. simpl. rewrite lookup_insert_eq. simpl.
    destruct (Z.ltb_spec (now - t1) CACHE_TTL); [reflexivity|lia].
  - apply lookup_delete_eq.
  - rewrite lookup_delete_ne by congruence.
    rewrite lookup_insert_ne by congruence. reflexivity.
  - unfold getFriends, fresh_friends. simpl. rewrite lookup_delete_eq.
    reflexivity.
Qed.

Lemma friends_cache_round_trip_witness :
  snd (getFriends (fun s => s) "u1" false 61000 (Thrown "offline")
         (Data []) (Data []) (Data []) "2024-5-2" 61001
         (fst (getFriends (fun s => s) "u1" true 0
                 (Data [Connection.mk "u1" "u2"])
                 (Data [ProfileRow.mk "u2" "10000002" "Wei" "" "" None None
                          0])
                 (Data []) (Data []) "2024-5-1" 1000 (mkState ∅))))
  = Resolved
      [Friend.mk "u2" "Wei" "" "" 0 false [] Recently false].
Proof.
  pose proof (friends_cache_round_trip (fun s => s) "u1" "u3"
                (Connection.mk "u1" "u2") []
                [ProfileRow.mk "u2" "10000002" "Wei" "" "" None None 0]
                [] [] "2024-5-1" "2024-5-2" 0 1000 61000 61001
                (Thrown "offline") (Data []) (Data []) (Data []) "e"
                (mkState ∅)) as H.
  cbv zeta in H. destruct H as [H _].
  - unfold CACHE_TTL. lia.
  - discriminate.
  - rewrite H. reflexivity.
Defined.

End FriendsCache.

Section FriendsPage.

Import friendService FriendsActions.

(** X21. Removing a friend: when the service resolves, the cached
    friend lists of both users are dropped, the cache of any third user
    stays, the friend leaves the list shown and every other friend stays
    in place, and the next [loadFriends] of the user shows the spinner
    and waits for a fetch. A failed removal, or no friend chosen, leaves
    the list and the cache as they were. *)
Theorem removed_friend_leaves_list (userId other : string)
    (f : Friend.t) (friends : list Friend.t) (svc : State)
    (now : Z) (v : FriendsView.View) (e : string) :
  other <> userId ->
  other <> Friend.id f ->
  let r := deleteFriend userId (Some f) (Data tt) friends svc in
  getCacheInfo userId (snd r) = None
  /\ getCacheInfo (Friend.id f) (snd r) = None
  /\ getCacheInfo other (snd r) = getCacheInfo other svc
  /\ Forall (fun g => Friend.id g <> Friend.id f) (fst r)
  /\ (forall g, In g friends -> Friend.id g <> Friend.id f -> In g (fst r))
  /\ FriendsView.loadFriends now userId (snd r) v
     = (FriendsView.mkView (FriendsView.friends v) true,
        [FriendsView.Awaited userId true])
  /\ deleteFriend userId (Some f) (Error e) friends svc = (friends, svc)
  /\ deleteFriend userId (Some f) (Thrown e) friends svc = (friends, svc)
  /\ deleteFriend userId None (Data tt) friends svc = (friends, svc).
Proof.
  intros Hu Hf. cbv zeta. unfold deleteFriend, removeFriendship. simpl.
  assert (Hmine : getCacheInfo userId
                    (invalidateCache (Friend.id f)
                       (invalidateCache userId svc)) = None).
  { unfold getCacheInfo, invalidateCache. simpl.
    destruct (decide (Friend.id f = userId)) as [->|Hd].
    - apply lookup_delete_eq.
    - rewrite lookup_delete_ne by congruence. apply lookup_delete_eq. }
  split; [exact Hmine|].
  split; [unfold getCacheInfo, invalidateCache; simpl;
          apply lookup_delete_eq|].
  split.
  { unfold getCacheInfo, invalidateCache. simpl.
    rewrite !lookup_delete_ne by congruence. reflexivity. }
  split.
  { apply List.Forall_forall. intros g Hg. apply filter_In in Hg.
    destruct Hg as [_ Hg]. apply negb_true_iff, String.eqb_neq in Hg.
    exact Hg. }
  split.
  { intros g Hg Hne. apply filter_In. split; [exact Hg|].
    apply negb_true_iff, String.eqb_neq. exact Hne. }
  split; [|repeat split].
  unfold FriendsView.loadFriends. rewrite Hmine. reflexivity.
Qed.

Lemma removed_friend_leaves_list_witness :
  In (Sample.friend "u3")
    (fst (deleteFriend "u1" (Some (Sample.friend "u2")) (Data tt)
            [Sample.friend "u2"; Sample.friend "u3"] (mkState ∅))).
Proof.
  pose proof (removed_friend_leaves_list "u1" "u9" (Sample.friend "u2")
                [Sample.friend "u2"; Sample.friend "u3"] (mkState ∅) 0
                (FriendsView.mkView [] false) "e") as H.
  cbv zeta in H. destruct H as [_ [_ [_ [_ [H _]]]]].
  - discriminate.
  - discriminate.
  - apply H; [right; left; reflexivity|discriminate].
Defined.

(** X22. Reminding a friend: when the service resolves, with a new
    reminder or with the notice that one went out within the last day,
    the friend is marked as reminded in the list and the cached friend
    list of the user is dropped; a second click on the friend as now
    shown does nothing and sends nothing; a rejection leaves the list
    and the cache as they were. *)
Theorem reminder_marks_friend (userId : string) (f : Friend.t)
    (recent recent' : Reply (list string)) (reply reply' : Reply unit)
    (friends : list Friend.t) (svc : State) :
  Friend.isReminded f = false ->
  let r := handleRemind userId f recent reply friends svc in
  match notificationService.sendStudyReminder userId (Friend.id f) recent
          reply with
  | Resolved _ =>
      getCacheInfo userId (snd r) = None
      /\ map Friend.id (fst r) = map Friend.id friends
      /\ Forall (fun g => Friend.id g = Friend.id f ->
                   Friend.isReminded g = true) (fst r)
      /\ Forall (fun g => Friend.isReminded g = true ->
                   handleRemind userId g recent' reply' (fst r) (snd r)
                   = r) (fst r)
  | Rejected _ => r = (friends, svc)
  end.
Proof.
  intros Hnot. cbv zeta. unfold handleRemind. rewrite Hnot.
  destruct (notificationService.sendStudyReminder userId (Friend.id f)
              recent reply) as [res|e]; [|reflexivity].
  simpl. split; [apply lookup_delete_eq|].
  split.
  { rewrite map_map. apply map_ext. intros g.
    destruct (String.eqb (Friend.id g) (Friend.id f)); reflexivity. }
  split.
  { apply List.Forall_forall. intros g Hg. apply in_map_iff in Hg.
    destruct Hg as [g0 [Hg0 _]].
    destruct (String.eqb (Friend.id g0) (Friend.id f)) eqn:E.
    - subst g. intros _. reflexivity.
    - subst g. intros Hid. apply String.eqb_neq in E. contradiction. }
  apply List.Forall_forall. intros g _ Hr. rewrite Hr. reflexivity.
Qed.

Lemma reminder_marks_friend_witness :
  map Friend.isReminded
    (fst (handleRemind "u1"
            (Friend.mk "u2" "Wei" "" "" 0 false [] Recently false)
            (Data ["r1"]) (Data tt)
            [Friend.mk "u2" "Wei" "" "" 0 false [] Recently false]
            (mkState ∅)))
  = [true]
  /\ getCacheInfo "u1"
       (snd (handleRemind "u1"
               (Friend.mk "u2" "Wei" "" "" 0 false [] Recently false)
               (Data ["r1"]) (Data tt)
               [Friend.mk "u2" "Wei" "" "" 0 false [] Recently false]
               (mkState ∅)))
     = None.
Proof.
  split; [reflexivity|].
  pose proof (reminder_marks_friend "u1"
                (Friend.mk "u2" "Wei" "" "" 0 false [] Recently false)
                (Data ["r1"]) (Data []) (Data tt) (Data tt)
                [Friend.mk "u2" "Wei" "" "" 0 false [] Recently false]
                (mkState ∅) eq_refl) as H.
  cbv zeta in H. simpl in H. destruct H as [H _]. exact H.
Defined.

End FriendsPage.

Section FriendSearch.

Import friendService FriendsView FriendsActions.

(** X23. Typing two queries before the debounce timer fires sends one
    request, for the second query, and raises the sequence number once;
    the timer does not fire again without a new query. A blank query
    typed after a pending one cancels it: the results are emptied and no
    request leaves. *)
Theorem debounce_sends_last_query (q1 q2 q : string) (s : Search) :
  blank q1 = false ->
  blank q2 = false ->
  blank q = true ->
  let typed := handleSearch q2 (handleSearch q1 s) in
  timer_fires typed
  = (mkSearch q2 (searchResults s) true (searchSeq s + 1) None,
     Some ((searchSeq s + 1)%Z, q2))
  /\ timer_fires (fst (timer_fires typed)) = (fst (timer_fires typed), None)
  /\ timer_fires (handleSearch q (handleSearch q1 s))
     = (mkSearch q [] false (searchSeq s) None, None).
Proof.
  intros H1 H2 Hq. cbv zeta. unfold handleSearch.
  rewrite H1, H2, Hq. repeat split.
Qed.

Lemma debounce_sends_last_query_witness :
  snd (timer_fires
         (handleSearch "lin" (handleSearch "li" (mkSearch "" [] false 0 None))))
  = Some (1%Z, "lin").
Proof.
  pose proof (debounce_sends_last_query "li" "lin" " "
                (mkSearch "" [] false 0 None) eq_refl eq_refl eq_refl) as H.
  cbv zeta in H. destruct H as [H _]. rewrite H. reflexivity.
Defined.

(** The first friendship row that involves a profile, once a row sent
    by [uid] to [target] has joined the rows, [target] having had no
    row before. *)
Lemma relation_with_sent (fid uid target pid : string)
    (before after : list FriendshipRow.t) :
  pid <> uid ->
  relation_with (before ++ after) target = None ->
  relation_with
    (before ++ FriendshipRow.mk fid uid target pending :: after) pid
  = if String.eqb pid target
    then Some (FriendshipRow.mk fid uid target pending)
    else relation_with (before ++ after) pid.
Proof.
  intros Hne. unfold relation_with.
  induction before as [|f fs IH]; simpl; intros Hnone.
  - destruct (String.eqb_spec uid pid) as [E|_]; [congruence|].
    rewrite (String.eqb_sym target pid).
    destruct (String.eqb pid target); reflexivity.
  - destruct (String.eqb (FriendshipRow.user_id f) target
              || String.eqb (FriendshipRow.friend_id f) target) eqn:Et;
      [discriminate|].
    rewrite (IH Hnone).
    destruct (String.eqb_spec pid target) as [->|_].
    + rewrite Et. reflexivity.
    + reflexivity.
Qed.

(** X24. After a friend request went out to a user without an earlier
    friendship row, the hit shown for that user is what a new search
    would show once the pending row sent by the searching user exists,
    wherever the gateway lists that row: the optimistic update of
    [handleAddSubmit] agrees with [searchUsers]. The profiles are those
    of other users, as the search excludes the user. A failed request,
    or no session, leaves the hits as they were. *)
Theorem sent_request_matches_search (query uid target fid e : string)
    (ps : list ProfileRow.t) (before after : list FriendshipRow.t)
    (prev : list SearchResult.t) :
  blank query = false ->
  Forall (fun p => ProfileRow.id p <> uid) ps ->
  relation_with (before ++ after) target = None ->
  (Resolved
     (handleAddSubmit target (Some uid)
        (sendFriendRequest uid target (Data tt))
        (map (toSearchResult uid (before ++ after)) ps))
   = searchUsers query uid (Data ps)
       (Data (before ++ FriendshipRow.mk fid uid target pending :: after)))
  /\ handleAddSubmit target (Some uid)
       (sendFriendRequest uid target (Error e)) prev = prev
  /\ handleAddSubmit target (Some uid)
       (sendFriendRequest uid target (Thrown e)) prev = prev
  /\ handleAddSubmit target None (Resolved tt) prev = prev.
Proof.
  intros Hq Hps Hnone. unfold searchUsers. rewrite Hq.
  split; [|repeat split].
  cbn [handleAddSubmit sendFriendRequest data_or_empty].
  f_equal. rewrite map_map. apply map_ext_in. intros p Hin.
  rewrite List.Forall_forall in Hps. specialize (Hps p Hin).
  unfold toSearchResult.
  rewrite (relation_with_sent fid uid target (ProfileRow.id p) before after
             Hps Hnone).
  cbn [SearchResult.id].
  destruct (String.eqb (ProfileRow.id p) target) eqn:E.
  - cbn. rewrite String.eqb_refl. reflexivity.
  - reflexivity.
Qed.

Lemma sent_request_matches_search_witness :
  Resolved
    (handleAddSubmit "u2" (Some "u1")
       (sendFriendRequest "u1" "u2" (Data tt))
       (map (toSearchResult "u1" [])
          [ProfileRow.mk "u2" "10000002" "Wei" "" "" None None 0]))
  = searchUsers "wei" "u1"
      (Data [ProfileRow.mk "u2" "10000002" "Wei" "" "" None None 0])
      (Data [FriendshipRow.mk "f1" "u1" "u2" pending]).
Proof.
  pose proof (sent_request_matches_search "wei" "u1" "u2" "f1" "e"
                [ProfileRow.mk "u2" "10000002" "Wei" "" "" None None 0]
                [] [] []) as H.
  destruct H as [H _].
  - reflexivity.
  - repeat constructor. discriminate.
  - reflexivity.
  - exact H.
Defined.

End FriendSearch.

(** ** Further properties of the notifications *)

Section Notifications.

Import notificationService.

(** X25. Opening the notification panel: once the service confirmed,
    every notification is marked as read and is otherwise the
    notification it was, in the same order; nothing is unread
    afterwards. If the service fails, or if nothing was unread, the list
    stays exactly as it is. The button of the view that marks all as
    read has the same effect on success and none on failure. Deleting a
    notification keeps, in order, exactly the entries with another id,
    and keeps the whole list on failure. *)
Theorem opening_panel_clears_unread (marked : Outcome unit) (e i : string)
    (notifications : list AppNotification.t) :
  let as_read (n : AppNotification.t) :=
    AppNotification.mk (AppNotification.id n) (AppNotification.type n)
      (AppNotification.sender n) (AppNotification.content n)
      (AppNotification.targetContent n) (AppNotification.relatedId n)
      (AppNotification.time n) (AppNotification.createdAt n) true
      (AppNotification.status n) in
  MainLayout.handleOpenNotifications (Resolved tt) notifications
  = map as_read notifications
  /\ MainLayout.hasUnread
       (MainLayout.handleOpenNotifications (Resolved tt) notifications)
     = false
  /\ MainLayout.handleOpenNotifications (Rejected e) notifications
     = notifications
  /\ (MainLayout.hasUnread notifications = false ->
      MainLayout.handleOpenNotifications marked notifications
      = notifications)
  /\ NotificationView.markAllRead (Resolved tt) notifications
     = map as_read notifications
  /\ NotificationView.markAllRead (Rejected e) notifications = notifications
  /\ NotificationView.deleteNotification i (Resolved tt) notifications
     = List.filter
         (fun n => negb (String.eqb (AppNotification.id n) i))
         notifications
  /\ Forall (fun n => AppNotification.id n <> i)
       (NotificationView.deleteNotification i (Resolved tt) notifications)
  /\ NotificationView.deleteNotification i (Rejected e) notifications
     = notifications.
Proof.
  cbv zeta.
  assert (Hall : MainLayout.hasUnread (map AppNotification.read notifications)
                 = false).
  { unfold MainLayout.hasUnread.
    induction notifications as [|n l IH]; simpl; [reflexivity|exact IH]. }
  assert (Hsame : MainLayout.hasUnread notifications = false ->
                  map AppNotification.read notifications = notifications).
  { clear Hall. unfold MainLayout.hasUnread.
    induction notifications as [|n l IH]; simpl; [reflexivity|].
    intros H. apply orb_false_iff in H as [Hn Hl].
    apply negb_false_iff in Hn. f_equal; [|apply IH; exact Hl].
    destruct n. simpl in Hn. subst. reflexivity. }
  unfold MainLayout.handleOpenNotifications, NotificationView.markAllRead,
    NotificationView.deleteNotification.
  split.
  { destruct (MainLayout.hasUnread notifications) eqn:E; [reflexivity|].
    symmetry. apply (Hsame eq_refl). }
  split.
  { destruct (MainLayout.hasUnread notifications) eqn:E;
      [exact Hall|exact E]. }
  split.
  { destruct (MainLayout.hasUnread notifications); reflexivity. }
  split.
  { intros Hno. rewrite Hno. reflexivity. }
  split; [reflexivity|].
  split; [reflexivity|].
  split; [reflexivity|].
  split; [|reflexivity].
  apply List.Forall_forall. intros n Hn. apply filter_In in Hn.
  destruct Hn as [_ Hn]. apply negb_true_iff, String.eqb_neq in Hn.
  exact Hn.
Qed.

(** A panel whose only notification is read already. *)
Lemma opening_panel_clears_unread_witness :
  MainLayout.handleOpenNotifications (Resolved tt)
    [AppNotification.mk "n1" FRIEND_ACCEPT (Sender.mk None "Lin" "") None
       None None JustNow "2024-05-01T08:00:00+00:00" true None]
  = [AppNotification.mk "n1" FRIEND_ACCEPT (Sender.mk None "Lin" "") None
       None None JustNow "2024-05-01T08:00:00+00:00" true None].
Proof.
  pose proof (opening_panel_clears_unread (Resolved tt) "e" "n2"
                [AppNotification.mk "n1" FRIEND_ACCEPT
                   (Sender.mk None "Lin" "") None None None JustNow
                   "2024-05-01T08:00:00+00:00" true None]) as H.
  cbv zeta in H. destruct H as [_ [_ [_ [H _]]]].
  apply H. reflexivity.
Defined.

(** X26. Answering a friend request from its notification. The
    notification of a friend request that names its friendship row is
    actionable. When exactly that row is addressed to the user, the
    gateway sets the answer on it and leaves every other friendship row
    as it is, and the notification is shown as read with the answer
    while every other notification stays as it is. If the notification
    was unread and marking it as read fails, the list is left as it was
    although the friendship row has been answered. If no row of the
    table is addressed to the user, the table and the list stay as they
    are. *)
Theorem answered_request_round_trip (row : NotificationRow.t)
    (userId fid e : string) (action : friendService.Status)
    (table other : list friendService.FriendshipRow.t)
    (r : friendService.FriendshipRow.t)
    (prev : list AppNotification.t) :
  NotificationRow.type row = FRIEND_REQUEST ->
  NotificationRow.related_id row = None ->
  NotificationRow.friendship_id row = Some fid ->
  fid <> EmptyString ->
  List.filter (friendService.addressed userId fid) table = [r] ->
  let noti := toNotification row in
  let answer :=
    friendService.respondToFriendRequest Gateway.Up table userId fid action in
  let refused :=
    friendService.respondToFriendRequest Gateway.Up other userId fid action in
  AppNotification.relatedId noti = Some fid
  /\ Forall2
       (fun x y =>
          y = if friendService.addressed userId fid x
              then friendService.FriendshipRow.mk
                     (friendService.FriendshipRow.id x)
                     (friendService.FriendshipRow.user_id x)
                     (friendService.FriendshipRow.friend_id x) action
              else x)
       table (fst answer)
  /\ Forall2
       (fun n m =>
          m = if String.eqb (AppNotification.id n) (AppNotification.id noti)
              then AppNotification.mk (AppNotification.id n)
                     (AppNotification.type n) (AppNotification.sender n)
                     (AppNotification.content n)
                     (AppNotification.targetContent n)
                     (AppNotification.relatedId n) (AppNotification.time n)
                     (AppNotification.createdAt n) true (Some action)
              else n)
       prev
       (NotificationView.handleAction noti action (snd answer)
          (Resolved tt) prev)
  /\ (NotificationRow.is_read row = false ->
      NotificationView.handleAction noti action (snd answer) (Rejected e)
        prev = prev)
  /\ (List.filter (friendService.addressed userId fid) other = [] ->
      fst refused = other
      /\ NotificationView.handleAction noti action (snd refused)
           (Resolved tt) prev = prev).
Proof.
  intros Ht Hrel Hfid Hne Hone. cbv zeta.
  assert (Hid : AppNotification.relatedId (toNotification row) = Some fid).
  { unfold toNotification. simpl. rewrite Hrel, Hfid. simpl.
    destruct (String.eqb_spec fid ""); [contradiction|reflexivity]. }
  assert (Hty : AppNotification.type (toNotification row) = FRIEND_REQUEST)
    by exact Ht.
  assert (Hrd : AppNotification.isRead (toNotification row)
                = NotificationRow.is_read row) by reflexivity.
  set (noti := toNotification row) in *. clearbody noti.
  unfold friendService.respondToFriendRequest. rewrite Hone. simpl.
  unfold NotificationView.handleAction. rewrite Hid, Hty. simpl.
  destruct (String.eqb_spec fid ""); [contradiction|]. simpl.
  split; [reflexivity|].
  split.
  { clear Hone. induction table as [|x l IH]; simpl; constructor;
      [reflexivity|exact IH]. }
  split.
  { assert (Hshown :
      Forall2
        (fun n m =>
           m = if String.eqb (AppNotification.id n) (AppNotification.id noti)
               then AppNotification.mk (AppNotification.id n)
                      (AppNotification.type n) (AppNotification.sender n)
                      (AppNotification.content n)
                      (AppNotification.targetContent n)
                      (AppNotification.relatedId n) (AppNotification.time n)
                      (AppNotification.createdAt n) true (Some action)
               else n)
        prev
        (map (fun n =>
                if String.eqb (AppNotification.id n)
                     (AppNotification.id noti)
                then AppNotification.answered n action
                else n) prev)).
    { induction prev as [|x l IH]; simpl; constructor;
        [reflexivity|exact IH]. }
    destruct (AppNotification.isRead noti); exact Hshown. }
  split.
  { intros Hunread. rewrite Hrd, Hunread. reflexivity. }
  intros Hnone. rewrite Hnone. split; reflexivity.
Qed.

Lemma answered_request_round_trip_witness :
  fst (friendService.respondToFriendRequest Gateway.Up
         [friendService.FriendshipRow.mk "f1" "u2" "u1" friendService.pending;
          friendService.FriendshipRow.mk "f2" "u3" "u1" friendService.pending]
         "u1" "f1" friendService.accepted)
  = [friendService.FriendshipRow.mk "f1" "u2" "u1" friendService.accepted;
     friendService.FriendshipRow.mk "f2" "u3" "u1" friendService.pending]
  /\ AppNotification.relatedId
       (toNotification
          (NotificationRow.mk "n1" FRIEND_REQUEST None None None None
             (Some "f1") None "2024-05-01T08:00:00+00:00" false
             (Some friendService.pending)))
     = Some "f1".
Proof.
  split; [reflexivity|].
  pose proof (answered_request_round_trip
                (NotificationRow.mk "n1" FRIEND_REQUEST None None None None
                   (Some "f1") None "2024-05-01T08:00:00+00:00" false
                   (Some friendService.pending))
                "u1" "f1" "e" friendService.accepted
                [friendService.FriendshipRow.mk "f1" "u2" "u1"
                   friendService.pending;
                 friendService.FriendshipRow.mk "f2" "u3" "u1"
                   friendService.pending]
                []
                (friendService.FriendshipRow.mk "f1" "u2" "u1"
                   friendService.pending)
                [] eq_refl eq_refl eq_refl) as H.
  cbv zeta in H. destruct H as [H _].
  - discriminate.
  - reflexivity.
  - exact H.
Defined.

End Notifications.

(** ** Further properties of the notes *)

Section Notes.

Import HomeView.

(** A list without a note of the given id is not changed by the
    removal of that id. *)
Lemma filter_absent_note (i : string) (notes : list Note.t) :
  existsb (fun n => String.eqb (Note.id n) i) notes = false ->
  List.filter (fun n => negb (String.eqb (Note.id n) i)) notes = notes.
Proof.
  induction notes as [|n l IH]; simpl; [reflexivity|].
  destruct (String.eqb (Note.id n) i); simpl; [discriminate|].
  intros H. f_equal. apply IH, H.
Qed.

Lemma replace_absent_note (i : string) (q : Note.t) (notes : list Note.t) :
  existsb (fun n => String.eqb (Note.id n) i) notes = false ->
  map (fun n => if String.eqb (Note.id n) i then q else n) notes = notes.
Proof.
  induction notes as [|n l IH]; simpl; [reflexivity|].
  destruct (String.eqb (Note.id n) i); simpl; [discriminate|].
  intros H. f_equal. apply IH, H.
Qed.

(** X27. Saving a note, step by step. Without a note under edit, with
    a blank title or without a session nothing changes. A note whose id
    is not in the list is put in front as a temporary entry. When
    [createNote] then fails, only the temporary entry is removed, so the
    list is what it was, together with whatever was put in front in the
    meantime; when it resolves, the stored note takes the place of the
    temporary entry. If the stored note was put in front before
    [createNote] resolved, as the notes channel of the app does when its
    INSERT event comes first, the list then holds the id of the stored
    note twice. A note whose id is in the list is replaced at once; when
    [updateNote] fails, the list of the click is put back, whatever
    arrived in the meantime, and when it resolves the list is left as it
    is. *)
Theorem note_save_settles (e stored : Note.t) (authUser : option string)
    (uid err newId : string) (last_edited : option Z) (now : Z)
    (row : noteService.NoteRow.t) (table : list noteService.NoteRow.t)
    (notes arrived : list Note.t) :
  let temp := Note.id e in
  let has (i : string) (l : list Note.t) :=
    existsb (fun n => String.eqb (Note.id n) i) l in
  let unreachable :=
    snd (noteService.createNote (Gateway.Down err) newId last_edited now uid
           (noteService.Draft.mk (Note.title e) (Note.content e)
              (Note.category e) (Note.date e)) table) in
  save_begin None authUser notes = (notes, NoSave)
  /\ save_begin (Some e) None notes = (notes, NoSave)
  /\ (blank (Note.title e) = true ->
      save_begin (Some e) authUser notes = (notes, NoSave))
  /\ (blank (Note.title e) = false -> has temp notes = false ->
      save_begin (Some e) (Some uid) notes = (e :: notes, CreateOf temp)
      /\ (has temp arrived = false ->
          save_settle_create temp unreachable (arrived ++ e :: notes)
          = arrived ++ notes
          /\ save_settle_create temp (Resolved stored)
               (arrived ++ e :: notes)
             = arrived ++ stored :: notes
          /\ (has (Note.id stored) arrived = true ->
              (2 <= length
                      (List.filter
                         (fun n => String.eqb (Note.id n) (Note.id stored))
                         (save_settle_create temp (Resolved stored)
                            (arrived ++ e :: notes))))%nat)))
  /\ (blank (Note.title e) = false -> has temp notes = true ->
      exists shown,
        save_begin (Some e) (Some uid) notes = (shown, UpdateOf notes)
        /\ Forall2
             (fun n m => m = if String.eqb (Note.id n) temp then e else n)
             notes shown
        /\ (forall current,
              save_settle_update notes
                (noteService.updateNote temp (Error err)) current = notes
              /\ save_settle_update notes
                   (noteService.updateNote temp (Thrown err)) current
                 = notes
              /\ save_settle_update notes
                   (noteService.updateNote temp (Data row)) current
                 = current)).
Proof.
  cbv zeta. unfold save_begin.
  split; [reflexivity|].
  split; [destruct (blank (Note.title e)); reflexivity|].
  split; [intros ->; reflexivity|].
  split.
  - intros Hb Hnew. rewrite Hb, Hnew. split; [reflexivity|].
    intros Harr.
    assert (Hcut : List.filter
                     (fun n => negb (String.eqb (Note.id n) (Note.id e)))
                     (arrived ++ e :: notes) = arrived ++ notes).
    { rewrite List.filter_app. simpl. rewrite String.eqb_refl. simpl.
      rewrite !filter_absent_note by assumption. reflexivity. }
    assert (Hput : map (fun n => if String.eqb (Note.id n) (Note.id e)
                                 then stored else n)
                     (arrived ++ e :: notes) = arrived ++ stored :: notes).
    { rewrite map_app. simpl. rewrite String.eqb_refl.
      rewrite !replace_absent_note by assumption. reflexivity. }
    split; [|split].
    + unfold noteService.createNote.
      destruct (noteService.created_at_text _ now); exact Hcut.
    + exact Hput.
    + intros Hdup. unfold save_settle_create. rewrite Hput.
      rewrite List.filter_app, length_app. simpl.
      rewrite String.eqb_refl. simpl.
      apply existsb_exists in Hdup. destruct Hdup as [n [Hin Hn]].
      assert (In n (List.filter
                      (fun n => String.eqb (Note.id n) (Note.id stored))
                      arrived))
        by (apply filter_In; split; assumption).
      destruct (List.filter _ arrived); [contradiction|]. simpl. lia.
  - intros Hb Hold. rewrite Hb, Hold. eexists. split; [reflexivity|].
    split; [|intros current; repeat split].
    clear Hold. induction notes as [|n l IH]; simpl; constructor;
      [reflexivity|exact IH].
Qed.

(** The stored note is in front of the list already when the service
    answers: its id is in the list twice. *)
Lemma note_save_settles_witness :
  save_settle_create "1714521600000"
    (Resolved (Note.mk "n1" "Sets" "notes" "math" "2024-05-01" 0))
    ([Note.mk "n1" "Sets" "notes" "math" "2024-05-01" 0]
     ++ Note.mk "1714521600000" "Sets" "notes" "math" "2024-05-01" 0
        :: [Note.mk "n0" "Maps" "" "math" "2024-04-30" 0])
  = [Note.mk "n1" "Sets" "notes" "math" "2024-05-01" 0]
    ++ Note.mk "n1" "Sets" "notes" "math" "2024-05-01" 0
       :: [Note.mk "n0" "Maps" "" "math" "2024-04-30" 0].
Proof.
  pose proof (note_save_settles
                (Note.mk "1714521600000" "Sets" "notes" "math" "2024-05-01"
                   0)
                (Note.mk "n1" "Sets" "notes" "math" "2024-05-01" 0)
                (Some "u1") "u1" "offline" "n1" None 0
                (noteService.NoteRow.mk "n0" "u1" "Maps" "" "math" 0 None)
                []
                [Note.mk "n0" "Maps" "" "math" "2024-04-30" 0]
                [Note.mk "n1" "Sets" "notes" "math" "2024-05-01" 0]) as H.
  cbv zeta in H. destruct H as [_ [_ [_ [H _]]]].
  destruct (H eq_refl eq_refl) as [_ Hc].
  destruct (Hc eq_refl) as [_ [Hput _]]. exact Hput.
Defined.

End Notes.

Section NoteDates.

Import JsDate DateChecks.
Local Open Scope Z_scope.

(** No ISO date holds the letter that separates date and time. *)
Lemma iso_date_lacks_T_any (y m d : Z) : lacks "T" (iso_date y m d) = true.
Proof.
  unfold iso_date, iso_year.
  destruct ((0 <=? y) && (y <=? 9999)); [|destruct (y <? 0)];
    cbv [pad6 pad4 pad3 pad2 String.append lacks];
    rewrite !digit_not_T by (Z.to_euclidean_division_equations; lia);
    reflexivity.
Qed.

(** X28. The [date] of a note is the calendar day of its creation in
    UTC: it is the ISO date of the day number [t / msPerDay], so two
    instants of the same UTC day give the same date, whatever the local
    day of the writer was. *)
Theorem note_date_is_utc_day (t t' y m d : Z) :
  civil_from_days (t / msPerDay) = (y, m, d) ->
  noteService.date_of t = iso_date y m d
  /\ (t' / msPerDay = t / msPerDay ->
      noteService.date_of t' = noteService.date_of t).
Proof.
  intros Hc.
  assert (Hd : forall u, civil_from_days (u / msPerDay) = (y, m, d) ->
                 noteService.date_of u = iso_date y m d).
  { intros u Hu. unfold noteService.date_of, toISOString.
    cbv zeta. rewrite Hu.
    exact (split_head_app "T" (iso_date y m d) _
             (iso_date_lacks_T_any y m d)). }
  split; [apply Hd, Hc|].
  intros Hsame. rewrite (Hd t Hc). apply Hd. rewrite Hsame. exact Hc.
Qed.

(** Half past eleven in the evening, UTC, on 1 May 2024: already
    2 May in every zone east of UTC+0:30. *)
Lemma note_date_is_utc_day_witness :
  noteService.date_of 1714606200000 = "2024-05-01".
Proof.
  pose proof (note_date_is_utc_day 1714606200000 1714521600000 2024 5 1)
    as H.
  destruct H as [H _]; [vm_compute; reflexivity|].
  rewrite H. vm_compute. reflexivity.
Defined.

End NoteDates.

(** ** Properties of the category selection *)

Section Categories.

Import CategorySelector.

Lemma size_add_le (x : string) (X : gset string) :
  (size (X ∪ {[ x ]}) <= size X + 1)%nat.
Proof.
  rewrite size_union_alt.
  assert (size ({[ x ]} ∖ X : gset string) <= size ({[ x ]} : gset string))%nat
    by (apply subseteq_size, subseteq_difference_l; reflexivity).
  rewrite size_singleton in H. lia.
Qed.

Lemma size_remove_le (x : string) (X : gset string) :
  (size (X ∖ {[ x ]}) <= size X)%nat.
Proof. apply subseteq_size, subseteq_difference_l. reflexivity. Qed.

Lemma toggleCategory_capped (name : string) (st : State) :
  (size (selected st) <= 3)%nat ->
  (size (selected (toggleCategory name st)) <= 3)%nat.
Proof.
  intros Hcap. unfold toggleCategory.
  destruct (bool_decide (name ∈ selected st)).
  - simpl. pose proof (size_remove_le name (selected st)). lia.
  - destruct (Nat.leb_spec 3 (size (selected st))); simpl; [exact Hcap|].
    pose proof (size_add_le name (selected st)). lia.
Qed.

(** X29. At most 3 categories are ever selected: [toggleCategory] and
    [addCustomTag] keep the bound. A click on a selected name deselects
    it; a click on another name selects it while fewer than 3 are
    selected, and with 3 selected only raises the warning. The custom
    field does nothing when blank; with 3 selected it only raises the
    warning and keeps the text; with fewer than 3 selected a new name is
    added to the categories and selected, while the name of a category
    that exists and is selected is deselected. *)
Theorem category_selection_capped (name : string) (now : Z) (st : State) :
  (size (selected st) <= 3)%nat ->
  let typed := trim (customTag st) in
  let known :=
    existsb (fun c => String.eqb (CategorySelector.name c) typed)
      (categories st) in
  (size (selected (toggleCategory name st)) <= 3)%nat
  /\ (size (selected (addCustomTag now st)) <= 3)%nat
  /\ (name ∈ selected st ->
      toggleCategory name st
      = mkState (categories st) (selected st ∖ {[ name ]}) (customTag st)
          (showLimitWarning st))
  /\ (name ∉ selected st -> (size (selected st) < 3)%nat ->
      toggleCategory name st
      = mkState (categories st) (selected st ∪ {[ name ]}) (customTag st)
          (showLimitWarning st))
  /\ (name ∉ selected st -> size (selected st) = 3%nat ->
      toggleCategory name st
      = mkState (categories st) (selected st) (customTag st) true)
  /\ (typed = EmptyString -> addCustomTag now st = st)
  /\ (typed <> EmptyString -> size (selected st) = 3%nat ->
      addCustomTag now st
      = mkState (categories st) (selected st) (customTag st) true)
  /\ (typed <> EmptyString -> (size (selected st) < 3)%nat ->
      known = false ->
      addCustomTag now st
      = mkState
          (categories st
           ++ [mkCategory ("custom-" +:+ pretty now) typed true])
          (selected st ∪ {[ typed ]}) EmptyString (showLimitWarning st))
  /\ (typed <> EmptyString -> (size (selected st) < 3)%nat ->
      known = true -> typed ∈ selected st ->
      addCustomTag now st
      = mkState (categories st) (selected st ∖ {[ typed ]}) EmptyString
          (showLimitWarning st)
      /\ typed ∉ selected (addCustomTag now st)).
Proof.
  intros Hcap. cbv zeta.
  split; [apply toggleCategory_capped; exact Hcap|].
  split.
  { unfold addCustomTag. cbv zeta.
    destruct (String.eqb (trim (customTag st)) ""); [exact Hcap|].
    destruct (Nat.leb_spec 3 (size (selected st))); [exact Hcap|].
    destruct (negb (existsb _ (categories st))); cbn [selected].
    - pose proof (size_add_le (trim (customTag st)) (selected st)). lia.
    - apply toggleCategory_capped. exact Hcap. }
  split.
  { intros Hin. unfold toggleCategory.
    rewrite (bool_decide_eq_true_2 _ Hin). reflexivity. }
  split.
  { intros Hnot Hroom. unfold toggleCategory.
    rewrite (bool_decide_eq_false_2 _ Hnot).
    destruct (Nat.leb_spec 3 (size (selected st))); [lia|reflexivity]. }
  split.
  { intros Hnot Hfull. unfold toggleCategory.
    rewrite (bool_decide_eq_false_2 _ Hnot).
    destruct (Nat.leb_spec 3 (size (selected st))); [reflexivity|lia]. }
  split.
  { intros Hblank. unfold addCustomTag. cbv zeta. rewrite Hblank.
    reflexivity. }
  split.
  { intros Hne Hfull. unfold addCustomTag. cbv zeta.
    destruct (String.eqb_spec (trim (customTag st)) ""); [contradiction|].
    destruct (Nat.leb_spec 3 (size (selected st))); [reflexivity|lia]. }
  split.
  { intros Hne Hroom Hnew. unfold addCustomTag. cbv zeta.
    destruct (String.eqb_spec (trim (customTag st)) ""); [contradiction|].
    destruct (Nat.leb_spec 3 (size (selected st))); [lia|].
    rewrite Hnew. reflexivity. }
  intros Hne Hroom Hex Hin.
  assert (Heq : addCustomTag now st
                = mkState (categories st)
                    (selected st ∖ {[ trim (customTag st) ]}) EmptyString
                    (showLimitWarning st)).
  { unfold addCustomTag. cbv zeta.
    destruct (String.eqb_spec (trim (customTag st)) ""); [contradiction|].
    destruct (Nat.leb_spec 3 (size (selected st))); [lia|].
    rewrite Hex. cbn [negb]. unfold toggleCategory.
    rewrite (bool_decide_eq_true_2 _ Hin). reflexivity. }
  split; [exact Heq|].
  rewrite Heq. cbn [selected].
  rewrite elem_of_difference, elem_of_singleton. tauto.
Qed.

(** With three categories selected, the name of one of them typed into
    the custom field leaves it selected. *)
Lemma category_selection_capped_witness :
  selected
    (addCustomTag 0
       (mkState [mkCategory "1" "a" false]
          ({[ "a" ]} ∪ ({[ "b" ]} ∪ {[ "c" ]})) " a " false))
  = {[ "a" ]} ∪ ({[ "b" ]} ∪ {[ "c" ]}).
Proof.
  pose proof (category_selection_capped "d" 0
                (mkState [mkCategory "1" "a" false]
                   ({[ "a" ]} ∪ ({[ "b" ]} ∪ {[ "c" ]})) " a " false))
    as H.
  cbv zeta in H. destruct H as [_ [_ [_ [_ [_ [_ [H _]]]]]]].
  - vm_compute. lia.
  - rewrite H; [reflexivity|discriminate|vm_compute; reflexivity].
Defined.

End Categories.
